(** * Spool content service: structuring, embedding, graph and job pipeline

    A shallow embedding of the content-structuring and knowledge-graph
    pipeline of the service (package [app]) together with the properties
    its design document states about it.

    Conventions of the embedding.
    - A Python [str] is a [string]; a character is a code point in the
      range 0..255, so [isspace], [isdigit] and [lower] follow Python on
      that range (among others 0x85 and 0xA0 are white space, 0xC0..0xDE
      have lower-case forms).
    - A Python [int] is a [Z]; a [float] is a primitive float.
    - A function that may raise returns a [result]: [Ok v] or [Raise e],
      where [e] is an instance of [Exception].  What is raised outside
      that class (a cancelled task, an interpreter exit) passes every
      [except Exception]; it is modelled where it decides what is left
      behind, in the job orchestrator.
    - Objects that the code mutates in place are threaded as state: the
      graph store, the vector index, the job registry, the embedding
      provider.  An awaited call is sequential composition; a coroutine
      that is built and not awaited runs nothing.  Logging and sleeping
      have no effect on any value and are left out. *)

From Stdlib Require Import String Ascii List ZArith Lia Bool PrimFloat Uint63.
From stdpp Require Import gmap strings list pretty.
Import ListNotations.

Local Open Scope string_scope.
Local Open Scope list_scope.

(* ===================================================================== *)
(** * Python primitives used by the service                                *)
(* ===================================================================== *)

Module Py.

(** The instances of [Exception], each with the text that [str(e)]
    yields. *)
Inductive exn :=
| ValueError (msg : string)
| IndexError (msg : string)
| AttributeError (msg : string)
| RetryError (msg : string)
| Exception (msg : string).

Definition str_of_exn (e : exn) : string :=
  match e with
  | ValueError m | IndexError m | AttributeError m | RetryError m
  | Exception m => m
  end.

(** What can be raised outside the class [Exception]: the
    [BaseException]s that no [except Exception] catches. *)
Inductive interruption :=
| CancelledError     (* [asyncio.CancelledError]: the task was cancelled *)
| KeyboardInterrupt
| SystemExit
| GeneratorExit.

Inductive result (A : Type) :=
| Ok (v : A)
| Raise (e : exn).
Arguments Ok {A} v.
Arguments Raise {A} e.

Definition ord (c : ascii) : nat := nat_of_ascii c.

Definition in_range (lo hi : nat) (c : ascii) : bool :=
  (lo <=? ord c)%nat && (ord c <=? hi)%nat.

(** [str.isspace] on one character, also the class [\s]. *)
Definition isspace (c : ascii) : bool :=
  in_range 9 13 c || in_range 28 32 c
  || (ord c =? 133)%nat || (ord c =? 160)%nat.

(** The class [\d]. *)
Definition isdigit (c : ascii) : bool := in_range 48 57 c.

(** [A-Z] under [re.IGNORECASE]. *)
Definition isletter (c : ascii) : bool :=
  in_range 65 90 c || in_range 97 122 c.

Definition lower_char (c : ascii) : ascii :=
  if in_range 65 90 c
     || (in_range 192 222 c && negb (ord c =? 215)%nat)
  then ascii_of_nat (ord c + 32)
  else c.

(** [str.lower]. *)
Fixpoint lower (s : string) : string :=
  match s with
  | EmptyString => EmptyString
  | String c s' => String (lower_char c) (lower s')
  end.

Fixpoint lstrip (s : string) : string :=
  match s with
  | EmptyString => EmptyString
  | String c s' => if isspace c then lstrip s' else s
  end.

Fixpoint rstrip (s : string) : string :=
  match s with
  | EmptyString => EmptyString
  | String c s' =>
      match rstrip s' with
      | EmptyString => if isspace c then EmptyString else String c EmptyString
      | r => String c r
      end
  end.

(** [str.strip()] *)
Definition strip (s : string) : string := rstrip (lstrip s).

(** [s[:n]] *)
Fixpoint take (n : nat) (s : string) : string :=
  match n, s with
  | S n', String c s' => String c (take n' s')
  | _, _ => EmptyString
  end.

(** [sub in s] *)
Fixpoint contains (sub s : string) : bool :=
  String.prefix sub s
  || match s with
     | EmptyString => false
     | String _ s' => contains sub s'
     end.

(** [s.split(sep)] for a non-empty separator: occurrences are found
    from left to right and do not overlap.  [cur] is the piece being
    read, [skip] the number of separator characters still to pass. *)
Fixpoint split_go (sep s cur : string) (skip : nat) : list string :=
  match s with
  | EmptyString => [cur]
  | String c s' =>
      match skip with
      | S k => split_go sep s' cur k
      | O =>
          if String.prefix sep s
          then cur :: split_go sep s' EmptyString (String.length sep - 1)
          else split_go sep s' (cur ++ String c EmptyString) 0
      end
  end.

Definition split (sep s : string) : list string :=
  split_go sep s EmptyString 0.

(** [sep.join(parts)] *)
Definition join (sep : string) (parts : list string) : string :=
  String.concat sep parts.

Definition digit_value (c : ascii) : Z := Z.of_nat (ord c - 48).

Fixpoint int_go (acc : Z) (s : string) : option Z :=
  match s with
  | EmptyString => Some acc
  | String c s' =>
      if isdigit c then int_go (10 * acc + digit_value c)%Z s' else None
  end.

(** [sys.get_int_max_str_digits()], at CPython's default. *)
Definition int_max_str_digits : Z := 4300.

(** [int(s)] on a string of decimal digits; [None] stands for the
    [ValueError] raised on anything else, and on a string of more than
    [int_max_str_digits] digits (leading zeros count). *)
Definition int (s : string) : option Z :=
  match s with
  | EmptyString => None
  | _ =>
      if (int_max_str_digits <? Z.of_nat (String.length s))%Z then None
      else int_go 0%Z s
  end.

(** [range(0, stop, step)] as the list of its values.  A zero step
    raises [ValueError]; a negative step from 0 yields nothing. *)
Definition range0 (stop : nat) (step : Z) : result (list nat) :=
  match step with
  | Z0 => Raise (ValueError "range() arg 3 must not be zero")
  | Zneg _ => Ok []
  | Zpos p =>
      let k := Pos.to_nat p in
      Ok (map (fun j => j * k)%nat (seq 0 ((stop + k - 1) / k)))
  end.

(** [l[i:j]] for [0 <= i]; a [j] at or below [i] gives the empty list. *)
Definition slice {A} (l : list A) (i : nat) (j : Z) : list A :=
  firstn (Z.to_nat j - i) (skipn i l).

(** [[x] * n]: a non-positive [n] gives the empty list. *)
Definition list_mul {A} (x : A) (n : Z) : list A := repeat x (Z.to_nat n).

End Py.

(* ===================================================================== *)
(** * The fragment of [re] that the heading patterns use                   *)
(* ===================================================================== *)

Module Re.
Import Py.

(** A pattern is a sequence of items, matched from the start of the
    line ([re.match], and every pattern opens with [^]) up to [$].
    All patterns are compiled with [re.IGNORECASE]. *)
Inductive item :=
| Lit (c : ascii)              (* a literal character, case-insensitive *)
| Cls (p : ascii -> bool)      (* one character of a class *)
| Plus (p : ascii -> bool)     (* class+, greedy with backtracking *)
| GroupOpen                    (* opens a capture group *)
| GroupClose.                  (* closes it *)

Definition pattern := list item.

(** [.] matches anything but a line feed. *)
Definition dot (c : ascii) : bool := negb (ord c =? 10)%nat.

(** [[:\s]] *)
Definition colon_or_space (c : ascii) : bool :=
  (ord c =? 58)%nat || isspace c.

Fixpoint literal (s : string) : pattern :=
  match s with
  | EmptyString => []
  | String c s' => Lit c :: literal s'
  end.

(** [$]: the end of the string, or just before a final line feed. *)
Definition at_end (s : string) : bool :=
  match s with
  | EmptyString => true
  | String c EmptyString => (ord c =? 10)%nat
  | _ => false
  end.

(** Matcher state: the open group's text so far (if a group is open)
    and the groups already closed, latest first. *)
Record captures := { cur : option string; closed : list string }.

Definition push (c : ascii) (g : captures) : captures :=
  {| cur := option_map (fun b => (b ++ String c EmptyString)%string) (cur g);
     closed := closed g |}.

Definition open_group (g : captures) : captures :=
  {| cur := Some EmptyString; closed := closed g |}.

Definition close_group (g : captures) : captures :=
  {| cur := None;
     closed := match cur g with
               | Some b => b :: closed g
               | None => closed g
               end |}.

(** The repetitions of [p+] after the first: take as many as possible,
    and give them back one at a time while the rest [k] fails. *)
Fixpoint greedy {R} (p : ascii -> bool)
    (k : string -> captures -> option R)
    (s : string) (g : captures) : option R :=
  match s with
  | String c s' =>
      if p c then
        match greedy p k s' (push c g) with
        | Some r => Some r
        | None => k s g
        end
      else k s g
  | EmptyString => k s g
  end.

Fixpoint run (its : pattern) (s : string) (g : captures)
    : option (list string) :=
  match its with
  | [] => if at_end s then Some (rev (closed g)) else None
  | Lit a :: its' =>
      match s with
      | String c s' =>
          if Ascii.eqb (lower_char c) (lower_char a)
          then run its' s' (push c g) else None
      | EmptyString => None
      end
  | Cls p :: its' =>
      match s with
      | String c s' => if p c then run its' s' (push c g) else None
      | EmptyString => None
      end
  | Plus p :: its' =>
      match s with
      | String c s' =>
          if p c then greedy p (fun r h => run its' r h) s' (push c g)
          else None
      | EmptyString => None
      end
  | GroupOpen :: its' => run its' s (open_group g)
  | GroupClose :: its' => run its' s (close_group g)
  end.

(** [re.match(pattern, line, re.IGNORECASE)]: the groups of the match. *)
Definition rmatch (its : pattern) (line : string) : option (list string) :=
  run its line {| cur := None; closed := [] |}.

End Re.

(* ===================================================================== *)
(** * Data model ([app/models/content.py])                                 *)
(* ===================================================================== *)

Module Content.

Inductive ContentType :=
| EXPLANATION | EXAMPLE | FORMULA | EXERCISE | DEFINITION.

(** [ContentType.value] *)
Definition ContentType_value (t : ContentType) : string :=
  match t with
  | EXPLANATION => "explanation"
  | EXAMPLE => "example"
  | FORMULA => "formula"
  | EXERCISE => "exercise"
  | DEFINITION => "definition"
  end.

Inductive ProcessingStatus :=
| PENDING | PROCESSING | COMPLETED | FAILED.

Record Concept := {
  concept_id : string;
  name : string;
  content : string;
  type : ContentType;
  embedding : option (list float);
  metadata : list (string * string)
}.

Record Section := {
  section_id : string;
  section_title : string;
  section_number : option string;
  concepts : list Concept;
  section_summary : option string
}.

Record Chapter := {
  chapter_id : string;
  chapter_number : Z;
  chapter_title : string;
  sections : list Section;
  chapter_summary : option string
}.

Record Book := {
  book_id : string;
  title : string;
  subject : string;
  grade_level : option string;
  chapters : list Chapter;
  book_s3_key : option string;
  processed_at : option string;
  book_metadata : list (string * string)
}.

(** Time stamps are opaque clock readings. *)
Record ProcessingJob := {
  job_id : string;
  book_title : string;
  s3_key : string;
  status : ProcessingStatus;
  started_at : option Z;
  completed_at : option Z;
  error_message : option string;
  progress : Z;
  total_pages : option Z;
  processed_pages : option Z
}.

Definition set_concepts (cs : list Concept) (s : Section) : Section :=
  {| section_id := section_id s; section_title := section_title s;
     section_number := section_number s; concepts := cs;
     section_summary := section_summary s |}.

Definition set_sections (ss : list Section) (c : Chapter) : Chapter :=
  {| chapter_id := chapter_id c; chapter_number := chapter_number c;
     chapter_title := chapter_title c; sections := ss;
     chapter_summary := chapter_summary c |}.

Definition set_chapters (cs : list Chapter) (b : Book) : Book :=
  {| book_id := book_id b; title := title b; subject := subject b;
     grade_level := grade_level b; chapters := cs;
     book_s3_key := book_s3_key b; processed_at := processed_at b;
     book_metadata := book_metadata b |}.

Definition set_embedding (e : option (list float)) (c : Concept) : Concept :=
  {| concept_id := concept_id c; name := name c; content := content c;
     type := type c; embedding := e; metadata := metadata c |}.

(** The concepts of a book in document order, with their chapter and
    section: the triple loop that several components share. *)
Definition located_concepts (b : Book)
    : list (Chapter * Section * Concept) :=
  flat_map (fun ch =>
    flat_map (fun se =>
      map (fun co => (ch, se, co)) (concepts se)) (sections ch))
    (chapters b).

Definition all_concepts (b : Book) : list Concept :=
  flat_map (fun ch => flat_map concepts (sections ch)) (chapters b).

End Content.

(* ===================================================================== *)
(** * Structure recognizer and concept segmenter
      ([app/pdf_processing/extractor.py])                                  *)
(* ===================================================================== *)

Module Extractor.
Import Py Re Content.

(** [PDFExtractor.chapter_patterns] *)
Definition chapter_patterns : list pattern :=
  [ (* ^Chapter\s+(\d+)[:\s]+(.+)$ *)
    literal "Chapter" ++
      [Plus isspace; GroupOpen; Plus isdigit; GroupClose;
       Plus colon_or_space; GroupOpen; Plus dot; GroupClose];
    (* ^CHAPTER\s+(\d+)[:\s]+(.+)$ *)
    literal "CHAPTER" ++
      [Plus isspace; GroupOpen; Plus isdigit; GroupClose;
       Plus colon_or_space; GroupOpen; Plus dot; GroupClose];
    (* ^Unit\s+(\d+)[:\s]+(.+)$ *)
    literal "Unit" ++
      [Plus isspace; GroupOpen; Plus isdigit; GroupClose;
       Plus colon_or_space; GroupOpen; Plus dot; GroupClose];
    (* ^Module\s+(\d+)[:\s]+(.+)$ *)
    literal "Module" ++
      [Plus isspace; GroupOpen; Plus isdigit; GroupClose;
       Plus colon_or_space; GroupOpen; Plus dot; GroupClose];
    (* ^(\d+)\.\s+(.+)$ *)
    [GroupOpen; Plus isdigit; GroupClose; Lit "."; Plus isspace;
     GroupOpen; Plus dot; GroupClose] ].

(** The three entries of [PDFExtractor.section_patterns]. *)
(* ^(\d+\.\d+)\s+(.+)$ *)
Definition section_numeric : pattern :=
  [GroupOpen; Plus isdigit; Lit "."; Plus isdigit; GroupClose;
   Plus isspace; GroupOpen; Plus dot; GroupClose].

(* ^Section\s+(\d+\.\d+)[:\s]+(.+)$ *)
Definition section_worded : pattern :=
  literal "Section" ++
    [Plus isspace; GroupOpen; Plus isdigit; Lit "."; Plus isdigit;
     GroupClose; Plus colon_or_space; GroupOpen; Plus dot; GroupClose].

(* ^[A-Z]\.\s+(.+)$ *)
Definition section_letter : pattern :=
  [Cls isletter; Lit "."; Plus isspace; GroupOpen; Plus dot; GroupClose].

Definition section_patterns : list pattern :=
  [section_numeric; section_worded; section_letter].

(** [match.group(n)], [n >= 1]; [None] is the [IndexError]. *)
Definition group (gs : list string) (n : nat) : option string :=
  nth_error gs (n - 1).

(** The loop of [_match_chapter]: a failing [int] or [group] is caught
    by the bare [except] and the next pattern is tried. *)
Fixpoint match_chapter_in (pats : list pattern) (line : string)
    : option (Z * string) :=
  match pats with
  | [] => None
  | p :: rest =>
      match rmatch p line with
      | Some gs =>
          match group gs 1, group gs 2 with
          | Some g1, Some g2 =>
              match int g1 with
              | Some n => Some (n, strip g2)
              | None => match_chapter_in rest line
              end
          | _, _ => match_chapter_in rest line
          end
      | None => match_chapter_in rest line
      end
  end.

Definition _match_chapter (line : string) : option (Z * string) :=
  match_chapter_in chapter_patterns line.

(** The loop of [_match_section].  Every section pattern has a first
    group, so [match.group(1)] is always there. *)
Fixpoint match_section_in (pats : list pattern) (line : string)
    : option (string * string) :=
  match pats with
  | [] => None
  | p :: rest =>
      match rmatch p line with
      | Some gs =>
          if (length gs =? 2)%nat
          then Some (nth 0 gs "", strip (nth 1 gs ""))
          else Some ("A", strip (nth 0 gs ""))
      | None => match_section_in rest line
      end
  end.

Definition _match_section (line : string) : option (string * string) :=
  match_section_in section_patterns line.

Definition any_keyword (keywords : list string) (text : string) : bool :=
  existsb (fun keyword => contains keyword text) keywords.

Definition example_markers : list string :=
  ["example:"; "for instance"; "e.g."; "such as"].
Definition formula_markers : list string :=
  ["="; "formula"; "equation"].
Definition exercise_markers : list string :=
  ["exercise:"; "problem:"; "question:"].
Definition definition_markers : list string :=
  ["definition:"; "is defined as"; "means that"].

Definition _classify_content (text : string) : ContentType :=
  let text_lower := lower text in
  if any_keyword example_markers text_lower then EXAMPLE
  else if any_keyword formula_markers text_lower then FORMULA
  else if any_keyword exercise_markers text_lower then EXERCISE
  else if any_keyword definition_markers text_lower then DEFINITION
  else EXPLANATION.

Definition _infer_subject (title : string) : string :=
  let title_lower := lower title in
  if any_keyword ["math"; "algebra"; "geometry"; "calculus"] title_lower
  then "Mathematics"
  else if any_keyword ["physics"; "chemistry"; "biology"; "science"]
            title_lower
  then "Science"
  else if any_keyword ["history"; "geography"; "social"] title_lower
  then "Social Studies"
  else if any_keyword ["english"; "literature"; "language"] title_lower
  then "English"
  else "General".

Definition LF : string := String (ascii_of_nat 10) EmptyString.

Section WithIds.
(** The identities come from [uuid.uuid4()]; the n-th identity drawn
    in a run is [uuid4 n]. *)
Variable uuid4 : nat -> string.

(** [paragraphs] of [_extract_concepts] *)
Definition paragraphs (text : string) : list string :=
  map strip
    (List.filter (fun p => negb (String.eqb (strip p) ""))
                 (split (LF ++ LF) text)).

Fixpoint concepts_of (paras : list string) (next : nat)
    : list Concept * nat :=
  match paras with
  | [] => ([], next)
  | para :: rest =>
      if (String.length para <? 50)%nat then concepts_of rest next
      else
        let content_type := _classify_content para in
        let sentences := split ". " para in
        let name :=
          match sentences with
          | s0 :: _ => take 100 s0
          | [] => take 100 para
          end in
        let concept :=
          {| concept_id := uuid4 next; name := name; content := para;
             type := content_type; embedding := None; metadata := [] |} in
        let '(more, next') := concepts_of rest (S next) in
        (concept :: more, next')
  end.

Definition _extract_concepts (text : string) (next : nat)
    : list Concept * nat :=
  concepts_of (paragraphs text) next.

(** The local variables of [_structure_content].  [current_chapter]
    and [current_section] are references into [book]: a chapter by
    its position in [book.chapters], a section by the position of
    its chapter and its own position there. *)
Record cursor := {
  book : Book;
  current_chapter : option nat;
  current_section : option (nat * nat);
  accumulated_text : list string;
  next_uuid : nat
}.

(** [current_section.concepts.extend(new)] *)
Definition extend_section (b : Book) (ref : nat * nat)
    (new : list Concept) : Book :=
  set_chapters
    (alter (fun ch =>
              set_sections
                (alter (fun se => set_concepts (concepts se ++ new) se)
                       (snd ref) (sections ch)) ch)
           (fst ref) (chapters b)) b.

(** [if current_section and accumulated_text: ...] *)
Definition flush (st : cursor) : cursor :=
  match current_section st, accumulated_text st with
  | Some ref, _ :: _ =>
      let '(new, next) :=
        _extract_concepts (join LF (accumulated_text st)) (next_uuid st) in
      {| book := extend_section (book st) ref new;
         current_chapter := current_chapter st;
         current_section := current_section st;
         accumulated_text := [];
         next_uuid := next |}
  | _, _ => st
  end.

Definition start_chapter (st : cursor) (num : Z) (ttl : string) : cursor :=
  let ch := {| chapter_id := uuid4 (next_uuid st); chapter_number := num;
               chapter_title := ttl; sections := [];
               chapter_summary := None |} in
  {| book := set_chapters (chapters (book st) ++ [ch]) (book st);
     current_chapter := Some (length (chapters (book st)));
     current_section := None;
     accumulated_text := accumulated_text st;
     next_uuid := S (next_uuid st) |}.

Definition start_section (st : cursor) (ci : nat) (num ttl : string)
    : cursor :=
  let se := {| section_id := uuid4 (next_uuid st); section_title := ttl;
               section_number := Some num; concepts := [];
               section_summary := None |} in
  let si := match chapters (book st) !! ci with
            | Some ch => length (sections ch)
            | None => 0%nat
            end in
  {| book := set_chapters
               (alter (fun ch => set_sections (sections ch ++ [se]) ch)
                      ci (chapters (book st))) (book st);
     current_chapter := current_chapter st;
     current_section := Some (ci, si);
     accumulated_text := accumulated_text st;
     next_uuid := S (next_uuid st) |}.

(** The body of the loop over the lines of a page. *)
Definition step (st : cursor) (raw : string) : cursor :=
  let line := strip raw in
  if String.eqb line "" then st
  else
    match _match_chapter line with
    | Some (chapter_num, chapter_title) =>
        start_chapter (flush st) chapter_num chapter_title
    | None =>
        match _match_section line, current_chapter st with
        | Some (section_num, section_title), Some ci =>
            start_section (flush st) ci section_num section_title
        | _, _ =>
            {| book := book st;
               current_chapter := current_chapter st;
               current_section := current_section st;
               accumulated_text := accumulated_text st ++ [line];
               next_uuid := next_uuid st |}
        end
    end.

(** [_structure_content(pages, title)]; a page is its ["text"]. *)
Definition _structure_content (pages : list string) (ttl : string) : Book :=
  let start :=
    {| book := {| book_id := uuid4 0; title := ttl;
                  subject := _infer_subject ttl; grade_level := None;
                  chapters := []; book_s3_key := None;
                  processed_at := None; book_metadata := [] |};
       current_chapter := None; current_section := None;
       accumulated_text := []; next_uuid := 1 |} in
  let after :=
    fold_left (fun st page => fold_left step (split LF page) st)
              pages start in
  book (flush after).
End WithIds.

End Extractor.

(* ===================================================================== *)
(** * Embedding batcher ([app/embeddings/generator.py])                    *)
(* ===================================================================== *)

Module Generator.
Import Py Content.

(** The [input] argument of [client.embeddings.create]: one string or
    a list of strings. *)
Inductive input :=
| InputStr (s : string)
| InputList (l : list string).

Definition inputs (i : input) : list string :=
  match i with
  | InputStr s => [s]
  | InputList l => l
  end.

Definition max_tokens : Z := 8191.

Section WithProvider.
(** [settings.EMBEDDING_DIMENSION], [settings.EMBEDDING_BATCH_SIZE] *)
Variable dimension : Z.
Variable batch_size : Z.

(** The tokenizer ([tiktoken]): [encode] may raise, [decode] does not. *)
Variable token : Type.
Variable encode : string -> result (list token).
Variable decode : list token -> string.

(** The embedding provider.  A call either raises or answers with
    [response.data], here the list of its [.embedding] fields; the
    provider's own state (quota, outages) is the [client]. *)
Variable client : Type.
Variable create : client -> input -> client * result (list (list float)).

Definition _truncate_text (text : string) : result string :=
  match encode text with
  | Raise e => Raise e
  | Ok tokens =>
      if (Z.of_nat (length tokens) <=? max_tokens)%Z then Ok text
      else Ok (decode (firstn (Z.to_nat max_tokens) tokens))
  end.

(** The body of [generate_embedding]: one attempt. *)
Definition attempt (st : client) (text : string)
    : client * result (list float) :=
  match _truncate_text text with
  | Raise e => (st, Raise e)
  | Ok text' =>
      match create st (InputStr text') with
      | (st', Raise e) => (st', Raise e)
      | (st', Ok []) => (st', Raise (IndexError "list index out of range"))
      | (st', Ok (embedding :: _)) => (st', Ok embedding)
      end
  end.

(** [@retry(stop=stop_after_attempt(n))]: the call is made again after
    each failure, [n] calls at most, then [RetryError] is raised. *)
Fixpoint retry (n : nat) (st : client) (text : string)
    : client * result (list float) :=
  match n with
  | O => (st, Raise (RetryError "RetryError"))
  | S n' =>
      match attempt st text with
      | (st', Ok v) => (st', Ok v)
      | (st', Raise _) => retry n' st' text
      end
  end.

Definition generate_embedding : client -> string -> client * result (list float) :=
  retry 3.

Definition zero_vector : list float := list_mul 0%float dimension.

(** The fallback loop: [for text in batch: try ... except: ...]. *)
Fixpoint fallback (st : client) (batch : list string)
    : client * list (list float) :=
  match batch with
  | [] => (st, [])
  | text :: rest =>
      let '(st1, r) := generate_embedding st text in
      let v := match r with
               | Ok embedding => embedding
               | Raise _ => zero_vector
               end in
      let '(st2, vs) := fallback st1 rest in
      (st2, v :: vs)
  end.

(** [[self._truncate_text(text) for text in batch]] *)
Fixpoint truncate_all (batch : list string) : result (list string) :=
  match batch with
  | [] => Ok []
  | text :: rest =>
      match _truncate_text text with
      | Raise e => Raise e
      | Ok t =>
          match truncate_all rest with
          | Raise e => Raise e
          | Ok ts => Ok (t :: ts)
          end
      end
  end.

(** One turn of the loop over the batches: the vectors it adds to
    [embeddings].  When the truncation raises, [batch] still holds
    the original texts in the handler; when the provider call
    raises, it holds the truncated ones. *)
Definition embed_batch (st : client) (batch : list string)
    : client * list (list float) :=
  match truncate_all batch with
  | Raise _ => fallback st batch
  | Ok batch' =>
      match create st (InputList batch') with
      | (st', Ok data) => (st', data)
      | (st', Raise _) => fallback st' batch'
      end
  end.

Fixpoint embed_batches (st : client) (batches : list (list string))
    (embeddings : list (list float)) : client * list (list float) :=
  match batches with
  | [] => (st, embeddings)
  | batch :: rest =>
      let '(st', new) := embed_batch st batch in
      embed_batches st' rest (embeddings ++ new)
  end.

Definition generate_embeddings_batch (st : client) (texts : list string)
    : client * result (list (list float)) :=
  match range0 (length texts) batch_size with
  | Raise e => (st, Raise e)
  | Ok starts =>
      let batches :=
        map (fun i => slice texts i (Z.of_nat i + batch_size)) starts in
      let '(st', embeddings) := embed_batches st batches [] in
      (st', Ok embeddings)
  end.

(** [_create_concept_text] *)
Definition _create_concept_text (concept : Concept)
    (chapter_title section_title : string) : string :=
  join Extractor.LF
    ([("Chapter: " ++ chapter_title)%string;
      ("Section: " ++ section_title)%string;
      ("Type: " ++ ContentType_value (type concept))%string;
      ("Content: " ++ content concept)%string]
     ++ map (fun kv => (fst kv ++ ": " ++ snd kv)%string)
            (metadata concept)).

End WithProvider.

Arguments _truncate_text {token} encode decode text.
Arguments truncate_all {token} encode decode batch.
Arguments attempt {token} encode decode {client} create st text.
Arguments retry {token} encode decode {client} create n st text.
Arguments generate_embedding {token} encode decode {client} create st text.
Arguments fallback dimension {token} encode decode {client} create st batch.
Arguments embed_batch dimension {token} encode decode {client} create st batch.
Arguments embed_batches dimension {token} encode decode {client} create
  st batches embeddings.
Arguments generate_embeddings_batch dimension batch_size {token} encode decode
  {client} create st texts.

End Generator.


(* ===================================================================== *)
(** * Graph store and the Cypher the service sends to it                   *)
(* ===================================================================== *)

Module Cypher.
Import Py.

Inductive label := LBook | LChapter | LSection | LConcept.

Inductive rel_type :=
| HAS_CHAPTER | HAS_SECTION | HAS_CONCEPT | PREREQUISITE | RELATED_TO.

Inductive value :=
| VStr (s : string)
| VInt (z : Z)
| VDateTime (iso : string).

#[global] Instance label_eq_dec : EqDecision label.
Proof. solve_decision. Defined.
#[global] Instance rel_type_eq_dec : EqDecision rel_type.
Proof. solve_decision. Defined.
#[global] Instance value_eq_dec : EqDecision value.
Proof. solve_decision. Defined.

(** A node pattern [(x:Label {id: $id})] selects nodes by label and
    [id] property; that pair is the node's identity in the store. *)
Definition node_key : Type := label * string.

(** [n_props] holds the properties other than [id]. *)
Record node := {
  n_key : node_key;
  n_props : gmap string value
}.

Record rel := {
  r_type : rel_type;
  r_from : node_key;
  r_to : node_key
}.

#[global] Instance rel_eq_dec : EqDecision rel.
Proof. solve_decision. Defined.

(** Modelled from the spec: the graph store, an external collaborator
    that "supports upsert-by-identity for typed nodes, upsert-by-identity
    for typed directed edges between two node identities, index creation,
    and read queries".  Nodes and relationships are kept as lists in
    creation order, so that a duplicate would be a second entry. *)
Record store := {
  nodes : list node;
  rels : list rel;
  indexes : list (label * string)
}.

Definition empty_store : store :=
  {| nodes := []; rels := []; indexes := [] |}.

(** The clauses that occur in the queries of the graph manager.  A
    variable of the query text is named here by the node pattern that
    binds it. *)
Inductive clause :=
| MATCH (k : node_key)
| MERGE (k : node_key)
| SET (k : node_key) (assignments : list (string * option value))
| MERGE_REL (t : rel_type) (a b : node_key)
| CREATE_INDEX (l : label) (property : string)
| MATCH_shortestPath (t : rel_type) (a b : node_key).

Definition query := list clause.

Definition has_node (g : store) (k : node_key) : bool :=
  bool_decide (k ∈ map n_key (nodes g)).

Definition has_rel (g : store) (r : rel) : bool :=
  bool_decide (r ∈ rels g).

(** [SET x.p = v]: a null value removes the property. *)
Definition set_property (m : gmap string value)
    (a : string * option value) : gmap string value :=
  match snd a with
  | Some v => <[fst a := v]> m
  | None => delete (fst a) m
  end.

Definition set_properties (assignments : list (string * option value))
    (n : node) : node :=
  {| n_key := n_key n;
     n_props := fold_left set_property assignments (n_props n) |}.

Definition set_on (k : node_key) (assignments : list (string * option value))
    (n : node) : node :=
  if bool_decide (n_key n = k) then set_properties assignments n else n.

(** What one clause does to the store.  [None]: the clause leaves no
    row, so the rest of the query does nothing.  A read leaves the store
    as it is. *)
Definition exec (g : store) (c : clause) : option store :=
  match c with
  | MATCH k => if has_node g k then Some g else None
  | MERGE k =>
      Some (if has_node g k then g
            else {| nodes := nodes g ++ [{| n_key := k; n_props := ∅ |}];
                    rels := rels g; indexes := indexes g |})
  | SET k assignments =>
      Some {| nodes := map (set_on k assignments) (nodes g);
              rels := rels g; indexes := indexes g |}
  | MERGE_REL t a b =>
      let r := {| r_type := t; r_from := a; r_to := b |} in
      Some (if has_rel g r then g
            else {| nodes := nodes g; rels := rels g ++ [r];
                    indexes := indexes g |})
  | CREATE_INDEX l p =>
      Some (if bool_decide ((l, p) ∈ indexes g) then g
            else {| nodes := nodes g; rels := rels g;
                    indexes := indexes g ++ [(l, p)] |})
  | MATCH_shortestPath _ _ _ => Some g
  end.

(** A query that the store receives is run clause by clause. *)
Fixpoint run (g : store) (q : query) : store :=
  match q with
  | [] => g
  | c :: q' =>
      match exec g c with
      | Some g' => run g' q'
      | None => g
      end
  end.

(** The asynchronous driver ([neo4j.AsyncGraphDatabase]).  [run] of a
    transaction or session is a coroutine function: calling it builds a
    coroutine object and sends nothing.  The query is sent, and the
    store runs it, when the coroutine is awaited. *)
Inductive coroutine := Coroutine (q : query).

(** [tx.run(query, ...)] *)
Definition tx_run (q : query) : coroutine := Coroutine q.

(** [session.run(query)] *)
Definition session_run (q : query) : coroutine := Coroutine q.

(** [await c] *)
Definition await (g : store) (c : coroutine) : store :=
  match c with Coroutine q => run g q end.

(** [c.single()], where [c] is a coroutine object: it has no such
    attribute. *)
Definition single {A} (c : coroutine) : result A :=
  Raise (AttributeError "'coroutine' object has no attribute 'single'").

(** [await session.execute_write(work, ...)] and
    [await session.execute_read(work, ...)]: [work] is called with a
    transaction and awaited; what it has run is committed. *)
Definition execute_write (session : store) (work : store -> store) : store :=
  work session.

Definition execute_read {A} (session : store) (work : store -> result A)
    : result A :=
  work session.

(** Parameter conversions: a Python [None] is a Cypher null. *)
Definition str_param (s : string) : option value := Some (VStr s).
Definition int_param (z : Z) : option value := Some (VInt z).
Definition opt_str_param (s : option string) : option value :=
  option_map VStr s.
(** [datetime($p)]; [datetime(null)] is null. *)
Definition datetime_param (s : option string) : option value :=
  option_map VDateTime s.

End Cypher.

(* ===================================================================== *)
(** * Graph builder and query layer
      ([app/neo4j_client/graph_manager.py])                                *)
(* ===================================================================== *)

Module GraphManager.
Import Py Content Cypher.

(** The query of [_create_book_node] with its parameters. *)
Definition book_query (b : Book) : query :=
  [ MERGE (LBook, book_id b);
    SET (LBook, book_id b)
        [ ("title", str_param (title b));
          ("subject", str_param (subject b));
          ("grade_level", opt_str_param (grade_level b));
          ("processed_at", datetime_param (processed_at b)) ] ].

(** The coroutine of [tx.run(...)] is built and dropped: the function
    returns without awaiting it. *)
Definition _create_book_node (tx : store) (b : Book) : store :=
  let _ := tx_run (book_query b) in
  tx.

Definition chapter_query (book_id : string) (ch : Chapter) : query :=
  [ MATCH (LBook, book_id);
    MERGE (LChapter, chapter_id ch);
    SET (LChapter, chapter_id ch)
        [ ("number", int_param (chapter_number ch));
          ("title", str_param (chapter_title ch)) ];
    MERGE_REL HAS_CHAPTER (LBook, book_id) (LChapter, chapter_id ch) ].

Definition section_query (ch : Chapter) (se : Section) : query :=
  [ MATCH (LChapter, chapter_id ch);
    MERGE (LSection, section_id se);
    SET (LSection, section_id se)
        [ ("title", str_param (section_title se));
          ("number", opt_str_param (section_number se)) ];
    MERGE_REL HAS_SECTION (LChapter, chapter_id ch) (LSection, section_id se) ].

Definition concept_query (se : Section) (co : Concept) : query :=
  [ MATCH (LSection, section_id se);
    MERGE (LConcept, concept_id co);
    SET (LConcept, concept_id co)
        [ ("name", str_param (name co));
          ("type", str_param (ContentType_value (type co)));
          ("content", str_param (take 1000 (content co))) ];
    MERGE_REL HAS_CONCEPT (LSection, section_id se) (LConcept, concept_id co) ].

(** None of the three [tx.run(...)] calls is awaited. *)
Definition _create_chapter_structure (tx : store) (book_id : string)
    (ch : Chapter) : store :=
  let _ := tx_run (chapter_query book_id ch) in
  fold_left
    (fun tx se =>
       let _ := tx_run (section_query ch se) in
       fold_left (fun tx co => let _ := tx_run (concept_query se co) in tx)
                 (concepts se) tx)
    (sections ch) tx.

Definition prerequisite_query (from_id to_id : string) : query :=
  [ MATCH (LConcept, from_id);
    MATCH (LConcept, to_id);
    MERGE_REL PREREQUISITE (LConcept, from_id) (LConcept, to_id) ].

(** [tx.run(query, from_id=from_id, to_id=to_id)], not awaited. *)
Definition _create_prerequisite_relation (tx : store)
    (from_id to_id : string) : store :=
  let _ := tx_run (prerequisite_query from_id to_id) in
  tx.

(** [for i in range(len(concepts) - 1)]: both [concepts[i]] and
    [concepts[i + 1]] are in range for every such [i]. *)
Definition _create_concept_relationships (session : store) (b : Book)
    : store :=
  let concepts := all_concepts b in
  fold_left
    (fun session i =>
       match concepts !! i, concepts !! (i + 1)%nat with
       | Some c1, Some c2 =>
           execute_write session
             (fun tx =>
                _create_prerequisite_relation tx (concept_id c1)
                                              (concept_id c2))
       | _, _ => session
       end)
    (seq 0 (length concepts - 1)) session.

Definition index_queries : list query :=
  [ [CREATE_INDEX LBook "id"];
    [CREATE_INDEX LChapter "id"];
    [CREATE_INDEX LSection "id"];
    [CREATE_INDEX LConcept "id"];
    [CREATE_INDEX LConcept "name"] ].

(** [for index_query in indexes: await session.run(index_query)] *)
Definition _ensure_indexes (session : store) : store :=
  fold_left (fun session index_query => await session (session_run index_query))
            index_queries session.

Definition create_book_graph (session : store) (b : Book) : store :=
  let session := execute_write session (fun tx => _create_book_node tx b) in
  let session :=
    fold_left
      (fun session ch =>
         execute_write session
           (fun tx => _create_chapter_structure tx (book_id b) ch))
      (chapters b) session in
  let session := _create_concept_relationships session b in
  _ensure_indexes session.

(** ** Query layer *)

Record GraphNode := {
  gn_id : string;
  gn_label : string;
  gn_properties : gmap string value
}.

Record LearningPath := {
  from_concept : string;
  to_concept : string;
  path : list GraphNode;
  total_concepts : Z;
  estimated_time : option Z
}.

(** A row of the shortest-path query, by its column [path_nodes]. *)
Record record := { path_nodes : list node }.

Definition shortest_path_query (from_id to_id : string) : query :=
  [ MATCH_shortestPath PREREQUISITE (LConcept, from_id) (LConcept, to_id) ].

(** [GraphNode(id=node["id"], label="Concept", properties=dict(node))] *)
Definition graph_node (n : node) : GraphNode :=
  {| gn_id := snd (n_key n);
     gn_label := "Concept";
     gn_properties := <["id" := VStr (snd (n_key n))]> (n_props n) |}.

(** [result = tx.run(query, ...).single()]: [single] is looked up on
    the coroutine that [tx.run] gives, which is not awaited. *)
Definition _find_shortest_path (tx : store) (from_id to_id : string)
    : result (option LearningPath) :=
  match single (tx_run (shortest_path_query from_id to_id)) with
  | Raise e => Raise e
  | Ok None => Ok None
  | Ok (Some result) =>
      let path_nodes := map graph_node (path_nodes result) in
      Ok (Some {| from_concept := from_id;
                  to_concept := to_id;
                  path := path_nodes;
                  total_concepts := Z.of_nat (length path_nodes);
                  estimated_time :=
                    Some (Z.of_nat (length path_nodes) * 15)%Z |})
  end.

(** [find_learning_path]: an exception of the read is logged and raised
    again. *)
Definition find_learning_path (session : store)
    (from_concept_id to_concept_id : string) : result (option LearningPath) :=
  match execute_read session
          (fun tx => _find_shortest_path tx from_concept_id to_concept_id) with
  | Raise e => Raise e
  | Ok (Some result) => Ok (Some result)
  | Ok None => Ok None
  end.

End GraphManager.

(* ===================================================================== *)
(** * Notions for the graph store                                          *)
(* ===================================================================== *)

Module GraphNotions.
Import Content Cypher GraphManager.

(** [l[i], l[i+1]] for every [i] in [range(len(l) - 1)] *)
Definition adjacent {A} (l : list A) : list (A * A) := zip l (tail l).

Definition keys (g : store) : list node_key := map n_key (nodes g).

(** The [PREREQUISITE] relationships of a store, as pairs of ids. *)
Definition prerequisite_edges (g : store) : list (string * string) :=
  map (fun r => (snd (r_from r), snd (r_to r)))
      (List.filter (fun r => bool_decide (r_type r = PREREQUISITE)) (rels g)).

End GraphNotions.

(* ===================================================================== *)
(** * Vector indexer ([app/pinecone_client/vector_store.py])               *)
(* ===================================================================== *)

Module VectorStore.
Import Py Content.

Record vector_metadata := {
  m_concept_name : string;
  m_concept_type : string;
  m_content : string;
  m_book_id : string;
  m_book_title : string;
  m_subject : string;
  m_chapter_id : string;
  m_chapter_number : Z;
  m_chapter_title : string;
  m_section_id : string;
  m_section_title : string;
  m_indexed_at : string
}.

Record vector_data := {
  v_id : string;
  v_values : list float;
  v_metadata : vector_metadata
}.

(** Modelled from the spec: the vector store, an external collaborator
    that "supports batch upsert of (id, vector, metadata) triples".  An
    upsert writes each triple under its id; [calls] counts the upsert
    calls received, served or not. *)
Record index := {
  stored : gmap string vector_data;
  calls : nat
}.

Definition empty_index : index := {| stored := ∅; calls := 0 |}.

(** [self.batch_size] *)
Definition batch_size : Z := 100.

(** Truth value of [concept.embedding]: [None] and the empty list are
    false. *)
Definition truthy (e : option (list float)) : bool :=
  match e with
  | Some (_ :: _) => true
  | _ => false
  end.

Section WithIndex.
(** Whether the n-th upsert call to the store raises. *)
Variable unavailable : nat -> bool.
(** [datetime.utcnow().isoformat()] at the n-th vector built. *)
Variable utcnow : nat -> string.

Definition upsert (idx : index) (batch : list vector_data)
    : index * result unit :=
  if unavailable (calls idx)
  then ({| stored := stored idx; calls := S (calls idx) |},
        Raise (Exception "upsert failed"))
  else ({| stored := fold_left (fun m v => <[v_id v := v]> m) batch
                               (stored idx);
           calls := S (calls idx) |}, Ok tt).

Definition _create_vector_data (now : string) (concept : Concept)
    (b : Book) (ch : Chapter) (se : Section) : vector_data :=
  {| v_id := concept_id concept;
     v_values := default [] (embedding concept);
     v_metadata :=
       {| m_concept_name := take 100 (name concept);
          m_concept_type := ContentType_value (type concept);
          m_content := take 500 (content concept);
          m_book_id := book_id b;
          m_book_title := title b;
          m_subject := subject b;
          m_chapter_id := chapter_id ch;
          m_chapter_number := chapter_number ch;
          m_chapter_title := chapter_title ch;
          m_section_id := section_id se;
          m_section_title := section_title se;
          m_indexed_at := now |} |}.

(** The first loop of [store_book_vectors]: the vectors to upsert. *)
Definition collect_vectors (b : Book) : list vector_data :=
  imap (fun n '(ch, se, co) => _create_vector_data (utcnow n) co b ch se)
       (List.filter (fun '(_, _, co) => truthy (embedding co))
                    (located_concepts b)).

(** The second loop: one upsert per batch; a failing batch is logged
    and left out of the count. *)
Fixpoint upsert_batches (idx : index) (batches : list (list vector_data))
    (stored_count : Z) : index * Z :=
  match batches with
  | [] => (idx, stored_count)
  | batch :: rest =>
      match upsert idx batch with
      | (idx', Ok _) =>
          upsert_batches idx' rest (stored_count + Z.of_nat (length batch))
      | (idx', Raise _) => upsert_batches idx' rest stored_count
      end
  end.

Definition store_book_vectors (idx : index) (b : Book)
    : index * result Z :=
  let vectors := collect_vectors b in
  match range0 (length vectors) batch_size with
  | Raise e => (idx, Raise e)
  | Ok starts =>
      let batches :=
        map (fun i => slice vectors i (Z.of_nat i + batch_size)) starts in
      let '(idx', stored_count) := upsert_batches idx batches 0 in
      (idx', Ok stored_count)
  end.

End WithIndex.
End VectorStore.

(* ===================================================================== *)
(** * Pipeline orchestrator and job state ([app/routers/processing.py])    *)
(* ===================================================================== *)

Module Processing.
Import Py Content.

(** One attribute assignment on a job; pollers of [/status] can see the
    job after each of them. *)
Inductive write :=
| SetStatus (s : ProcessingStatus)
| SetStartedAt (t : Z)
| SetCompletedAt (t : Z)
| SetErrorMessage (m : string)
| SetProgress (p : Z).

Definition apply_write (j : ProcessingJob) (w : write) : ProcessingJob :=
  {| job_id := job_id j;
     book_title := book_title j;
     s3_key := s3_key j;
     status := match w with SetStatus s => s | _ => status j end;
     started_at := match w with SetStartedAt t => Some t | _ => started_at j end;
     completed_at :=
       match w with SetCompletedAt t => Some t | _ => completed_at j end;
     error_message :=
       match w with SetErrorMessage m => Some m | _ => error_message j end;
     progress := match w with SetProgress p => p | _ => progress j end;
     total_pages := total_pages j;
     processed_pages := processed_pages j |}.

(** The job as seen after each write, the job before them first. *)
Fixpoint observations (j : ProcessingJob) (ws : list write)
    : list ProcessingJob :=
  match ws with
  | [] => [j]
  | w :: ws' => j :: observations (apply_write j w) ws'
  end.

(** [s.endswith(suffix)] *)
Definition endswith (s suffix : string) : bool :=
  (String.length suffix <=? String.length s)%nat
  && String.eqb
       (String.substring (String.length s - String.length suffix)
                         (String.length suffix) s)
       suffix.

(** [s.replace(old, new)] for a non-empty [old] *)
Definition replace (s old new : string) : string := join new (split old s).

(** What a call made by the background task gives: a value, an
    [Exception], or an interruption, which the task's [except Exception]
    does not catch. *)
Inductive outcome (A : Type) :=
| Returns (v : A)
| Raises (e : exn)
| Interrupted (i : interruption).
Arguments Returns {A} v.
Arguments Raises {A} e.
Arguments Interrupted {A} i.

(** A piece of the task: the writes it makes on the job, in order, and
    how it ends. *)
Definition task (A : Type) : Type := list write * outcome A.

(** [job.attr = value] *)
Definition assign (w : write) : task unit := ([w], Returns tt).

(** A call that writes nothing on the job. *)
Definition call {A} (o : outcome A) : task A := ([], o).

(** One statement after the other: the second runs when the first
    returns. *)
#[global] Instance task_bind : MBind task := fun A B k m =>
  match m with
  | (ws, Returns v) => let '(ws', r) := k v in (ws ++ ws', r)
  | (ws, Raises e) => (ws, Raises e)
  | (ws, Interrupted i) => (ws, Interrupted i)
  end.

Section WithStages.
(** The stage objects, their constructors and their coroutines, as the
    orchestrator sees them.  [new_GraphManager] and [new_VectorStore]
    include the reading of [app_state.neo4j] and [app_state.pinecone]. *)
Variables extractor generator manager vectors : Type.
Variable new_PDFExtractor : outcome extractor.
Variable extract_from_bytes : extractor -> string -> string -> outcome Book.
Variable new_EmbeddingGenerator : outcome generator.
Variable process_book : generator -> Book -> outcome Book.
Variable new_GraphManager : outcome manager.
Variable create_book_graph : manager -> Book -> outcome unit.
Variable new_VectorStore : outcome vectors.
Variable store_book_vectors : vectors -> Book -> outcome Z.
(** Object storage, and [settings.MAX_PDF_SIZE_MB]. *)
Variable put_object : string -> string -> result unit.
Variable MAX_PDF_SIZE_MB : Z.
(** [datetime.utcnow()]: the reading at the start of a run and the one
    at its end. *)
Variable started completed : Z.

(** The [try] block of [process_pdf_task]. *)
Definition try_block (pdf_bytes ttl : string) : task unit :=
  assign (SetStatus PROCESSING);;
  assign (SetStartedAt started);;
  extractor ← call new_PDFExtractor;
  book ← call (extract_from_bytes extractor pdf_bytes ttl);
  assign (SetProgress 25);;
  embedding_gen ← call new_EmbeddingGenerator;
  book ← call (process_book embedding_gen book);
  assign (SetProgress 50);;
  graph_manager ← call new_GraphManager;
  call (create_book_graph graph_manager book);;
  assign (SetProgress 75);;
  vector_store ← call new_VectorStore;
  call (store_book_vectors vector_store book);;
  assign (SetProgress 100);;
  assign (SetStatus COMPLETED);;
  assign (SetCompletedAt completed).

(** [try: ... except Exception as e: ...]: the handler runs after an
    [Exception]; an interruption passes it. *)
Definition try_except (pdf_bytes ttl : string) : task unit :=
  match try_block pdf_bytes ttl with
  | (ws, Raises e) =>
      (ws ++ [SetStatus FAILED; SetErrorMessage (str_of_exn e);
              SetCompletedAt completed], Returns tt)
  | (ws, Returns u) => (ws, Returns u)
  | (ws, Interrupted i) => (ws, Interrupted i)
  end.

(** All writes of one run. *)
Definition task_writes (pdf_bytes ttl : string) : list write :=
  fst (try_except pdf_bytes ttl).

(** The interruption that ends the run, if one does. *)
Definition task_interruption (pdf_bytes ttl : string) : option interruption :=
  match snd (try_except pdf_bytes ttl) with
  | Interrupted i => Some i
  | _ => None
  end.

(** [process_pdf_task]: the registry [processing_jobs] afterwards, and
    the interruption that the task raises, if any. *)
Definition process_pdf_task (processing_jobs : gmap string ProcessingJob)
    (job_id pdf_bytes ttl : string)
    : gmap string ProcessingJob * option interruption :=
  match processing_jobs !! job_id with
  | None => (processing_jobs, None)
  | Some job =>
      (<[job_id := fold_left apply_write (task_writes pdf_bytes ttl) job]>
         processing_jobs,
       task_interruption pdf_bytes ttl)
  end.

Inductive upload_outcome :=
| Rejected (status_code : Z)         (* [HTTPException] before any job *)
| UploadFailed (job : ProcessingJob) (* [HTTPException] 500; no task *)
| Scheduled (job : ProcessingJob).   (* [process_pdf_task] was added *)

Definition new_job (job_id filename : string) : ProcessingJob :=
  {| job_id := job_id;
     book_title := replace filename ".pdf" "";
     s3_key := ("pdfs/" ++ job_id ++ "/" ++ filename)%string;
     status := PENDING;
     started_at := None; completed_at := None;
     error_message := None; progress := 0;
     total_pages := None; processed_pages := None |}.

Definition upload_failure_writes (e : exn) : list write :=
  [SetStatus FAILED; SetErrorMessage (str_of_exn e)].

(** [upload_pdf]; [job_id] is the fresh [uuid4] it draws. *)
Definition upload_pdf (processing_jobs : gmap string ProcessingJob)
    (filename contents job_id : string)
    : gmap string ProcessingJob * upload_outcome :=
  if negb (endswith filename ".pdf") then (processing_jobs, Rejected 400)
  else if (MAX_PDF_SIZE_MB * 1024 * 1024 <? Z.of_nat (String.length contents))%Z
  then (processing_jobs, Rejected 400)
  else
    let job := new_job job_id filename in
    match put_object (s3_key job) contents with
    | Ok _ => (<[job_id := job]> processing_jobs, Scheduled job)
    | Raise e =>
        let job' := fold_left apply_write (upload_failure_writes e) job in
        (<[job_id := job']> processing_jobs, UploadFailed job')
    end.

(** Every state a job passes through, from its creation by an accepted
    upload to the end of its run. *)
Definition job_history (filename contents job_id : string)
    : list ProcessingJob :=
  let job := new_job job_id filename in
  match put_object (s3_key job) contents with
  | Ok _ => observations job (task_writes contents (book_title job))
  | Raise e => observations job (upload_failure_writes e)
  end.

End WithStages.

Arguments try_block {extractor generator manager vectors}
  new_PDFExtractor extract_from_bytes new_EmbeddingGenerator process_book
  new_GraphManager create_book_graph new_VectorStore store_book_vectors
  started completed pdf_bytes ttl.
Arguments try_except {extractor generator manager vectors}
  new_PDFExtractor extract_from_bytes new_EmbeddingGenerator process_book
  new_GraphManager create_book_graph new_VectorStore store_book_vectors
  started completed pdf_bytes ttl.
Arguments task_writes {extractor generator manager vectors}
  new_PDFExtractor extract_from_bytes new_EmbeddingGenerator process_book
  new_GraphManager create_book_graph new_VectorStore store_book_vectors
  started completed pdf_bytes ttl.
Arguments task_interruption {extractor generator manager vectors}
  new_PDFExtractor extract_from_bytes new_EmbeddingGenerator process_book
  new_GraphManager create_book_graph new_VectorStore store_book_vectors
  started completed pdf_bytes ttl.
Arguments process_pdf_task {extractor generator manager vectors}
  new_PDFExtractor extract_from_bytes new_EmbeddingGenerator process_book
  new_GraphManager create_book_graph new_VectorStore store_book_vectors
  started completed processing_jobs job_id pdf_bytes ttl.
Arguments job_history {extractor generator manager vectors}
  new_PDFExtractor extract_from_bytes new_EmbeddingGenerator process_book
  new_GraphManager create_book_graph new_VectorStore store_book_vectors
  put_object started completed filename contents job_id.

Definition terminal (s : ProcessingStatus) : bool :=
  match s with
  | COMPLETED | FAILED => true
  | _ => false
  end.

End Processing.

(* ===================================================================== *)
(** * Concrete inputs used in the examples below                           *)
(* ===================================================================== *)

Module Fixtures.
Import Py Content.

(** A source of identities: the n-th is [id-n]. *)
Definition uuid (n : nat) : string := ("id-" ++ pretty n)%string.

(** A page whose first chapter starts with a line of running text, ahead
    of its first section heading. *)
Definition preface_page : string :=
  join Extractor.LF
    [ "Chapter 1: Numbers";
      "This line comes before any section heading.";
      "1.1 Addition";
      "Addition combines two numbers into a single number, their sum." ].

(** The same, with the running text ahead of the first chapter. *)
Definition foreword_page : string :=
  join Extractor.LF
    [ "This line comes before any chapter heading.";
      "Chapter 1: Numbers";
      "1.1 Addition";
      "Addition combines two numbers into a single number, their sum." ].

(** A book without chapters, for runs in which the content does not
    matter. *)
Definition blank_book : Book :=
  {| book_id := "book"; title := "Notes"; subject := "General";
     grade_level := None; chapters := []; book_s3_key := None;
     processed_at := None; book_metadata := [] |}.

(** Stages of a run whose graph write raises [error], or is interrupted:
    the constructors return, with stage objects that carry nothing. *)
Definition built : Processing.outcome unit := Processing.Returns tt.
Definition extract_ok (self : unit) (pdf_bytes ttl : string)
    : Processing.outcome Book :=
  Processing.Returns blank_book.
Definition embed_ok (self : unit) (b : Book) : Processing.outcome Book :=
  Processing.Returns b.
Definition graph_ok (self : unit) (b : Book) : Processing.outcome unit :=
  Processing.Returns tt.
Definition graph_raises (error : exn) (self : unit) (b : Book)
    : Processing.outcome unit :=
  Processing.Raises error.
Definition graph_interrupted (i : interruption) (self : unit) (b : Book)
    : Processing.outcome unit :=
  Processing.Interrupted i.
Definition vectors_ok (self : unit) (b : Book) : Processing.outcome Z :=
  Processing.Returns 0%Z.
Definition put_ok (key body : string) : result unit := Ok tt.

Definition concept (id text : string) (e : option (list float)) : Concept :=
  {| concept_id := id; name := text; content := text; type := EXPLANATION;
     embedding := e; metadata := [] |}.

Definition book_of (cs : list Concept) : Book :=
  {| book_id := "book"; title := "Notes"; subject := "General";
     grade_level := None;
     chapters :=
       [ {| chapter_id := "ch1"; chapter_number := 1;
            chapter_title := "Numbers";
            sections :=
              [ {| section_id := "se1"; section_title := "Addition";
                   section_number := Some "1.1"; concepts := cs;
                   section_summary := None |} ];
            chapter_summary := None |} ];
     book_s3_key := None; processed_at := None; book_metadata := [] |}.

(** Three concepts, the second without an embedding. *)
Definition two_of_three : Book :=
  book_of [ concept "c1" "one" (Some [1%float; 0%float]);
            concept "c2" "two" None;
            concept "c3" "three" (Some [0%float; 1%float]) ].

(** One concept whose embedding is the empty list. *)
Definition empty_embedding : Book :=
  book_of [ concept "c1" "one" (Some []) ].

(** A tokenizer with one token per character. *)
Definition encode (s : string) : result (list ascii) :=
  Ok (list_ascii_of_string s).
Definition decode (ts : list ascii) : string := string_of_list_ascii ts.

(** A provider that answers every text with a vector of its own, and
    fails on every call whose number (from 0) is even. *)
Definition embed1 (s : string) : list float :=
  [PrimFloat.of_uint63 (Uint63.of_Z (Z.of_nat (String.length s))); 1%float].

Definition flaky (calls : nat) (i : Generator.input)
    : nat * result (list (list float)) :=
  (S calls,
   if Nat.even calls then Raise (Exception "rate limit")
   else Ok (map embed1 (Generator.inputs i))).

(** A provider that is down. *)
Definition down (calls : nat) (i : Generator.input)
    : nat * result (list (list float)) :=
  (S calls, Raise (Exception "service unavailable")).

(** Three concepts [c1], [c2], [c3] in document order. *)
Definition chain_book : Book :=
  book_of [ concept "c1" "one" None; concept "c2" "two" None;
            concept "c3" "three" None ].

(** A store that holds the concepts [c1], [c2], [c3] and the
    prerequisite chain from [c1] to [c3]. *)
Definition chain_store : Cypher.store :=
  {| Cypher.nodes :=
       map (fun id => {| Cypher.n_key := (Cypher.LConcept, id);
                         Cypher.n_props := ∅ |})
           ["c1"; "c2"; "c3"];
     Cypher.rels :=
       [ {| Cypher.r_type := Cypher.PREREQUISITE;
            Cypher.r_from := (Cypher.LConcept, "c1");
            Cypher.r_to := (Cypher.LConcept, "c2") |};
         {| Cypher.r_type := Cypher.PREREQUISITE;
            Cypher.r_from := (Cypher.LConcept, "c2");
            Cypher.r_to := (Cypher.LConcept, "c3") |} ];
     Cypher.indexes := [] |}.

Definition always_up (n : nat) : bool := false.
Definition clock (n : nat) : string := ("t" ++ pretty n)%string.

End Fixtures.

(* ===================================================================== *)
(** * Notions used to state the properties                                 *)
(* ===================================================================== *)

Module Statements.
Import Py Content.

(** A marker occurs in a text, in any letter case. *)
Definition occurs (marker text : string) : Prop :=
  exists pre found post,
    text = (pre ++ found ++ post)%string /\ lower found = marker.

(** There is a [PREREQUISITE] relationship from [a] to [b]. *)
Definition prerequisite (g : Cypher.store) (a b : Cypher.node_key) : Prop :=
  In {| Cypher.r_type := Cypher.PREREQUISITE;
        Cypher.r_from := a; Cypher.r_to := b |} (Cypher.rels g).

(** A node sequence in which each node is a prerequisite of the next. *)
Fixpoint is_path (g : Cypher.store) (p : list Cypher.node_key) : Prop :=
  match p with
  | a :: rest =>
      match rest with
      | b :: _ => prerequisite g a b /\ is_path g rest
      | [] => True
      end
  | [] => True
  end.

(** [p] leads from [a] to [b] over at least one relationship. *)
Definition connects (g : Cypher.store) (a b : Cypher.node_key)
    (p : list Cypher.node_key) : Prop :=
  is_path g p /\ head p = Some a /\ last p = Some b
  /\ (2 <= length p)%nat.

Section Correspondence.
Variable dimension : Z.
Variable token : Type.
Variable encode : string -> result (list token).
Variable decode : list token -> string.
Variable client : Type.
Variable create :
  client -> Generator.input -> client * result (list (list float)).
(** [embeds t v]: the provider may answer the text [t] with [v]. *)
Variable embeds : string -> list float -> Prop.

(** The text the provider receives for [t]: [t] truncated, or truncated
    twice when the per-item fallback takes it from a truncated batch. *)
Definition sent (t t' : string) : Prop :=
  Generator._truncate_text encode decode t = Ok t'
  \/ exists t1, Generator._truncate_text encode decode t = Ok t1
              /\ Generator._truncate_text encode decode t1 = Ok t'.

(** The retried call for [t] gave up: from some state of the provider,
    every attempt allowed for [t] raised. *)
Definition gave_up (t : string) : Prop :=
  exists st st' e,
    Generator.generate_embedding encode decode create st t = (st', Raise e).

(** The vector [v] belongs to the text [t]: it is the provider's answer
    to what was sent for [t]; or it is the zero-vector placeholder, and
    the retried call for [t] (for [t] truncated, when the fallback took
    it from a truncated batch) gave up. *)
Definition corresponds (t : string) (v : list float) : Prop :=
  (exists t', sent t t' /\ embeds t' v)
  \/ (v = Generator.zero_vector dimension
      /\ (gave_up t
          \/ exists t1, Generator._truncate_text encode decode t = Ok t1
                        /\ gave_up t1)).

(** ** Failure containment, in the words of the design document

    "Batch-level fallback to per-item calls, then per-item fallback to a
    zero-vector placeholder", with a bounded retry of three attempts for
    each item. *)

(** [failed_attempts n st t st']: [n] calls for [t] in a row, from
    provider state [st] to [st'], each of which raised. *)
Inductive failed_attempts : nat -> client -> string -> client -> Prop :=
| no_attempt st t : failed_attempts 0 st t st
| one_more n st t st1 e st' :
    Generator.attempt encode decode create st t = (st1, Raise e) ->
    failed_attempts n st1 t st' ->
    failed_attempts (S n) st t st'.

(** One text on its own: the first of at most three attempts that
    answers gives the vector; after three attempts that raised, the
    vector is the zero vector. *)
Inductive item_vector (st : client) (t : string)
    : client -> list float -> Prop :=
| item_answered n st1 st' v :
    (n < 3)%nat ->
    failed_attempts n st t st1 ->
    Generator.attempt encode decode create st1 t = (st', Ok v) ->
    item_vector st t st' v
| item_placeholder st' :
    failed_attempts 3 st t st' ->
    item_vector st t st' (Generator.zero_vector dimension).

Inductive items_vectors
    : client -> list string -> client -> list (list float) -> Prop :=
| items_done st : items_vectors st [] st []
| items_next st t rest st1 v st' vs :
    item_vector st t st1 v ->
    items_vectors st1 rest st' vs ->
    items_vectors st (t :: rest) st' (v :: vs).

(** One batch: the answer to the call for the whole batch; or, when
    that call raises, the vectors of its texts taken one by one.  A batch
    whose truncation raises is not sent at all. *)
Inductive batch_vectors (st : client) (batch : list string)
    : client -> list (list float) -> Prop :=
| batch_answered batch' st' data :
    Generator.truncate_all encode decode batch = Ok batch' ->
    create st (Generator.InputList batch') = (st', Ok data) ->
    batch_vectors st batch st' data
| batch_call_failed batch' st1 e st' vs :
    Generator.truncate_all encode decode batch = Ok batch' ->
    create st (Generator.InputList batch') = (st1, Raise e) ->
    items_vectors st1 batch' st' vs ->
    batch_vectors st batch st' vs
| batch_not_sent e st' vs :
    Generator.truncate_all encode decode batch = Raise e ->
    items_vectors st batch st' vs ->
    batch_vectors st batch st' vs.

Inductive batches_vectors
    : client -> list (list string) -> client -> list (list float) -> Prop :=
| batches_done st : batches_vectors st [] st []
| batches_next st batch rest st1 vs st' ws :
    batch_vectors st batch st1 vs ->
    batches_vectors st1 rest st' ws ->
    batches_vectors st (batch :: rest) st' (vs ++ ws).
End Correspondence.

Arguments sent {token} encode decode t t'.
Arguments gave_up {token} encode decode {client} create t.
Arguments corresponds dimension {token} encode decode {client} create
  embeds t v.
Arguments failed_attempts {token} encode decode {client} create.
Arguments item_vector dimension {token} encode decode {client} create.
Arguments items_vectors dimension {token} encode decode {client} create.
Arguments batch_vectors dimension {token} encode decode {client} create.
Arguments batches_vectors dimension {token} encode decode {client} create.

(** The Section that [current_section] refers to. *)
Definition section_at (st : Extractor.cursor) : option Section :=
  match Extractor.current_section st with
  | Some (ci, si) =>
      match chapters (Extractor.book st) !! ci with
      | Some ch => sections ch !! si
      | None => None
      end
  | None => None
  end.

(** No state that follows a terminal one is [PROCESSING]. *)
Fixpoint never_resumes (h : list ProcessingJob) : Prop :=
  match h with
  | [] => True
  | j :: h' =>
      (Processing.terminal (status j) = true ->
       Forall (fun j' => status j' <> PROCESSING) h')
      /\ never_resumes h'
  end.

(** The job-lifecycle property as it is worded: whenever the graph
    write raises an exception, the job ends [FAILED] at progress 50 with a
    non-empty error message. *)
Definition failed_job_has_nonempty_message : Prop :=
  forall (extractor generator manager vectors : Type)
         (new_PDFExtractor : Processing.outcome extractor)
         extract_from_bytes
         (new_EmbeddingGenerator : Processing.outcome generator)
         process_book
         (new_GraphManager : Processing.outcome manager)
         create_book_graph
         (new_VectorStore : Processing.outcome vectors)
         store_book_vectors
         put_object MAX_PDF_SIZE_MB started completed
         jobs filename contents job_id jobs1 job ex book gen book' gm e,
    Processing.upload_pdf put_object MAX_PDF_SIZE_MB jobs filename contents
                          job_id = (jobs1, Processing.Scheduled job) ->
    new_PDFExtractor = Processing.Returns ex ->
    extract_from_bytes ex contents (book_title job)
    = Processing.Returns book ->
    new_EmbeddingGenerator = Processing.Returns gen ->
    process_book gen book = Processing.Returns book' ->
    new_GraphManager = Processing.Returns gm ->
    create_book_graph gm book' = Processing.Raises e ->
    exists final m,
      fst (Processing.process_pdf_task new_PDFExtractor extract_from_bytes
             new_EmbeddingGenerator process_book new_GraphManager
             create_book_graph new_VectorStore store_book_vectors
             started completed jobs1 job_id contents (book_title job))
      !! job_id = Some final
      /\ status final = FAILED
      /\ progress final = 50%Z
      /\ error_message final = Some m /\ m <> "".

(** The same property for what is raised outside [Exception]: the job
    ends [FAILED] also when the graph write is interrupted. *)
Definition interrupted_job_fails : Prop :=
  forall (extractor generator manager vectors : Type)
         (new_PDFExtractor : Processing.outcome extractor)
         extract_from_bytes
         (new_EmbeddingGenerator : Processing.outcome generator)
         process_book
         (new_GraphManager : Processing.outcome manager)
         create_book_graph
         (new_VectorStore : Processing.outcome vectors)
         store_book_vectors
         put_object MAX_PDF_SIZE_MB started completed
         jobs filename contents job_id jobs1 job ex book gen book' gm i,
    Processing.upload_pdf put_object MAX_PDF_SIZE_MB jobs filename contents
                          job_id = (jobs1, Processing.Scheduled job) ->
    new_PDFExtractor = Processing.Returns ex ->
    extract_from_bytes ex contents (book_title job)
    = Processing.Returns book ->
    new_EmbeddingGenerator = Processing.Returns gen ->
    process_book gen book = Processing.Returns book' ->
    new_GraphManager = Processing.Returns gm ->
    create_book_graph gm book' = Processing.Interrupted i ->
    exists final,
      fst (Processing.process_pdf_task new_PDFExtractor extract_from_bytes
             new_EmbeddingGenerator process_book new_GraphManager
             create_book_graph new_VectorStore store_book_vectors
             started completed jobs1 job_id contents (book_title job))
      !! job_id = Some final
      /\ status final = FAILED.

(** The vector indexer's property with "has an embedding" read as "is
    not null": the count a run without store failures would return. *)
Definition stores_every_non_null_embedding : Prop :=
  forall utcnow b,
    snd (VectorStore.store_book_vectors (fun _ => false) utcnow
           VectorStore.empty_index b)
    = Ok (Z.of_nat
            (length (List.filter
                       (fun c => match embedding c with
                                 | Some _ => true
                                 | None => false
                                 end)
                       (all_concepts b)))).

End Statements.

(* ===================================================================== *)
(** * Further notions for the job state machine                            *)
(* ===================================================================== *)

Module JobStatements.
Import Py Content.

(** The progress values of a history never go down. *)
Fixpoint progress_rises (h : list ProcessingJob) : Prop :=
  match h with
  | [] => True
  | j :: h' =>
      Forall (fun j' => (progress j <= progress j')%Z) h'
      /\ progress_rises h'
  end.

(** The fields that identify a job. *)
Definition same_identity (a b : ProcessingJob) : Prop :=
  job_id a = job_id b /\ book_title a = book_title b /\ s3_key a = s3_key b
  /\ total_pages a = total_pages b /\ processed_pages a = processed_pages b.

(** A stage of the pipeline: its object is built, then its coroutine is
    awaited. *)
Definition stage {S A : Type} (new : Processing.outcome S)
    (run : S -> Processing.outcome A) : Processing.outcome A :=
  match new with
  | Processing.Returns self => run self
  | Processing.Raises e => Processing.Raises e
  | Processing.Interrupted i => Processing.Interrupted i
  end.

(** A call that runs to its end: it returns, or raises an
    [Exception]. *)
Definition uninterrupted {A : Type} (r : result A) : Processing.outcome A :=
  match r with
  | Ok v => Processing.Returns v
  | Raise e => Processing.Raises e
  end.

End JobStatements.

(* ===================================================================== *)
(** * The read side of the vector store                                    *)
(* ===================================================================== *)

Module VectorQueries.
Import Py Content VectorStore.

(** How many of the [n] store calls numbered from [from] on raise. *)
Definition failed_calls (unavailable : nat -> bool) (from n : nat) : nat :=
  length (List.filter unavailable (seq from n)).

Section WithIndex.
(** Whether the n-th call to the store raises. *)
Variable unavailable : nat -> bool.

(** Modelled from the spec: [index.fetch(ids)] answers with the stored
    vectors among [ids], keyed by id; like every call it can raise. *)
Definition fetch (idx : index) (ids : list string)
    : index * result (gmap string vector_data) :=
  let idx' := {| stored := stored idx; calls := S (calls idx) |} in
  if unavailable (calls idx)
  then (idx', Raise (Exception "fetch failed"))
  else (idx',
        Ok (list_to_map
              (omap (fun i => (fun v => (i, v)) <$> stored idx !! i) ids))).

(** [get_concept_by_id]: the vector under [concept_id], [None] when
    there is none and also when the fetch raises. *)
Definition get_concept_by_id (idx : index) (concept_id : string)
    : index * option vector_data :=
  match fetch idx [concept_id] with
  | (idx', Ok vectors) =>
      (idx', if bool_decide (concept_id ∈ dom vectors)
             then vectors !! concept_id else None)
  | (idx', Raise _) => (idx', None)
  end.

End WithIndex.

(** The request filters of [search_similar]: a dictionary or [None]. *)
Definition filters := option (gmap string string).

(** [pinecone_filter] as [search_similar] builds it. *)
Definition pinecone_filter (f : filters) : gmap string string :=
  match f with
  | None => ∅
  | Some d =>
      if bool_decide (d = ∅) then ∅
      else
        let pf0 : gmap string string := ∅ in
        let pf1 := match d !! "book_id" with
                   | Some v => <["book_id" := v]> pf0
                   | None => pf0
                   end in
        let pf2 := match d !! "subject" with
                   | Some v => <["subject" := v]> pf1
                   | None => pf1
                   end in
        match d !! "concept_type" with
        | Some v => <["concept_type" := v]> pf2
        | None => pf2
        end
  end.

(** A match of [index.query]. *)
Record scored_match := {
  match_id : string;
  match_score : float;
  match_metadata : gmap string string
}.

(** [ContentType(value)]: the member with that value, if any. *)
Definition ContentType_of_value (s : string) : option ContentType :=
  if String.eqb s "explanation" then Some EXPLANATION
  else if String.eqb s "example" then Some EXAMPLE
  else if String.eqb s "formula" then Some FORMULA
  else if String.eqb s "exercise" then Some EXERCISE
  else if String.eqb s "definition" then Some DEFINITION
  else None.

Record SearchResult := {
  sr_concept_id : string;
  sr_name : string;
  sr_content : string;
  sr_type : ContentType;
  sr_score : float;
  sr_book_title : string;
  sr_chapter_title : string;
  sr_section_title : string;
  sr_metadata : gmap string string
}.

(** One [SearchResult(...)]: the model validation rejects a
    [concept_type] that is no member of [ContentType]. *)
Definition to_search_result (m : scored_match) : result SearchResult :=
  let metadata := match_metadata m in
  match ContentType_of_value
          (default "explanation" (metadata !! "concept_type")) with
  | None => Raise (ValueError "validation error for SearchResult")
  | Some t =>
      Ok {| sr_concept_id := match_id m;
            sr_name := default "" (metadata !! "concept_name");
            sr_content := default "" (metadata !! "content");
            sr_type := t;
            sr_score := match_score m;
            sr_book_title := default "" (metadata !! "book_title");
            sr_chapter_title := default "" (metadata !! "chapter_title");
            sr_section_title := default "" (metadata !! "section_title");
            sr_metadata := metadata |}
  end.

Fixpoint to_search_results (ms : list scored_match)
    : result (list SearchResult) :=
  match ms with
  | [] => Ok []
  | m :: ms' =>
      match to_search_result m with
      | Raise e => Raise e
      | Ok r =>
          match to_search_results ms' with
          | Raise e => Raise e
          | Ok rs => Ok (r :: rs)
          end
      end
  end.

Section WithQuery.
(** [index.query(vector, top_k, include_metadata=True, filter)]: the
    matches, or an exception. *)
Variable query :
  list float -> Z -> option (gmap string string) -> result (list scored_match).

(** [search_similar]: every exception is logged and raised again. *)
Definition search_similar (query_embedding : list float) (limit : Z)
    (f : filters) : result (list SearchResult) :=
  let pf := pinecone_filter f in
  match query query_embedding limit
          (if bool_decide (pf = ∅) then None else Some pf) with
  | Raise e => Raise e
  | Ok matches => to_search_results matches
  end.

End WithQuery.

(** The keys of a request filter that [search_similar] looks at. *)
Definition filter_keys : list string := ["book_id"; "subject"; "concept_type"].

Definition filter_value (f : filters) (k : string) : option string :=
  match f with
  | None => None
  | Some d => d !! k
  end.

End VectorQueries.

(* ===================================================================== *)
(** * Further sample data                                                  *)
(* ===================================================================== *)

Module Samples.
Import Py Content.

(** The section and the chapter of [Fixtures.book_of cs]. *)
Definition section_of (cs : list Concept) : Section :=
  {| section_id := "se1"; section_title := "Addition";
     section_number := Some "1.1"; concepts := cs;
     section_summary := None |}.

Definition chapter_of (cs : list Concept) : Chapter :=
  {| chapter_id := "ch1"; chapter_number := 1; chapter_title := "Numbers";
     sections := [section_of cs]; chapter_summary := None |}.

Definition c1 : Concept := Fixtures.concept "c1" "one" (Some [1%float; 0%float]).
Definition c2 : Concept := Fixtures.concept "c2" "two" None.
Definition c3 : Concept := Fixtures.concept "c3" "three" (Some [0%float; 1%float]).

End Samples.

(* ===================================================================== *)
(** * Reading a PDF ([PDFExtractor.extract_from_bytes])                    *)
(* ===================================================================== *)

Module Extraction.
Import Py Content Extractor.

(** The chapter headings among the lines of the pages, in order, as
    [_match_chapter] reads them. *)
Definition heading_lines (pages : list string) : list (Z * string) :=
  omap (fun raw => _match_chapter (strip raw)) (flat_map (split LF) pages).

(** [if text:] keeps a page whose text is a non-empty string. *)
Definition pages_with_text (texts : list (option string)) : list string :=
  omap (fun t => match t with
                 | Some s => if String.eqb s "" then None else Some s
                 | None => None
                 end) texts.

(** Whether a line is a chapter heading. *)
Definition is_chapter_line (raw : string) : bool :=
  match _match_chapter (strip raw) with
  | Some _ => true
  | None => false
  end.

(** The lines that follow the first chapter heading. *)
Fixpoint after_first_chapter (lines : list string) : list string :=
  match lines with
  | [] => []
  | raw :: rest =>
      if is_chapter_line raw then rest else after_first_chapter rest
  end.

(** The section headings among lines, as [_match_section] reads them;
    a chapter heading is no section heading. *)
Definition section_headings (lines : list string) : list (string * string) :=
  omap (fun raw => if is_chapter_line raw then None
                   else _match_section (strip raw)) lines.

Section WithReaders.
Variable uuid4 : nat -> string.
(** The two PDF libraries: what [page.extract_text()] gives for each
    page of the document, or the exception raised on the way. *)
Variable pdfplumber_pages : string -> result (list (option string)).
Variable pypdf2_pages : string -> result (list (option string)).

(** An exception of pdfplumber is logged and gives no pages. *)
Definition _extract_with_pdfplumber (pdf_bytes : string) : list string :=
  match pdfplumber_pages pdf_bytes with
  | Ok texts => pages_with_text texts
  | Raise _ => []
  end.

(** An exception of PyPDF2 is logged and raised again. *)
Definition _extract_with_pypdf2 (pdf_bytes : string)
    : result (list string) :=
  match pypdf2_pages pdf_bytes with
  | Ok texts => Ok (pages_with_text texts)
  | Raise e => Raise e
  end.

Definition extract_from_bytes (pdf_bytes ttl : string) : result Book :=
  match _extract_with_pdfplumber pdf_bytes with
  | [] =>
      match _extract_with_pypdf2 pdf_bytes with
      | Raise e => Raise e
      | Ok content => Ok (_structure_content uuid4 content ttl)
      end
  | content => Ok (_structure_content uuid4 content ttl)
  end.

End WithReaders.
End Extraction.

(* ===================================================================== *)
(** * Embedding a whole book ([EmbeddingGenerator.process_book])           *)
(* ===================================================================== *)

Module BookEmbedding.
Import Py Content Generator.

(** The text sent for a concept, with the titles of its chapter and
    section. *)
Definition concept_text (loc : Chapter * Section * Concept) : string :=
  let '(ch, se, co) := loc in
  _create_concept_text co (chapter_title ch) (section_title se).

(** [if i < len(embeddings): concept.embedding = embeddings[i]] *)
Definition assign_at (embeddings : list (list float)) (i : nat)
    (c : Concept) : Concept :=
  match embeddings !! i with
  | Some e => set_embedding (Some e) c
  | None => c
  end.

(** The last loop of [process_book].  It walks [all_concepts], the
    concepts in document order numbered from 0, and writes into the
    concept objects of the book; here the book is rebuilt with the
    concept at position [i] updated.  (Every concept object is taken to
    occur once in the book, as in a book built by the extractor.) *)
Fixpoint assign_concepts (embeddings : list (list float)) (i : nat)
    (cs : list Concept) : list Concept :=
  match cs with
  | [] => []
  | c :: cs' =>
      assign_at embeddings i c :: assign_concepts embeddings (S i) cs'
  end.

Fixpoint assign_sections (embeddings : list (list float)) (i : nat)
    (ses : list Section) : list Section :=
  match ses with
  | [] => []
  | se :: ses' =>
      set_concepts (assign_concepts embeddings i (concepts se)) se
      :: assign_sections embeddings (i + length (concepts se)) ses'
  end.

Fixpoint assign_chapters (embeddings : list (list float)) (i : nat)
    (chs : list Chapter) : list Chapter :=
  match chs with
  | [] => []
  | ch :: chs' =>
      set_sections (assign_sections embeddings i (sections ch)) ch
      :: assign_chapters embeddings
           (i + length (flat_map concepts (sections ch))) chs'
  end.

Section WithProvider.
Variable dimension : Z.
Variable batch_size : Z.
Variable token : Type.
Variable encode : string -> result (list token).
Variable decode : list token -> string.
Variable client : Type.
Variable create : client -> input -> client * result (list (list float)).

Definition process_book (st : client) (b : Book) : client * result Book :=
  let all_concepts := located_concepts b in
  let texts := map concept_text all_concepts in
  match generate_embeddings_batch dimension batch_size encode decode create
          st texts with
  | (st', Raise e) => (st', Raise e)
  | (st', Ok embeddings) =>
      (st', Ok (set_chapters (assign_chapters embeddings 0 (chapters b)) b))
  end.

End WithProvider.

Arguments process_book dimension batch_size {token} encode decode
  {client} create st b.

(** What [process_book] leaves alone: the book's own fields and, for
    each chapter and section, everything but the concepts. *)
Definition skeleton (b : Book) :=
  (book_id b, title b, subject b, grade_level b, book_s3_key b,
   map (fun ch =>
          (chapter_id ch, chapter_number ch, chapter_title ch,
           chapter_summary ch,
           map (fun se =>
                  (section_id se, section_title se, section_number se,
                   section_summary se, length (concepts se)))
               (sections ch)))
       (chapters b)).

End BookEmbedding.

(* ===================================================================== *)
(** * Notions for the heading patterns                                     *)
(* ===================================================================== *)

Module ReNotions.
Import Py Re.

(** Every character of [s] is in the class [p]. *)
Fixpoint all_chars (p : ascii -> bool) (s : string) : bool :=
  match s with
  | EmptyString => true
  | String c s' => p c && all_chars p s'
  end.

(** The matcher state after the characters of [t] were consumed. *)
Fixpoint push_all (t : string) (g : captures) : captures :=
  match t with
  | EmptyString => g
  | String c t' => push_all t' (push c g)
  end.

End ReNotions.

(* ===================================================================== *)
(** * The concept route ([app/routers/content.py])                         *)
(* ===================================================================== *)

Module ContentRoutes.
Import Py Content VectorStore VectorQueries.

(** What a route hands back: a body, or an [HTTPException]. *)
Inductive http (A : Type) :=
| Response (body : A)
| HTTPException (status_code : Z) (detail : string).
Arguments Response {A} body.
Arguments HTTPException {A} status_code detail.

(** The metadata dictionary of a stored vector, each value as [str]
    renders it. *)
Definition metadata_items (m : vector_metadata) : list (string * string) :=
  [ ("concept_name", m_concept_name m);
    ("concept_type", m_concept_type m);
    ("content", m_content m);
    ("book_id", m_book_id m);
    ("book_title", m_book_title m);
    ("subject", m_subject m);
    ("chapter_id", m_chapter_id m);
    ("chapter_number", pretty (m_chapter_number m));
    ("chapter_title", m_chapter_title m);
    ("section_id", m_section_id m);
    ("section_title", m_section_title m);
    ("indexed_at", m_indexed_at m) ].

Section WithIndex.
Variable unavailable : nat -> bool.

(** [get_concept]: the concept is rebuilt from the stored vector.  The
    [HTTPException] 404 is raised again as it is; any other exception,
    such as the validation error for a [concept_type] that is no member
    of [ContentType], becomes a 500. *)
Definition get_concept (idx : index) (concept_id : string)
    : index * http Concept :=
  match get_concept_by_id unavailable idx concept_id with
  | (idx', None) => (idx', HTTPException 404 "Concept not found")
  | (idx', Some concept_data) =>
      let metadata := v_metadata concept_data in
      match ContentType_of_value (m_concept_type metadata) with
      | None => (idx', HTTPException 500 "Failed to retrieve concept")
      | Some t =>
          (idx',
           Response {| Content.concept_id := concept_id;
                       name := m_concept_name metadata;
                       content := m_content metadata;
                       type := t;
                       embedding := Some (v_values concept_data);
                       metadata := metadata_items metadata |})
      end
  end.

End WithIndex.
End ContentRoutes.

(* ===================================================================== *)
(** * The identities of a book                                             *)
(* ===================================================================== *)

Module Identities.
Import Py Content.

(** Every id that occurs in a book: its own, and those of its chapters,
    sections and concepts. *)
Definition section_ids (se : Section) : list string :=
  section_id se :: map concept_id (concepts se).

Definition chapter_ids (ch : Chapter) : list string :=
  chapter_id ch :: flat_map section_ids (sections ch).

Definition ids_of (b : Book) : list string :=
  book_id b :: flat_map chapter_ids (chapters b).

End Identities.


(* ===================================================================== *)
(** * Batching: [range] with a positive step and slices                    *)
(* ===================================================================== *)

Module PyFacts.
Import Py.

Lemma firstn_then_firstn {A} (l : list A) a b :
  firstn a l ++ firstn b (skipn a l) = firstn (a + b) l.
Proof.
  revert l. induction a as [|a IH]; intros l; simpl.
  - reflexivity.
  - destruct l as [|x l]; simpl.
    + now rewrite firstn_nil.
    + now rewrite IH.
Qed.

Lemma slice_step {A} (l : list A) j p :
  slice l (j * Pos.to_nat p) (Z.of_nat (j * Pos.to_nat p) + Z.pos p)
  = firstn (Pos.to_nat p) (skipn (j * Pos.to_nat p) l).
Proof.
  unfold slice. f_equal. lia.
Qed.

Lemma batches_upto {A} (l : list A) p m :
  concat (map (fun i => slice l i (Z.of_nat i + Z.pos p))
              (map (fun j => j * Pos.to_nat p)%nat (seq 0 m)))
  = firstn (m * Pos.to_nat p) l.
Proof.
  induction m as [|m IH].
  - reflexivity.
  - rewrite seq_S, !map_app, concat_app, IH. simpl.
    rewrite app_nil_r, slice_step, firstn_then_firstn.
    f_equal. lia.
Qed.

(** With a positive step the batches, one after the other, are the list
    itself: nothing is lost, repeated or reordered. *)
Lemma range0_slices {A} (l : list A) (step : Z) :
  (0 < step)%Z ->
  exists starts,
    range0 (length l) step = Ok starts
    /\ concat (map (fun i => slice l i (Z.of_nat i + step)) starts) = l.
Proof.
  intros Hpos. destruct step as [|p|p]; try lia.
  eexists. split; [reflexivity|].
  rewrite batches_upto. apply firstn_all2.
  pose proof (Pos2Nat.is_pos p) as Hp.
  set (k := Pos.to_nat p) in *. set (n := length l).
  pose proof (Nat.div_mod_eq (n + k - 1) k) as Hd.
  pose proof (Nat.mod_upper_bound (n + k - 1) k) as Hm.
  nia.
Qed.

(** Every batch holds at least one item and at most [step] of them. *)
Lemma range0_batch_sizes {A} (l : list A) (step : Z) starts :
  (0 < step)%Z ->
  range0 (length l) step = Ok starts ->
  Forall (fun i =>
            (0 < length (slice l i (Z.of_nat i + step)) <= Z.to_nat step)%nat)
         starts.
Proof.
  intros Hpos. destruct step as [|p|p]; try lia.
  unfold range0. intros [= <-].
  apply List.Forall_forall. intros i Hi.
  apply in_map_iff in Hi as (j & <- & Hj). apply in_seq in Hj.
  rewrite slice_step, length_firstn, length_skipn.
  pose proof (Pos2Nat.is_pos p) as Hp.
  replace (Z.to_nat (Z.pos p)) with (Pos.to_nat p) by lia.
  set (k := Pos.to_nat p) in *. set (n := length l) in *.
  pose proof (Nat.div_mod_eq (n + k - 1) k) as Hd.
  pose proof (Nat.mod_upper_bound (n + k - 1) k) as Hm.
  assert (j * k < n)%nat by nia.
  lia.
Qed.

Lemma Forall2_compose {A B C} (P : A -> B -> Prop) (Q : B -> C -> Prop)
    (R : A -> C -> Prop) :
  (forall a b c, P a b -> Q b c -> R a c) ->
  forall la lb lc, Forall2 P la lb -> Forall2 Q lb lc -> Forall2 R la lc.
Proof.
  intros HR la lb lc HP. revert lc.
  induction HP as [|a b la lb Hab _ IH]; intros lc HQ; inversion HQ; subst.
  - constructor.
  - constructor; eauto.
Qed.

End PyFacts.
(* ===================================================================== *)
(** * Properties of the structure recognizer and the segmenter             *)
(* ===================================================================== *)

Module ExtractorFacts.
Import Py Re Content Extractor Statements.

Lemma letter_not_digit c : isletter c = true -> isdigit c = false.
Proof.
  destruct c as [[] [] [] [] [] [] [] []]; vm_compute; congruence.
Qed.

(** Where [p+] succeeds, its continuation succeeded on some suffix; the
    closed groups are those before [p+], and a group open before is
    still open. *)
Lemma greedy_inv {R} p (k : string -> captures -> option R) s g r :
  greedy p k s g = Some r ->
  exists s' g', k s' g' = Some r /\ closed g' = closed g /\
                (is_Some (cur g) <-> is_Some (cur g')).
Proof.
  revert g. induction s as [|c s IH]; intros g H; simpl in H.
  - exists EmptyString, g. tauto.
  - destruct (p c).
    + destruct (greedy p k s (push c g)) eqn:E.
      * injection H as ->.
        destruct (IH _ E) as (s' & g' & Hk & Hc & Ho).
        exists s', g'. split; [exact Hk|]. split; [exact Hc|].
        rewrite <- Ho. unfold push; simpl.
        destruct (cur g); simpl; split; intros [? ?]; eauto; discriminate.
      * exists (String c s), g. tauto.
    + exists (String c s), g. tauto.
Qed.

(** The shape of a line that the single-letter pattern accepts. *)
Lemma section_letter_inv line gs :
  rmatch section_letter line = Some gs ->
  exists c rest g1,
    line = String c (String "." rest) /\ isletter c = true /\ gs = [g1].
Proof.
  unfold rmatch, section_letter. intros H.
  destruct line as [|c [|d rest]]; simpl in H; try discriminate.
  - destruct (isletter c); discriminate.
  - destruct (isletter c) eqn:Hc; [|discriminate].
    destruct (Ascii.eqb (lower_char d) (lower_char ".")) eqn:Hd; [|discriminate].
    assert (d = "."%char) as ->.
    { revert Hd. destruct d as [[] [] [] [] [] [] [] []]; vm_compute; congruence. }
    destruct rest as [|e rest]; [discriminate|].
    destruct (isspace e); [|discriminate].
    apply greedy_inv in H as (s1 & g1 & H & Hc1 & Ho1).
    simpl in H. destruct s1 as [|f s1]; [discriminate|].
    destruct (dot f); [|discriminate].
    apply greedy_inv in H as (s2 & g2 & H & Hc2 & Ho2).
    simpl in H. destruct (at_end s2); [|discriminate].
    simpl in Hc2, Ho2.
    destruct (cur g2) as [b|] eqn:Hb.
    + exists c, (String e rest), b.
      split; [reflexivity|]. split; [exact Hc|].
      injection H as <-. rewrite Hc2, Hc1. reflexivity.
    + exfalso. destruct Ho2 as [Ho2 _].
      destruct Ho2 as [? ?]; [eexists; reflexivity | discriminate].
Qed.

Lemma letter_dot_no_chapter c rest :
  isletter c = true -> _match_chapter (String c (String "." rest)) = None.
Proof.
  intros Hc. unfold _match_chapter, chapter_patterns, match_chapter_in, rmatch.
  simpl. rewrite (letter_not_digit c Hc).
  repeat match goal with
         | |- context [Ascii.eqb ?a ?b] => destruct (Ascii.eqb a b)
         end; reflexivity.
Qed.

Lemma letter_dot_section c rest gs :
  isletter c = true ->
  rmatch section_letter (String c (String "." rest)) = Some gs ->
  _match_section (String c (String "." rest))
  = Some ("A", strip (nth 0 gs "")).
Proof.
  intros Hc H.
  destruct (section_letter_inv _ _ H) as (c' & rest' & g1 & _ & _ & ->).
  unfold _match_section, section_patterns, match_section_in.
  replace (rmatch section_numeric (String c (String "." rest))) with (@None (list string)).
  2:{ unfold rmatch, section_numeric. simpl.
      rewrite (letter_not_digit c Hc). reflexivity. }
  replace (rmatch section_worded (String c (String "." rest))) with (@None (list string)).
  2:{ unfold rmatch, section_worded. simpl.
      destruct (Ascii.eqb (lower_char c) (lower_char "S")); reflexivity. }
  rewrite H. reflexivity.
Qed.

Lemma lower_app a b : lower (a ++ b) = (lower a ++ lower b)%string.
Proof. induction a as [|c a IH]; simpl; [reflexivity | now rewrite IH]. Qed.

Lemma prefix_app a b : String.prefix a (a ++ b) = true.
Proof.
  induction a as [|c a IH]; simpl.
  - now destruct b.
  - destruct (ascii_dec c c); [exact IH | contradiction].
Qed.

Lemma contains_prefix sub s : String.prefix sub s = true -> contains sub s = true.
Proof. intros H. destruct s; cbn [contains]; rewrite H; reflexivity. Qed.

(** [sub in s] holds as soon as [s] can be cut around [sub]. *)
Lemma contains_app pre sub post :
  contains sub (pre ++ sub ++ post) = true.
Proof.
  induction pre as [|c pre IH]; simpl.
  - change (contains sub (sub ++ post) = true).
    apply contains_prefix, prefix_app.
  - rewrite IH. apply orb_true_r.
Qed.

Lemma occurs_any_keyword keywords marker text :
  In marker keywords -> occurs marker text ->
  any_keyword keywords (lower text) = true.
Proof.
  intros Hin (pre & found & post & -> & <-).
  unfold any_keyword. apply existsb_exists.
  exists (lower found). split; [exact Hin|].
  rewrite !lower_app. apply contains_app.
Qed.

Lemma concepts_of_type uuid4 paras next c :
  In c (fst (concepts_of uuid4 paras next)) ->
  type c = _classify_content (content c).
Proof.
  revert next. induction paras as [|para rest IH]; intros next Hin; simpl in Hin.
  - contradiction.
  - destruct (String.length para <? 50)%nat.
    + eapply IH, Hin.
    + destruct (concepts_of uuid4 rest (S next)) as [more next'] eqn:E.
      simpl in Hin. destruct Hin as [<- | Hin]; [reflexivity|].
      apply (IH (S next)). rewrite E. exact Hin.
Qed.

(** C4.  A paragraph that holds an example marker and a formula marker
    is classified [EXAMPLE], not [FORMULA]: the example markers are
    tested first.  Every concept the segmenter builds from such a
    paragraph carries that type. *)
Theorem example_marker_wins para ex fo :
  In ex example_markers -> occurs ex para ->
  In fo formula_markers -> occurs fo para ->
  _classify_content para = EXAMPLE
  /\ _classify_content para <> FORMULA
  /\ forall uuid4 text next c,
       In c (fst (_extract_concepts uuid4 text next)) ->
       content c = para -> type c = EXAMPLE.
Proof.
  intros Hex Hoc _ _.
  assert (_classify_content para = EXAMPLE) as Hcl.
  { unfold _classify_content.
    now rewrite (occurs_any_keyword _ _ _ Hex Hoc). }
  split; [exact Hcl|]. split; [rewrite Hcl; discriminate|].
  intros uuid4 text next c Hin <-.
  rewrite (concepts_of_type _ _ _ _ Hin). exact Hcl.
Qed.

(** The flush writes into sections only: the chapter list keeps its
    length, and the current chapter stays. *)
Lemma flush_keeps_chapter uuid4 st ci :
  is_Some (chapters (book st) !! ci) ->
  is_Some (chapters (book (flush uuid4 st)) !! ci)
  /\ current_chapter (flush uuid4 st) = current_chapter st.
Proof.
  intros Hch. unfold flush.
  destruct (current_section st) as [ref|]; [|now split].
  destruct (accumulated_text st) as [|t ts]; [now split|].
  destruct (_extract_concepts uuid4 _ _) as [new next].
  cbn [book current_chapter]. split; [|reflexivity].
  unfold extend_section. cbn [chapters set_chapters].
  apply lookup_lt_is_Some. rewrite length_alter.
  now apply lookup_lt_is_Some.
Qed.

(** The Section that [start_section] opens is the one [current_section]
    refers to afterwards. *)
Lemma start_section_opens uuid4 st ci num ttl :
  is_Some (chapters (book st) !! ci) ->
  section_at (start_section uuid4 st ci num ttl)
  = Some {| section_id := uuid4 (next_uuid st); section_title := ttl;
            section_number := Some num; concepts := [];
            section_summary := None |}.
Proof.
  intros [ch Hch]. unfold section_at, start_section.
  cbn [current_section book chapters set_chapters]. rewrite Hch.
  rewrite list_lookup_alter_eq, Hch. cbn [fmap option_fmap option_map].
  cbn [sections set_sections]. now apply list_lookup_middle.
Qed.

(** C10.  A line that the single-letter pattern [^[A-Z]\.\s+(.+)$]
    accepts is reported by [_match_section] with the number label ["A"],
    whichever letter it starts with; and the Section that the recognizer
    opens for such a line under a current chapter has the number ["A"],
    the stripped rest of the line as its title, and no concepts yet. *)
Theorem section_letter_number_A line gs :
  rmatch section_letter line = Some gs ->
  _match_section line = Some ("A", strip (nth 0 gs ""))
  /\ forall uuid4 st raw ci,
       strip raw = line -> current_chapter st = Some ci ->
       is_Some (chapters (book st) !! ci) ->
       exists se,
         section_at (step uuid4 st raw) = Some se
         /\ section_number se = Some "A"
         /\ section_title se = strip (nth 0 gs "")
         /\ concepts se = [].
Proof.
  intros H.
  destruct (section_letter_inv _ _ H) as (c & rest & g1 & -> & Hc & ->).
  pose proof (letter_dot_section c rest [g1] Hc H) as Hs.
  split; [exact Hs|].
  intros uuid4 st raw ci Hraw Hch Hci. unfold step. rewrite Hraw.
  simpl String.eqb.
  rewrite (letter_dot_no_chapter c rest Hc), Hs, Hch.
  destruct (flush_keeps_chapter uuid4 st ci Hci) as [Hci' _].
  rewrite (start_section_opens uuid4 _ ci _ _ Hci').
  eexists. split; [reflexivity|]. cbn. auto.
Qed.

(** C3, evaluated.  Running text that precedes the first Section is
    kept in the buffer: without a current section the flush does nothing
    at all, so it does not reset [accumulated_text] either.  The text
    then enters the body of the next Section that opens, whether it
    stood after the chapter heading or before any chapter. *)
Theorem preface_line_reaches_section :
  let bodies (b : Book) :=
    map (fun se => (section_title se, map content (concepts se)))
        (flat_map sections (chapters b)) in
  (forall uuid4 st, current_section st = None -> flush uuid4 st = st)
  /\ bodies (_structure_content Fixtures.uuid [Fixtures.preface_page]
                                "Arithmetic")
     = [("Addition",
         [join LF ["This line comes before any section heading.";
                   "Addition combines two numbers into a single number, their sum."]])]
  /\ bodies (_structure_content Fixtures.uuid [Fixtures.foreword_page]
                                "Arithmetic")
     = [("Addition",
         [join LF ["This line comes before any chapter heading.";
                   "Addition combines two numbers into a single number, their sum."]])].
Proof.
  split.
  - intros uuid4 st Hnone. unfold flush. now rewrite Hnone.
  - split; vm_compute; reflexivity.
Qed.

Lemma example_marker_wins_witness :
  _classify_content "Example: x = 2 gives 2x = 4" = EXAMPLE
  /\ _classify_content "Example: x = 2 gives 2x = 4" <> FORMULA
  /\ forall uuid4 text next c,
       In c (fst (_extract_concepts uuid4 text next)) ->
       content c = "Example: x = 2 gives 2x = 4" -> type c = EXAMPLE.
Proof.
  apply (example_marker_wins "Example: x = 2 gives 2x = 4" "example:" "=").
  - simpl; auto.
  - exists "", "Example:", " x = 2 gives 2x = 4". split; reflexivity.
  - simpl; auto.
  - exists "Example: x ", "=", " 2 gives 2x = 4". split; reflexivity.
Defined.

Lemma section_letter_number_A_witness :
  _match_section "b. Subtraction" = Some ("A", "Subtraction")
  /\ exists se,
       section_at
         (step Fixtures.uuid
            (start_chapter Fixtures.uuid
               {| book := Fixtures.blank_book; current_chapter := None;
                  current_section := None; accumulated_text := [];
                  next_uuid := 1 |} 1 "Numbers")
            "  b. Subtraction") = Some se
       /\ section_number se = Some "A"
       /\ section_title se = "Subtraction"
       /\ concepts se = [].
Proof.
  destruct (section_letter_number_A "b. Subtraction" ["Subtraction"] eq_refl)
    as [Hm Hs].
  split; [exact Hm|].
  apply (Hs Fixtures.uuid _ "  b. Subtraction" 0%nat); try reflexivity.
  eexists; reflexivity.
Defined.

End ExtractorFacts.

(* ===================================================================== *)
(** * Properties of the embedding batcher                                  *)
(* ===================================================================== *)

Module GeneratorFacts.
Import Py Content Generator Statements.

Section Batcher.
Variable dimension : Z.
Variable batch_size : Z.
Variable token : Type.
Variable encode : string -> result (list token).
Variable decode : list token -> string.
Variable client : Type.
Variable create : client -> input -> client * result (list (list float)).

Abbreviation truncate := (_truncate_text encode decode).
Abbreviation embedding_of := (generate_embedding encode decode create).
Abbreviation fallback_of := (fallback dimension encode decode create).
Abbreviation batch_of := (embed_batch dimension encode decode create).
Abbreviation batches_of := (embed_batches dimension encode decode create).
Abbreviation generate :=
  (generate_embeddings_batch dimension batch_size encode decode create).

(** The loop over the batches only ever extends [embeddings]. *)
Lemma embed_batches_extends st batches acc :
  snd (batches_of st batches acc)
  = acc ++ snd (batches_of st batches []).
Proof.
  revert st acc. induction batches as [|b rest IH]; intros st acc; simpl.
  - now rewrite app_nil_r.
  - destruct (batch_of st b) as [st' new].
    rewrite (IH st' (acc ++ new)), (IH st' new).
    now rewrite <- app_assoc.
Qed.

(** No exception leaves [generate_embeddings_batch] but the
    [ValueError] of a zero batch size, raised before any provider call. *)
Lemma generate_total st texts :
  batch_size <> 0%Z ->
  exists st' embeddings, generate st texts = (st', Ok embeddings).
Proof.
  intros Hbs. unfold generate_embeddings_batch.
  destruct batch_size as [|p|p]; [contradiction| |]; simpl;
    try match goal with
        | |- context [batches_of st ?bs []] => destruct (batches_of st bs [])
        end; eauto.
Qed.

Lemma generate_raise st texts st' e :
  generate st texts = (st', Raise e) -> batch_size = 0%Z /\ st' = st.
Proof.
  unfold generate_embeddings_batch.
  destruct batch_size as [|p|p]; simpl.
  - intros H. inversion H. auto.
  - match goal with
    | |- context [batches_of st ?bs []] => destruct (batches_of st bs [])
    end; discriminate.
  - discriminate.
Qed.

(** ** The design document's account of the fallback *)

(** The retried call is the bounded retry of the design document. *)
Lemma retry_attempts n st t :
  match retry encode decode create n st t with
  | (st', Ok v) =>
      exists k s1,
        (k < n)%nat
        /\ failed_attempts encode decode create k st t s1
        /\ attempt encode decode create s1 t = (st', Ok v)
  | (st', Raise _) => failed_attempts encode decode create n st t st'
  end.
Proof.
  revert st. induction n as [|n IH]; intros st; cbn [retry].
  - constructor.
  - destruct (attempt encode decode create st t) as [s1 [v|e]] eqn:E.
    + exists 0%nat, st. split; [lia|]. split; [constructor | exact E].
    + specialize (IH s1).
      destruct (retry encode decode create n s1 t) as [st' [v|e']].
      * destruct IH as (k & s2 & Hk & Hf & Ha).
        exists (S k), s2. split; [lia|]. split; [|exact Ha].
        econstructor; eassumption.
      * econstructor; eassumption.
Qed.

Lemma fallback_items st batch :
  items_vectors dimension encode decode create st batch
    (fst (fallback_of st batch)) (snd (fallback_of st batch)).
Proof.
  revert st. induction batch as [|t rest IH]; intros st; cbn [fallback].
  - constructor.
  - pose proof (retry_attempts 3 st t) as Hr.
    unfold generate_embedding.
    destruct (retry encode decode create 3 st t) as [st1 r].
    specialize (IH st1). destruct (fallback_of st1 rest) as [st2 vs].
    cbn [fst snd] in *. econstructor; [|exact IH].
    destruct r as [v|e].
    + destruct Hr as (k & s1 & Hk & Hf & Ha). econstructor; eassumption.
    + now constructor.
Qed.

Lemma embed_batch_vectors st batch :
  batch_vectors dimension encode decode create st batch
    (fst (batch_of st batch)) (snd (batch_of st batch)).
Proof.
  unfold embed_batch.
  destruct (truncate_all encode decode batch) as [batch'|e] eqn:Ht.
  - destruct (create st (InputList batch')) as [st' [data|e]] eqn:Hc.
    + eapply batch_answered; eassumption.
    + eapply batch_call_failed; [exact Ht | exact Hc | apply fallback_items].
  - eapply batch_not_sent; [exact Ht | apply fallback_items].
Qed.

Lemma embed_batches_state st batches acc :
  fst (batches_of st batches acc) = fst (batches_of st batches []).
Proof.
  revert st acc. induction batches as [|b rest IH]; intros st acc; simpl.
  - reflexivity.
  - destruct (batch_of st b) as [st' new].
    now rewrite (IH st' (acc ++ new)), (IH st' new).
Qed.

Lemma embed_batches_vectors st batches :
  batches_vectors dimension encode decode create st batches
    (fst (batches_of st batches [])) (snd (batches_of st batches [])).
Proof.
  revert st. induction batches as [|b rest IH]; intros st;
    cbn [embed_batches].
  - constructor.
  - pose proof (embed_batch_vectors st b) as Hb.
    destruct (batch_of st b) as [st' new]. cbn [fst snd app] in *.
    rewrite embed_batches_state, embed_batches_extends.
    econstructor; [exact Hb | apply IH].
Qed.


(** ** Length and order *)

Variable embeds : string -> list float -> Prop.
Hypothesis batch_size_positive : (0 < batch_size)%Z.
(** The provider's contract: an answer has one vector for each input,
    in the order of the inputs. *)
Hypothesis same_length_response :
  forall st i st' data,
    create st i = (st', Ok data) -> Forall2 embeds (inputs i) data.

Abbreviation belongs := (corresponds dimension encode decode create embeds).

Lemma retry_embeds n st t st' v :
  retry encode decode create n st t = (st', Ok v) ->
  exists t', truncate t = Ok t' /\ embeds t' v.
Proof.
  revert st. induction n as [|n IH]; intros st; simpl; [discriminate|].
  unfold attempt.
  destruct (truncate t) as [t'|e] eqn:Ht.
  - destruct (create st (InputStr t')) as [st1 [[|v1 data]|e]] eqn:Hc.
    + apply IH.
    + intros H. inversion H; subst.
      apply same_length_response in Hc. inversion Hc; subst. eauto.
    + apply IH.
  - apply IH.
Qed.

(** In the fallback a text gets the provider's answer to it, or the
    zero vector when its retried call gave up. *)
Lemma fallback_embeds st batch :
  Forall2
    (fun t v => (exists t', truncate t = Ok t' /\ embeds t' v)
                \/ (v = zero_vector dimension
                    /\ gave_up encode decode create t))
    batch (snd (fallback_of st batch)).
Proof.
  revert st. induction batch as [|t rest IH]; intros st; simpl.
  - constructor.
  - destruct (embedding_of st t) as [st1 [v|e]] eqn:E;
      specialize (IH st1); destruct (fallback_of st1 rest) as [st2 vs];
      simpl in *; constructor; auto.
    + left. eapply retry_embeds, E.
    + right. split; [reflexivity|]. exists st, st1, e. exact E.
Qed.

Lemma truncate_all_each batch batch' :
  truncate_all encode decode batch = Ok batch' ->
  Forall2 (fun t t' => truncate t = Ok t') batch batch'.
Proof.
  revert batch'. induction batch as [|t rest IH]; intros batch'; simpl.
  - intros H. inversion H. constructor.
  - destruct (truncate t) as [t'|e] eqn:Ht; [|discriminate].
    destruct (truncate_all encode decode rest) as [ts|e]; [|discriminate].
    intros H. inversion H; subst. constructor; auto.
Qed.

Lemma embed_batch_belongs st batch :
  Forall2 belongs batch (snd (batch_of st batch)).
Proof.
  unfold embed_batch.
  destruct (truncate_all encode decode batch) as [batch'|e] eqn:Ht.
  - apply truncate_all_each in Ht.
    destruct (create st (InputList batch')) as [st' [data|e]] eqn:Hc; simpl.
    + apply same_length_response in Hc. simpl in Hc.
      eapply PyFacts.Forall2_compose; [|exact Ht|exact Hc].
      intros t t' v Htt Hv. left. exists t'. split; [now left | exact Hv].
    + eapply PyFacts.Forall2_compose;
        [|exact Ht|exact (fallback_embeds st' batch')].
      intros t t1 v Htt [(t' & Ht' & He) | [-> Hg]].
      * left. exists t'. split; [|exact He].
        right. exists t1. split; assumption.
      * right. split; [reflexivity|]. right. exists t1. split; assumption.
  - eapply Forall2_impl; [exact (fallback_embeds st batch)|].
    intros t v [(t' & Ht' & He) | [-> Hg]].
    + left. exists t'. split; [now left | exact He].
    + right. split; [reflexivity|]. now left.
Qed.

Lemma embed_batches_belong st batches :
  Forall2 belongs (concat batches) (snd (batches_of st batches [])).
Proof.
  revert st. induction batches as [|b rest IH]; intros st; simpl.
  - constructor.
  - pose proof (embed_batch_belongs st b) as Hb.
    destruct (batch_of st b) as [st' new]. simpl in Hb.
    rewrite embed_batches_extends. apply Forall2_app; [exact Hb | apply IH].
Qed.

(** C1.  For a positive batch size and a provider that answers a call
    with one vector for each input, in order, the batcher returns for
    every list of texts a list of the same length whose i-th vector
    belongs to the i-th text, however the texts fall into batches and
    whichever calls fail: the i-th vector is the provider's answer to the
    i-th text, and it is the zero vector only where the retried call for
    that very text gave up. *)
Theorem batch_preserves_length_and_order st texts :
  exists st' embeddings,
    generate_embeddings_batch dimension batch_size encode decode create
      st texts = (st', Ok embeddings)
    /\ length embeddings = length texts
    /\ Forall2 (corresponds dimension encode decode create embeds)
               texts embeddings.
Proof.
  unfold generate_embeddings_batch.
  destruct (PyFacts.range0_slices texts batch_size batch_size_positive)
    as (starts & -> & Hcat).
  match goal with
  | |- context [batches_of st ?bs []] =>
      pose proof (embed_batches_belong st bs) as Hb;
      destruct (batches_of st bs []) as [st' embeddings]
  end.
  rewrite Hcat in Hb. simpl in Hb.
  exists st', embeddings. split; [reflexivity|].
  split; [symmetry; eapply Forall2_length, Hb | exact Hb].
Qed.

End Batcher.

Lemma flaky_contract st i st' data :
  Fixtures.flaky st i = (st', Ok data) ->
  Forall2 (fun t v => v = Fixtures.embed1 t) (inputs i) data.
Proof.
  unfold Fixtures.flaky. destruct (Nat.even st); intros H; inversion H; subst.
  induction (inputs i); simpl; constructor; auto.
Qed.

(** Three texts in batches of two, every call with an even number
    failing: both batch calls fail, and each text is embedded by a later
    call of its own. *)
Example flaky_run :
  generate_embeddings_batch 2 2 Fixtures.encode Fixtures.decode
    Fixtures.flaky 0%nat ["alpha"; "be"; "gam"]
  = (6%nat, Ok [Fixtures.embed1 "alpha"; Fixtures.embed1 "be";
                Fixtures.embed1 "gam"]).
Proof. vm_compute. reflexivity. Qed.

(** With the provider down, two batch calls and three attempts for each
    of the three texts are made, and every text gets the zero vector. *)
Example down_run :
  generate_embeddings_batch 2 2 Fixtures.encode Fixtures.decode
    Fixtures.down 0%nat ["alpha"; "be"; "gam"]
  = (11%nat, Ok [[0%float; 0%float]; [0%float; 0%float];
                 [0%float; 0%float]]).
Proof. vm_compute. reflexivity. Qed.

Lemma batch_preserves_length_and_order_witness :
  exists st' embeddings,
    generate_embeddings_batch 2 2 Fixtures.encode Fixtures.decode
      Fixtures.flaky 0%nat ["alpha"; "be"; "gam"] = (st', Ok embeddings)
    /\ length embeddings = 3%nat
    /\ Forall2 (corresponds 2 Fixtures.encode Fixtures.decode Fixtures.flaky
                  (fun t v => v = Fixtures.embed1 t))
               ["alpha"; "be"; "gam"] embeddings.
Proof.
  exact (batch_preserves_length_and_order 2 2 ascii Fixtures.encode
           Fixtures.decode nat Fixtures.flaky
           (fun t v => v = Fixtures.embed1 t)
           eq_refl flaky_contract 0%nat ["alpha"; "be"; "gam"]).
Defined.


End GeneratorFacts.
(* ===================================================================== *)
(** * Properties of the graph builder and the query layer                  *)
(* ===================================================================== *)

Module GraphFacts.
Import Py Content Cypher GraphManager GraphNotions Statements.

(** ** What the builder sends *)

(** No writer awaits a coroutine it builds: each hands back the store it
    was given. *)
Lemma fold_left_unchanged {A B} (f : A -> B -> A) (l : list B) (a : A) :
  (forall a b, f a b = a) -> fold_left f l a = a.
Proof.
  intros Hf. induction l as [|b l IH]; [reflexivity|].
  cbn [fold_left]. now rewrite Hf.
Qed.

Lemma chapter_structure_unsent tx book_id ch :
  _create_chapter_structure tx book_id ch = tx.
Proof.
  unfold _create_chapter_structure. cbv zeta.
  apply fold_left_unchanged. intros tx' se.
  now apply fold_left_unchanged.
Qed.

Lemma concept_relationships_unsent session b :
  _create_concept_relationships session b = session.
Proof.
  unfold _create_concept_relationships. cbv zeta.
  apply fold_left_unchanged. intros g i.
  now destruct (all_concepts b !! i), (all_concepts b !! (i + 1)%nat).
Qed.

(** All that [create_book_graph] has the store do is create indexes. *)
Lemma create_book_graph_indexes g b :
  create_book_graph g b = _ensure_indexes g.
Proof.
  unfold create_book_graph. cbv zeta.
  rewrite concept_relationships_unsent. f_equal.
  apply fold_left_unchanged. intros session ch.
  apply chapter_structure_unsent.
Qed.

(** ** Index creation *)

Lemma await_create_index g l p :
  await g (session_run [CREATE_INDEX l p])
  = if bool_decide ((l, p) ∈ indexes g) then g
    else {| nodes := nodes g; rels := rels g;
            indexes := indexes g ++ [(l, p)] |}.
Proof. reflexivity. Qed.

Lemma create_index_frame g l p :
  let g' := await g (session_run [CREATE_INDEX l p]) in
  nodes g' = nodes g /\ rels g' = rels g
  /\ (l, p) ∈ indexes g'
  /\ forall x, x ∈ indexes g -> x ∈ indexes g'.
Proof.
  cbv zeta. rewrite await_create_index.
  destruct (bool_decide_reflect ((l, p) ∈ indexes g)) as [Hin|Hin];
    cbn [nodes rels indexes]; repeat split; auto.
  - apply elem_of_app. right. apply list_elem_of_singleton. reflexivity.
  - intros x Hx. apply elem_of_app. now left.
Qed.

Lemma create_index_present g l p :
  (l, p) ∈ indexes g -> await g (session_run [CREATE_INDEX l p]) = g.
Proof.
  intros Hin. rewrite await_create_index. now rewrite bool_decide_eq_true_2.
Qed.

Lemma ensure_indexes_frame g :
  nodes (_ensure_indexes g) = nodes g
  /\ rels (_ensure_indexes g) = rels g
  /\ Forall (fun x => x ∈ indexes (_ensure_indexes g))
       [(LBook, "id"); (LChapter, "id"); (LSection, "id");
        (LConcept, "id"); (LConcept, "name")].
Proof.
  unfold _ensure_indexes, index_queries. cbn [fold_left].
  pose proof (create_index_frame g LBook "id") as (N1 & R1 & I1 & M1).
  set (g1 := await g (session_run [CREATE_INDEX LBook "id"])) in *.
  pose proof (create_index_frame g1 LChapter "id") as (N2 & R2 & I2 & M2).
  set (g2 := await g1 (session_run [CREATE_INDEX LChapter "id"])) in *.
  pose proof (create_index_frame g2 LSection "id") as (N3 & R3 & I3 & M3).
  set (g3 := await g2 (session_run [CREATE_INDEX LSection "id"])) in *.
  pose proof (create_index_frame g3 LConcept "id") as (N4 & R4 & I4 & M4).
  set (g4 := await g3 (session_run [CREATE_INDEX LConcept "id"])) in *.
  pose proof (create_index_frame g4 LConcept "name") as (N5 & R5 & I5 & M5).
  set (g5 := await g4 (session_run [CREATE_INDEX LConcept "name"])) in *.
  split; [congruence|]. split; [congruence|].
  repeat constructor; auto.
Qed.

(** [CREATE INDEX IF NOT EXISTS] on a store that has the five indexes
    changes nothing. *)
Lemma ensure_indexes_present g :
  Forall (fun x => x ∈ indexes g)
    [(LBook, "id"); (LChapter, "id"); (LSection, "id");
     (LConcept, "id"); (LConcept, "name")] ->
  _ensure_indexes g = g.
Proof.
  intros H.
  apply Forall_cons in H as [H1 H]. apply Forall_cons in H as [H2 H].
  apply Forall_cons in H as [H3 H]. apply Forall_cons in H as [H4 H].
  apply Forall_cons in H as [H5 _].
  unfold _ensure_indexes, index_queries. cbn [fold_left].
  rewrite (create_index_present _ _ _ H1), (create_index_present _ _ _ H2),
    (create_index_present _ _ _ H3), (create_index_present _ _ _ H4).
  exact (create_index_present _ _ _ H5).
Qed.

(** C6.  Materializing a book a second time leaves the store exactly as
    the first time left it: the same nodes with the same properties, the
    same relationships and the same indexes, hence the same counts.
    A store without duplicate node identities or duplicate
    relationships has none afterwards either. *)
Theorem materialization_idempotent g b :
  let once := create_book_graph g b in
  let twice := create_book_graph once b in
  twice = once
  /\ length (nodes twice) = length (nodes once)
  /\ length (rels twice) = length (rels once)
  /\ (NoDup (keys g) -> NoDup (keys once))
  /\ (NoDup (rels g) -> NoDup (rels once)).
Proof.
  intros once twice.
  destruct (ensure_indexes_frame g) as (Hn & Hr & Hi).
  assert (twice = once) as Heq.
  { unfold twice, once. rewrite !create_book_graph_indexes.
    now apply ensure_indexes_present. }
  split; [exact Heq|]. rewrite Heq. split; [reflexivity|].
  split; [reflexivity|].
  unfold once, keys. rewrite create_book_graph_indexes, Hn, Hr. auto.
Qed.

(** C5, evaluated.  [create_book_graph] leaves the nodes and the
    relationships of every store as they were, for every book: the
    coroutine that would merge a prerequisite relationship is built and
    never awaited.  For the book with the concepts c1, c2, c3, whose
    adjacent pairs are (c1, c2) and (c2, c3), the store holds no
    prerequisite relationship afterwards.  The query itself is the right
    one: awaited on a store that holds both concepts, it leaves the
    relationship from the one to the other. *)
Theorem prerequisite_edges_not_written :
  (forall g b,
     nodes (create_book_graph g b) = nodes g
     /\ rels (create_book_graph g b) = rels g)
  /\ adjacent (map concept_id (all_concepts Fixtures.chain_book))
     = [("c1", "c2"); ("c2", "c3")]
  /\ prerequisite_edges (create_book_graph empty_store Fixtures.chain_book)
     = []
  /\ (forall g from_id to_id,
        has_node g (LConcept, from_id) = true ->
        has_node g (LConcept, to_id) = true ->
        In (from_id, to_id)
           (prerequisite_edges
              (await g (tx_run (prerequisite_query from_id to_id))))).
Proof.
  split.
  { intros g b. rewrite create_book_graph_indexes.
    destruct (ensure_indexes_frame g) as (Hn & Hr & _). now split. }
  split; [reflexivity|].
  split.
  { unfold prerequisite_edges. rewrite create_book_graph_indexes.
    destruct (ensure_indexes_frame empty_store) as (_ & -> & _).
    reflexivity. }
  intros g from_id to_id Hfrom Hto.
  unfold await, tx_run, prerequisite_query. cbn [run exec].
  rewrite Hfrom, Hto. unfold prerequisite_edges.
  set (r := {| r_type := PREREQUISITE; r_from := (LConcept, from_id);
               r_to := (LConcept, to_id) |}).
  apply in_map_iff. exists r. split; [reflexivity|].
  apply filter_In. split; [|now apply bool_decide_eq_true_2].
  unfold has_rel. destruct (bool_decide_reflect (r ∈ rels g)) as [Hin|Hin].
  - now apply list_elem_of_In.
  - cbn [rels]. apply in_or_app. right. now left.
Qed.

(** C7, evaluated.  [_find_shortest_path] looks up [single] on the
    coroutine that [tx.run] gives it, so it raises [AttributeError] for
    every store and every pair of ids, and [find_learning_path] raises
    it again: no path, count or time estimate is ever returned.  So it
    is on the store that holds the chain c1 -> c2 -> c3, where c1 and c3
    are joined by the prerequisite path c1, c2, c3. *)
Theorem shortest_path_query_raises :
  let error :=
    AttributeError "'coroutine' object has no attribute 'single'" in
  (forall tx from_id to_id,
     _find_shortest_path tx from_id to_id = Raise error)
  /\ (forall session from_id to_id,
        find_learning_path session from_id to_id = Raise error)
  /\ connects Fixtures.chain_store (LConcept, "c1") (LConcept, "c3")
       [(LConcept, "c1"); (LConcept, "c2"); (LConcept, "c3")]
  /\ find_learning_path Fixtures.chain_store "c1" "c3" = Raise error.
Proof.
  intros error. split; [reflexivity|]. split; [reflexivity|].
  split; [|reflexivity].
  unfold connects, is_path, prerequisite. cbn.
  repeat split; auto.
Qed.

End GraphFacts.
(* ===================================================================== *)
(** * Properties of the job state machine                                  *)
(* ===================================================================== *)

Module ProcessingFacts.
Import Py Content Processing Statements.

(** Splits a run by the call that ends it: each call of the [try] block
    returns, raises or is interrupted. *)
Ltac by_call :=
  repeat (cbn [mbind task_bind call assign fst snd];
          match goal with
          | |- context [match ?o with
                        | Returns _ => _
                        | Raises _ => _
                        | Interrupted _ => _
                        end] => destruct o eqn:?
          end).

Section Runs.
Variables extractor generator manager vectors : Type.
Variable new_PDFExtractor : outcome extractor.
Variable extract_from_bytes : extractor -> string -> string -> outcome Book.
Variable new_EmbeddingGenerator : outcome generator.
Variable process_book : generator -> Book -> outcome Book.
Variable new_GraphManager : outcome manager.
Variable create_book_graph : manager -> Book -> outcome unit.
Variable new_VectorStore : outcome vectors.
Variable store_book_vectors : vectors -> Book -> outcome Z.
Variable put_object : string -> string -> result unit.
Variable MAX_PDF_SIZE_MB : Z.
Variable started completed : Z.

Lemma upload_scheduled jobs filename contents job_id jobs1 job :
  upload_pdf put_object MAX_PDF_SIZE_MB jobs filename contents job_id
  = (jobs1, Scheduled job) ->
  job = new_job job_id filename
  /\ jobs1 = <[job_id := job]> jobs
  /\ exists u, put_object (s3_key job) contents = Ok u.
Proof.
  unfold upload_pdf. intros H.
  destruct (negb (endswith filename ".pdf")); [inversion H|].
  destruct (_ <? _)%Z; [inversion H|].
  destruct (put_object _ contents) as [u|e] eqn:Hput; inversion H; subst.
  eauto.
Qed.

(** Whatever the stages do, the job of an accepted upload passes from
    [PENDING] to [PROCESSING] at most once and never leaves a terminal
    state for [PROCESSING]. *)
Lemma history_never_resumes filename contents job_id :
  never_resumes
    (job_history new_PDFExtractor extract_from_bytes new_EmbeddingGenerator
       process_book new_GraphManager create_book_graph new_VectorStore
       store_book_vectors put_object started completed
       filename contents job_id).
Proof.
  unfold job_history, task_writes, try_except, try_block.
  destruct (put_object _ contents).
  - by_call;
      vm_compute; repeat split; intros; try discriminate;
      repeat constructor; discriminate.
  - vm_compute; repeat split; intros; try discriminate;
      repeat constructor; discriminate.
Qed.

End Runs.

(** C9, as the code has it.  When the graph-write stage raises an
    [Exception] [e] after the extraction and the embedding returned, be
    it in the construction of the graph manager or in the write itself,
    the job ends [FAILED] with progress 50 and [str(e)] as its error
    message (an empty string when the exception has no text); and in no
    run does a job go back to [PROCESSING] from [COMPLETED] or
    [FAILED]. *)
Theorem graph_failure_fails_job :
  forall (extractor generator manager vectors : Type)
         (new_PDFExtractor : outcome extractor) extract_from_bytes
         (new_EmbeddingGenerator : outcome generator) process_book
         (new_GraphManager : outcome manager) create_book_graph
         (new_VectorStore : outcome vectors) store_book_vectors
         put_object MAX_PDF_SIZE_MB started completed
         jobs filename contents job_id,
    (forall jobs1 job ex book gen book' e,
       upload_pdf put_object MAX_PDF_SIZE_MB jobs filename contents job_id
       = (jobs1, Scheduled job) ->
       new_PDFExtractor = Returns ex ->
       extract_from_bytes ex contents (book_title job) = Returns book ->
       new_EmbeddingGenerator = Returns gen ->
       process_book gen book = Returns book' ->
       new_GraphManager = Raises e
       \/ (exists gm, new_GraphManager = Returns gm
                      /\ create_book_graph gm book' = Raises e) ->
       exists final,
         fst (process_pdf_task new_PDFExtractor extract_from_bytes
                new_EmbeddingGenerator process_book new_GraphManager
                create_book_graph new_VectorStore store_book_vectors
                started completed jobs1 job_id contents (book_title job))
         !! job_id = Some final
         /\ status final = FAILED
         /\ progress final = 50%Z
         /\ error_message final = Some (str_of_exn e)
         /\ completed_at final = Some completed)
    /\ never_resumes
         (job_history new_PDFExtractor extract_from_bytes
            new_EmbeddingGenerator process_book new_GraphManager
            create_book_graph new_VectorStore store_book_vectors
            put_object started completed filename contents job_id).
Proof.
  intros. split; [|apply history_never_resumes].
  intros jobs1 job ex book gen book' e Hup Hex Hbook Hgen Hbook' Hgraph.
  destruct (upload_scheduled _ _ _ _ _ _ _ _ Hup) as (Hjob & -> & _).
  unfold process_pdf_task. rewrite lookup_insert_eq. cbn [fst].
  unfold task_writes, try_except, try_block.
  rewrite Hex. cbn [mbind task_bind assign call]. rewrite Hbook.
  cbn [mbind task_bind assign call]. rewrite Hgen.
  cbn [mbind task_bind assign call]. rewrite Hbook'.
  cbn [mbind task_bind assign call].
  eexists. rewrite lookup_insert_eq. split; [reflexivity|].
  destruct Hgraph as [-> | (gm & -> & Hw)];
    cbn [mbind task_bind assign call]; [|rewrite Hw];
    subst job; vm_compute; auto.
Qed.

Lemma graph_failure_fails_job_witness :
  exists final,
    fst (process_pdf_task Fixtures.built Fixtures.extract_ok Fixtures.built
           Fixtures.embed_ok Fixtures.built
           (Fixtures.graph_raises (Exception "graph store unavailable"))
           Fixtures.built Fixtures.vectors_ok 10 20
           (<["j1" := new_job "j1" "notes.pdf"]> ∅) "j1" "%PDF" "notes")
    !! "j1" = Some final
    /\ status final = FAILED
    /\ progress final = 50%Z
    /\ error_message final = Some "graph store unavailable"
    /\ completed_at final = Some 20%Z.
Proof.
  refine (proj1 (graph_failure_fails_job unit unit unit unit
                   Fixtures.built Fixtures.extract_ok Fixtures.built
                   Fixtures.embed_ok Fixtures.built
                   (Fixtures.graph_raises
                      (Exception "graph store unavailable"))
                   Fixtures.built Fixtures.vectors_ok Fixtures.put_ok
                   100 10 20 ∅ "notes.pdf" "%PDF" "j1")
                _ _ tt Fixtures.blank_book tt Fixtures.blank_book
                (Exception "graph store unavailable")
                eq_refl eq_refl eq_refl eq_refl eq_refl _).
  right. exists tt. split; reflexivity.
Defined.

(** A cancelled graph write leaves the job [PROCESSING] at progress 50,
    without error message and without completion time. *)
Example cancelled_run :
  let run :=
    process_pdf_task Fixtures.built Fixtures.extract_ok Fixtures.built
      Fixtures.embed_ok Fixtures.built
      (Fixtures.graph_interrupted CancelledError)
      Fixtures.built Fixtures.vectors_ok 10 20
      (<["j1" := new_job "j1" "notes.pdf"]> ∅) "j1" "%PDF" "notes" in
  snd run = Some CancelledError
  /\ exists final,
       fst run !! "j1" = Some final
       /\ status final = PROCESSING /\ progress final = 50%Z
       /\ error_message final = None /\ completed_at final = None.
Proof.
  split; [reflexivity|]. eexists. split; [reflexivity|].
  vm_compute. auto.
Qed.

(** C9 as stated asks for a failed job with a non-empty message
    whenever the graph write raises.  An exception without text, such as
    [Exception()], leaves the job with the empty message; and an
    exception outside [Exception], such as the [CancelledError] of a
    cancelled task, passes the handler and leaves the job
    [PROCESSING]. *)
Lemma empty_message_counterexample :
  ~ failed_job_has_nonempty_message /\ ~ interrupted_job_fails.
Proof.
  split; intros H.
  - destruct (H unit unit unit unit
                Fixtures.built Fixtures.extract_ok Fixtures.built
                Fixtures.embed_ok Fixtures.built
                (Fixtures.graph_raises (Exception ""))
                Fixtures.built Fixtures.vectors_ok Fixtures.put_ok
                100%Z 10%Z 20%Z ∅ "notes.pdf" "%PDF" "j1" _ _
                tt Fixtures.blank_book tt Fixtures.blank_book tt
                (Exception "")
                eq_refl eq_refl eq_refl eq_refl eq_refl eq_refl eq_refl)
      as (final & m & Hfinal & _ & _ & Hm & Hne).
    vm_compute in Hfinal. injection Hfinal as <-.
    simpl in Hm. injection Hm as <-. now apply Hne.
  - destruct (H unit unit unit unit
                Fixtures.built Fixtures.extract_ok Fixtures.built
                Fixtures.embed_ok Fixtures.built
                (Fixtures.graph_interrupted CancelledError)
                Fixtures.built Fixtures.vectors_ok Fixtures.put_ok
                100%Z 10%Z 20%Z ∅ "notes.pdf" "%PDF" "j1" _ _
                tt Fixtures.blank_book tt Fixtures.blank_book tt
                CancelledError
                eq_refl eq_refl eq_refl eq_refl eq_refl eq_refl eq_refl)
      as (final & Hfinal & Hst).
    vm_compute in Hfinal. injection Hfinal as <-. discriminate Hst.
Qed.

End ProcessingFacts.

(* ===================================================================== *)
(** * Properties of the vector indexer                                     *)
(* ===================================================================== *)

Module VectorFacts.
Import Py Content VectorStore Statements.

Lemma located_concepts_all (b : Book) :
  map snd (located_concepts b) = all_concepts b.
Proof.
  unfold located_concepts, all_concepts.
  induction (chapters b) as [|ch chs IH]; simpl; [reflexivity|].
  rewrite map_app, IH. f_equal.
  induction (sections ch) as [|se ses IHs]; simpl; [reflexivity|].
  rewrite map_app, IHs, map_map. simpl. now rewrite map_id.
Qed.

Lemma filter_snd {A B} (f : B -> bool) (l : list (A * B)) :
  map snd (List.filter (fun x => f (snd x)) l) = List.filter f (map snd l).
Proof.
  induction l as [|[a x] l IH]; simpl; [reflexivity|].
  destruct (f x); simpl; now rewrite IH.
Qed.

Lemma collect_ids_values utcnow b (l : list (Chapter * Section * Concept)) :
  map (fun v => (v_id v, v_values v))
      (imap (fun n '(ch, se, co) => _create_vector_data (utcnow n) co b ch se) l)
  = map (fun c => (concept_id c, default [] (embedding c))) (map snd l).
Proof.
  revert utcnow. induction l as [|[[ch se] co] l IH]; intros utcnow; simpl.
  - reflexivity.
  - f_equal. apply (IH (fun n => utcnow (S n))).
Qed.

(** The vectors that are collected: one for each concept whose
    embedding is a non-empty list, in document order. *)
Lemma collect_vectors_kept utcnow b :
  map (fun v => (v_id v, v_values v)) (collect_vectors utcnow b)
  = map (fun c => (concept_id c, default [] (embedding c)))
        (List.filter (fun c => truthy (embedding c)) (all_concepts b)).
Proof.
  unfold collect_vectors. rewrite collect_ids_values.
  rewrite <- located_concepts_all, <- filter_snd. do 2 f_equal.
  apply List.filter_ext. now intros [[ch se] co].
Qed.

Lemma dom_puts (vs : list vector_data) (m : gmap string vector_data) :
  dom (fold_left (fun m v => <[v_id v := v]> m) vs m)
  = dom m ∪ list_to_set (map v_id vs).
Proof.
  revert m. induction vs as [|v vs IH]; intros m; simpl.
  - rewrite (right_id_L ∅ (∪)). reflexivity.
  - rewrite IH, dom_insert_L.
    rewrite (comm_L (∪) {[v_id v]} (dom m)), <- (assoc_L (∪)).
    reflexivity.
Qed.

Lemma upsert_batches_count unavailable idx batches c :
  let r := upsert_batches unavailable idx batches c in
  (c <= snd r <= c + Z.of_nat (length (concat batches)))%Z
  /\ ((forall k, unavailable k = false) ->
      snd r = (c + Z.of_nat (length (concat batches)))%Z
      /\ stored (fst r)
         = fold_left (fun m v => <[v_id v := v]> m) (concat batches)
                     (stored idx)).
Proof.
  revert idx c. induction batches as [|batch rest IH]; intros idx c; simpl.
  - split; [lia|]. intros _. split; [lia|reflexivity].
  - unfold upsert. destruct (unavailable (calls idx)) eqn:Hu.
    + specialize (IH {| stored := stored idx; calls := S (calls idx) |} c).
      simpl in IH. destruct IH as [Hle Hall]. rewrite length_app.
      split; [lia|]. intros Hup. rewrite Hup in Hu. discriminate.
    + match goal with
      | |- context [upsert_batches _ ?i rest ?c'] =>
          specialize (IH i c'); set (r := upsert_batches unavailable i rest c') in *
      end.
      simpl in IH. destruct IH as [Hle Hall]. rewrite length_app.
      split; [lia|]. intros Hup. destruct (Hall Hup) as [-> ->].
      split; [lia|]. now rewrite fold_left_app.
Qed.

(** C8, as the code has it.  The indexer collects one vector for each
    concept whose embedding is present and non-empty, in document order,
    and leaves out the others (an absent embedding, or an empty one)
    without raising.  It returns a count between 0 and their number;
    when no upsert call fails, the count is their number and exactly
    their ids are added to the index.  For a book where one concept of
    three lacks an embedding the count is two. *)
Theorem indexer_stores_truthy_embeddings unavailable utcnow idx b :
  let kept := List.filter (fun c => truthy (embedding c)) (all_concepts b) in
  map (fun v => (v_id v, v_values v)) (collect_vectors utcnow b)
  = map (fun c => (concept_id c, default [] (embedding c))) kept
  /\ (exists idx' n,
        store_book_vectors unavailable utcnow idx b = (idx', Ok n)
        /\ (0 <= n <= Z.of_nat (length kept))%Z
        /\ ((forall k, unavailable k = false) ->
            n = Z.of_nat (length kept)
            /\ dom (stored idx')
               = dom (stored idx) ∪ list_to_set (map concept_id kept)))
  /\ snd (store_book_vectors Fixtures.always_up Fixtures.clock empty_index
            Fixtures.two_of_three) = Ok 2%Z.
Proof.
  intros kept. pose proof (collect_vectors_kept utcnow b) as Hkept.
  fold kept in Hkept. split; [exact Hkept|]. split; [|reflexivity].
  assert (length (collect_vectors utcnow b) = length kept) as Hlen.
  { apply (f_equal (@length _)) in Hkept. now rewrite !length_map in Hkept. }
  assert (map v_id (collect_vectors utcnow b) = map concept_id kept) as Hids.
  { apply (f_equal (map fst)) in Hkept. now rewrite !map_map in Hkept. }
  unfold store_book_vectors.
  destruct (PyFacts.range0_slices (collect_vectors utcnow b) batch_size)
    as (starts & -> & Hcat); [reflexivity|].
  match goal with
  | |- context [upsert_batches _ idx ?bs 0%Z] =>
      pose proof (upsert_batches_count unavailable idx bs 0%Z) as Hc;
      destruct (upsert_batches unavailable idx bs 0%Z) as [idx' n]
  end.
  simpl in Hc. rewrite Hcat, Hlen in Hc. destruct Hc as [Hle Hall].
  exists idx', n. split; [reflexivity|]. split; [lia|].
  intros Hup. destruct (Hall Hup) as [-> Hst]. split; [lia|].
  rewrite Hst, dom_puts, Hids. reflexivity.
Qed.

Lemma indexer_stores_truthy_embeddings_witness :
  exists idx',
    store_book_vectors Fixtures.always_up Fixtures.clock empty_index
      Fixtures.two_of_three = (idx', Ok 2%Z)
    /\ dom (stored idx') = {["c1"; "c3"]}.
Proof.
  destruct (indexer_stores_truthy_embeddings Fixtures.always_up Fixtures.clock
              empty_index Fixtures.two_of_three)
    as (_ & (idx' & n & Heq & _ & Hall) & _).
  destruct (Hall (fun k => eq_refl)) as [-> Hdom].
  exists idx'. split; [exact Heq|].
  rewrite Hdom. vm_compute. reflexivity.
Defined.

(** C8 as stated counts every concept whose embedding is not null; one
    whose embedding is the empty list is not null and is skipped. *)
Lemma empty_embedding_counterexample : ~ stores_every_non_null_embedding.
Proof.
  intros H. specialize (H Fixtures.clock Fixtures.empty_embedding).
  vm_compute in H. discriminate.
Qed.

End VectorFacts.

(* ===================================================================== *)
(** * Further properties of the job state machine                          *)
(* ===================================================================== *)

Module ProcessingMore.
Import Py Content Processing Statements JobStatements.

(** Settles a goal from equations between outcomes. *)
Ltac outcome_cases :=
  repeat match goal with
         | H : Returns _ = Returns _ |- _ => injection H as <-
         | H : Raises _ = Raises _ |- _ => injection H as <-
         | H : Interrupted _ = Interrupted _ |- _ => injection H as <-
         | H : Some _ = Some _ |- _ => injection H as <-
         | H : _ = _ |- _ => discriminate H
         | E : ?f ?x = _, H : ?f ?x = _ |- _ => rewrite E in H
         | E : ?f ?x ?y = _, H : ?f ?x ?y = _ |- _ => rewrite E in H
         | E : ?f ?x ?y ?z = _, H : ?f ?x ?y ?z = _ |- _ => rewrite E in H
         end;
  try reflexivity.

Section Runs.
Variables extractor generator manager vectors : Type.
Variable new_PDFExtractor : outcome extractor.
Variable extract_from_bytes : extractor -> string -> string -> outcome Book.
Variable new_EmbeddingGenerator : outcome generator.
Variable process_book : generator -> Book -> outcome Book.
Variable new_GraphManager : outcome manager.
Variable create_book_graph : manager -> Book -> outcome unit.
Variable new_VectorStore : outcome vectors.
Variable store_book_vectors : vectors -> Book -> outcome Z.
Variable put_object : string -> string -> result unit.
Variable started completed : Z.

(** X1.  How a run ends, stage by stage.  A run that no interruption
    ends leaves the job in a terminal state: [COMPLETED], with progress
    100 and the error message untouched, exactly when all four stages
    return; [FAILED], with [str(e)] and the progress of the last stage
    that returned (the job's earlier progress, 25, 50 or 75), when a
    stage raises the [Exception] [e], be it in building the stage's
    object or in its call.  A run that an interruption ends (an
    exception outside [Exception], such as the [CancelledError] of a
    cancelled task) leaves the job [PROCESSING] at the progress reached,
    without completion time and with the error message untouched. *)
Theorem run_ends_by_stage job pdf_bytes ttl :
  let final :=
    fold_left apply_write
      (task_writes new_PDFExtractor extract_from_bytes
         new_EmbeddingGenerator process_book new_GraphManager
         create_book_graph new_VectorStore store_book_vectors
         started completed pdf_bytes ttl) job in
  let interrupted :=
    task_interruption new_PDFExtractor extract_from_bytes
      new_EmbeddingGenerator process_book new_GraphManager
      create_book_graph new_VectorStore store_book_vectors
      started completed pdf_bytes ttl in
  let extraction :=
    stage new_PDFExtractor
      (fun self => extract_from_bytes self pdf_bytes ttl) in
  let embedding b :=
    stage new_EmbeddingGenerator (fun self => process_book self b) in
  let graph b :=
    stage new_GraphManager (fun self => create_book_graph self b) in
  let indexing b :=
    stage new_VectorStore (fun self => store_book_vectors self b) in
  started_at final = Some started
  /\ (interrupted = None ->
      terminal (status final) = true /\ completed_at final = Some completed)
  /\ (status final = COMPLETED <->
      exists b b' u n,
        extraction = Returns b /\ embedding b = Returns b'
        /\ graph b' = Returns u /\ indexing b' = Returns n)
  /\ (status final = COMPLETED ->
      progress final = 100%Z /\ error_message final = error_message job)
  /\ (forall e, extraction = Raises e ->
      status final = FAILED /\ progress final = progress job
      /\ error_message final = Some (str_of_exn e))
  /\ (forall b e, extraction = Returns b -> embedding b = Raises e ->
      status final = FAILED /\ progress final = 25%Z
      /\ error_message final = Some (str_of_exn e))
  /\ (forall b b' e, extraction = Returns b -> embedding b = Returns b' ->
      graph b' = Raises e ->
      status final = FAILED /\ progress final = 50%Z
      /\ error_message final = Some (str_of_exn e))
  /\ (forall b b' u e, extraction = Returns b -> embedding b = Returns b' ->
      graph b' = Returns u -> indexing b' = Raises e ->
      status final = FAILED /\ progress final = 75%Z
      /\ error_message final = Some (str_of_exn e))
  /\ (forall i, interrupted = Some i ->
      status final = PROCESSING
      /\ completed_at final = completed_at job
      /\ error_message final = error_message job)
  /\ (forall i, extraction = Interrupted i ->
      interrupted = Some i /\ progress final = progress job)
  /\ (forall b i, extraction = Returns b -> embedding b = Interrupted i ->
      interrupted = Some i /\ progress final = 25%Z)
  /\ (forall b b' i, extraction = Returns b -> embedding b = Returns b' ->
      graph b' = Interrupted i ->
      interrupted = Some i /\ progress final = 50%Z)
  /\ (forall b b' u i, extraction = Returns b -> embedding b = Returns b' ->
      graph b' = Returns u -> indexing b' = Interrupted i ->
      interrupted = Some i /\ progress final = 75%Z).
Proof.
  unfold task_writes, task_interruption, try_except, try_block, stage.
  ProcessingFacts.by_call;
    cbn [fst snd fold_left app apply_write status started_at completed_at
         error_message progress terminal];
    (split; [reflexivity|]);
    (split; [first [intros _; split; reflexivity | discriminate]|]);
    (split;
     [split;
      [first [discriminate | intros _; eauto 10]
      |intros (x1 & x2 & x3 & x4 & H1 & H2 & H3 & H4); outcome_cases]|]);
    (split; [first [discriminate | intros _; split; reflexivity]|]);
    do 4 (split;
          [intros; outcome_cases; repeat split; reflexivity|]);
    (split;
     [intros; outcome_cases; repeat split; reflexivity|]);
    repeat split; intros; outcome_cases.
Qed.

Lemma apply_write_identity j w : same_identity (apply_write j w) j.
Proof. unfold same_identity. destruct w; simpl; auto. Qed.

Lemma writes_identity ws j : same_identity (fold_left apply_write ws j) j.
Proof.
  revert j. induction ws as [|w ws IH]; intros j; simpl.
  - unfold same_identity. auto.
  - destruct (IH (apply_write j w)) as (H1 & H2 & H3 & H4 & H5).
    destruct (apply_write_identity j w) as (G1 & G2 & G3 & G4 & G5).
    unfold same_identity. repeat split; congruence.
Qed.

(** X2.  A run writes to its own job only: a job id that is not registered
    leaves the registry as it is, every other job stays as it was, and
    the job itself keeps its id, title, storage key and page counts. *)
Theorem run_touches_own_job (jobs : gmap string ProcessingJob)
    job_id pdf_bytes ttl :
  let jobs' :=
    fst (process_pdf_task new_PDFExtractor extract_from_bytes
           new_EmbeddingGenerator process_book new_GraphManager
           create_book_graph new_VectorStore store_book_vectors
           started completed jobs job_id pdf_bytes ttl) in
  (jobs !! job_id = None -> jobs' = jobs)
  /\ (forall other, other <> job_id -> jobs' !! other = jobs !! other)
  /\ (forall job, jobs !! job_id = Some job ->
      exists final, jobs' !! job_id = Some final /\ same_identity final job).
Proof.
  unfold process_pdf_task. split; [|split].
  - intros ->. reflexivity.
  - intros other Hne. destruct (jobs !! job_id); [|reflexivity].
    cbn [fst]. now rewrite lookup_insert_ne.
  - intros job ->. eexists. cbn [fst]. rewrite lookup_insert_eq.
    split; [reflexivity | apply writes_identity].
Qed.

(** X3.  From the upload on, the progress of a job only rises, from 0 to at
    most 100, whatever the stages do. *)
Theorem progress_only_rises filename contents job_id :
  let h :=
    job_history new_PDFExtractor extract_from_bytes new_EmbeddingGenerator
      process_book new_GraphManager create_book_graph new_VectorStore
      store_book_vectors put_object started completed
      filename contents job_id in
  progress_rises h
  /\ Forall (fun j => (0 <= progress j <= 100)%Z) h.
Proof.
  unfold job_history, task_writes, try_except, try_block.
  destruct (put_object _ contents).
  - ProcessingFacts.by_call;
      vm_compute; repeat split; repeat constructor; discriminate.
  - vm_compute; repeat split; repeat constructor; discriminate.
Qed.

End Runs.

Lemma run_touches_own_job_witness :
  exists final,
    fst (process_pdf_task Fixtures.built Fixtures.extract_ok Fixtures.built
           Fixtures.embed_ok Fixtures.built
           (Fixtures.graph_raises (Exception "down"))
           Fixtures.built Fixtures.vectors_ok 10 20
           (<["j1" := new_job "j1" "notes.pdf"]> ∅) "j1" "%PDF" "notes")
    !! "j1" = Some final
    /\ same_identity final (new_job "j1" "notes.pdf").
Proof.
  apply (proj2 (proj2 (run_touches_own_job unit unit unit unit
                         Fixtures.built Fixtures.extract_ok Fixtures.built
                         Fixtures.embed_ok Fixtures.built
                         (Fixtures.graph_raises (Exception "down"))
                         Fixtures.built Fixtures.vectors_ok 10 20
                         (<["j1" := new_job "j1" "notes.pdf"]> ∅)
                         "j1" "%PDF" "notes"))).
  reflexivity.
Defined.

End ProcessingMore.

(* ===================================================================== *)
(** * Further properties of the vector store client                        *)
(* ===================================================================== *)

Module VectorMore.
Import Py Content VectorStore VectorQueries Statements.

Lemma failed_calls_S unavailable from n :
  failed_calls unavailable from (S n)
  = ((if unavailable from then 1 else 0)
     + failed_calls unavailable (S from) n)%nat.
Proof.
  unfold failed_calls. simpl. destruct (unavailable from); reflexivity.
Qed.

Lemma puts_dom_mono (vs : list vector_data) (m : gmap string vector_data) k :
  k ∈ dom m -> k ∈ dom (fold_left (fun m v => <[v_id v := v]> m) vs m).
Proof.
  intros Hk. rewrite VectorFacts.dom_puts. apply elem_of_union. now left.
Qed.

Lemma upsert_batches_calls unavailable idx batches c :
  let r := upsert_batches unavailable idx batches c in
  calls (fst r) = (calls idx + length batches)%nat
  /\ (forall k, k ∈ dom (stored idx) -> k ∈ dom (stored (fst r)))
  /\ (Forall (fun b => (length b <= 100)%nat) batches ->
      (c + Z.of_nat (length (concat batches))
       - 100 * Z.of_nat (failed_calls unavailable (calls idx) (length batches))
       <= snd r)%Z).
Proof.
  revert idx c. induction batches as [|batch rest IH]; intros idx c.
  - simpl. split; [lia|]. split; [auto|]. intros _.
    unfold failed_calls. simpl. lia.
  - cbn [upsert_batches length]. rewrite failed_calls_S. unfold upsert.
    destruct (unavailable (calls idx)) eqn:Hu.
    + specialize (IH {| stored := stored idx; calls := S (calls idx) |} c).
      cbn [calls stored] in IH. destruct IH as (Hc & Hd & Hle).
      split; [lia|]. split; [exact Hd|].
      intros Hall. inversion Hall as [|? ? Hb Hrest]; subst.
      specialize (Hle Hrest). simpl concat. rewrite length_app. lia.
    + match goal with
      | |- context [upsert_batches _ ?i rest ?c'] => specialize (IH i c')
      end.
      cbn [calls stored] in IH. destruct IH as (Hc & Hd & Hle).
      split; [lia|]. split.
      * intros k Hk. apply Hd. now apply puts_dom_mono.
      * intros Hall. inversion Hall as [|? ? Hb Hrest]; subst.
        specialize (Hle Hrest). simpl concat. rewrite length_app. lia.
Qed.

Lemma slice_length {A} (l : list A) i (j : Z) (n : nat) :
  (j - Z.of_nat i <= Z.of_nat n)%Z -> (length (slice l i j) <= n)%nat.
Proof.
  intros H. unfold slice. rewrite length_firstn. lia.
Qed.

(** X4.  [store_book_vectors] never raises.  For [n] concepts with a
    non-empty embedding it makes exactly ceil(n / 100) upsert calls (none
    for a book without embeddings), each failing call costs it at most
    100 vectors of its count, and no id that was in the index is lost. *)
Theorem store_book_vectors_calls unavailable utcnow idx b :
  let n := length (List.filter (fun c => truthy (embedding c))
                               (all_concepts b)) in
  let made := ((n + 99) / 100)%nat in
  exists idx' count,
    store_book_vectors unavailable utcnow idx b = (idx', Ok count)
    /\ calls idx' = (calls idx + made)%nat
    /\ (Z.of_nat n
        - 100 * Z.of_nat (failed_calls unavailable (calls idx) made)
        <= count <= Z.of_nat n)%Z
    /\ (forall k, k ∈ dom (stored idx) -> k ∈ dom (stored idx')).
Proof.
  intros n made.
  assert (length (collect_vectors utcnow b) = n) as Hlen.
  { pose proof (VectorFacts.collect_vectors_kept utcnow b) as Hk.
    apply (f_equal (@length _)) in Hk. now rewrite !length_map in Hk. }
  unfold store_book_vectors.
  destruct (PyFacts.range0_slices (collect_vectors utcnow b) batch_size)
    as (starts & Hr & Hcat); [reflexivity|].
  rewrite Hr.
  assert (length starts = made) as Hstarts.
  { unfold range0, batch_size in Hr. injection Hr as <-.
    rewrite length_map, length_seq, Hlen. unfold made.
    change (Pos.to_nat 100) with 100%nat.
    now replace (n + 100 - 1)%nat with (n + 99)%nat by lia. }
  match goal with
  | |- context [upsert_batches _ idx ?bs 0%Z] =>
      pose proof (upsert_batches_calls unavailable idx bs 0%Z) as Hc;
      pose proof (VectorFacts.upsert_batches_count unavailable idx bs 0%Z)
        as Hu;
      destruct (upsert_batches unavailable idx bs 0%Z) as [idx' count]
  end.
  cbn [fst snd] in Hc, Hu. rewrite length_map, Hstarts, Hcat, Hlen in Hc.
  rewrite Hcat, Hlen in Hu. destruct Hc as (Hcalls & Hdom & Hle).
  exists idx', count. split; [reflexivity|]. split; [exact Hcalls|].
  split; [|exact Hdom]. split; [|lia].
  apply Hle. apply Forall_map. apply Forall_forall. intros i _.
  apply slice_length. unfold batch_size. lia.
Qed.

Lemma puts_lookup_other (vs : list vector_data) (m : gmap string vector_data) k :
  ~ In k (map v_id vs) ->
  fold_left (fun m v => <[v_id v := v]> m) vs m !! k = m !! k.
Proof.
  revert m. induction vs as [|v vs IH]; intros m Hk; simpl; [reflexivity|].
  rewrite IH by (intros H; apply Hk; now right).
  apply lookup_insert_ne. intros Heq. apply Hk. now left.
Qed.

Lemma puts_lookup_last (vs1 vs2 : list vector_data) v
    (m : gmap string vector_data) :
  ~ In (v_id v) (map v_id vs2) ->
  fold_left (fun m v => <[v_id v := v]> m) (vs1 ++ v :: vs2) m !! v_id v
  = Some v.
Proof.
  intros Hk. rewrite fold_left_app. simpl.
  rewrite puts_lookup_other by exact Hk. apply lookup_insert_eq.
Qed.

Lemma imap_ids {T} (f : nat -> T -> vector_data) (g : T -> string) l :
  (forall n x, v_id (f n x) = g x) -> map v_id (imap f l) = map g l.
Proof.
  intros Hf. revert f Hf. induction l as [|x l IH]; intros f Hf; simpl.
  - reflexivity.
  - rewrite Hf. f_equal. apply IH. intros n y. apply Hf.
Qed.

(** With the store answering, [get_concept_by_id] is the lookup of the
    id among the stored vectors. *)
Lemma get_concept_by_id_lookup unavailable idx id :
  unavailable (calls idx) = false ->
  snd (get_concept_by_id unavailable idx id) = stored idx !! id.
Proof.
  intros Hu. unfold get_concept_by_id, fetch. rewrite Hu. simpl.
  destruct (stored idx !! id) as [v|] eqn:E; simpl.
  - rewrite insert_empty, dom_singleton_L, lookup_singleton_eq.
    rewrite bool_decide_eq_true_2; [reflexivity | now apply elem_of_singleton].
  - now destruct (bool_decide _).
Qed.

(** With no failing call the index holds what it held, overwritten by
    the collected vectors in their order. *)
Lemma stored_after_store unavailable utcnow idx b :
  (forall k, unavailable k = false) ->
  stored (fst (store_book_vectors unavailable utcnow idx b))
  = fold_left (fun m v => <[v_id v := v]> m)
              (collect_vectors utcnow b) (stored idx).
Proof.
  intros Hup. unfold store_book_vectors.
  destruct (PyFacts.range0_slices (collect_vectors utcnow b) batch_size)
    as (starts & -> & Hcat); [reflexivity|].
  match goal with
  | |- context [upsert_batches _ idx ?bs 0%Z] =>
      pose proof (VectorFacts.upsert_batches_count unavailable idx bs 0%Z)
        as Hc;
      destruct (upsert_batches unavailable idx bs 0%Z) as [i n]
  end.
  cbn [fst snd] in Hc. destruct Hc as [_ Hall].
  destruct (Hall Hup) as [_ Hs]. cbn [fst]. now rewrite Hs, Hcat.
Qed.

Lemma collected_ids (clock : nat -> string) b
    (l : list (Chapter * Section * Concept)) :
  map v_id (imap (fun n '(ch, se, co) =>
                    _create_vector_data (clock n) co b ch se) l)
  = map (fun x => concept_id (snd x)) l.
Proof. apply imap_ids. now intros n [[ch se] co]. Qed.

(** The vector the index holds for a concept that was collected, the
    last one of its id. *)
Lemma collected_lookup utcnow b (m : gmap string vector_data)
    l1 ch se co l2 :
  List.filter (fun '(_, _, c) => truthy (embedding c)) (located_concepts b)
  = l1 ++ (ch, se, co) :: l2 ->
  ~ In (concept_id co) (map (fun x => concept_id (snd x)) l2) ->
  fold_left (fun m v => <[v_id v := v]> m) (collect_vectors utcnow b) m
    !! concept_id co
  = Some (_create_vector_data (utcnow (length l1)) co b ch se).
Proof.
  intros Hkept Hlast. unfold collect_vectors. rewrite Hkept.
  rewrite imap_app, imap_cons. rewrite Nat.add_0_r.
  change (concept_id co)
    with (v_id (_create_vector_data (utcnow (length l1)) co b ch se)).
  apply puts_lookup_last. cbn [v_id _create_vector_data].
  unfold compose.
  rewrite (collected_ids (fun n => utcnow (length l1 + S n))). exact Hlast.
Qed.

(** X5.  Store, then fetch.  After [store_book_vectors] with no failing
    call, [get_concept_by_id] of a concept with a non-empty embedding
    gives back its vector: the embedding, and metadata that names its
    book, chapter and section; when several such concepts share an id
    the last one in document order is the one stored.  An id that was
    not in the index and belongs to no such concept is not found. *)
Theorem stored_concept_is_fetched unavailable utcnow idx b :
  (forall k, unavailable k = false) ->
  let kept := List.filter (fun '(_, _, c) => truthy (embedding c))
                          (located_concepts b) in
  let idx' := fst (store_book_vectors unavailable utcnow idx b) in
  (forall l1 ch se co l2,
     kept = l1 ++ (ch, se, co) :: l2 ->
     ~ In (concept_id co) (map (fun x => concept_id (snd x)) l2) ->
     snd (get_concept_by_id unavailable idx' (concept_id co))
     = Some (_create_vector_data (utcnow (length l1)) co b ch se))
  /\ (forall id,
        stored idx !! id = None ->
        ~ In id (map (fun x => concept_id (snd x)) kept) ->
        snd (get_concept_by_id unavailable idx' id) = None).
Proof.
  intros Hup kept idx'.
  pose proof (stored_after_store unavailable utcnow idx b Hup) as Hst.
  fold idx' in Hst. split.
  - intros l1 ch se co l2 Hkept Hlast.
    rewrite get_concept_by_id_lookup by apply Hup.
    rewrite Hst. now apply (collected_lookup utcnow b _ l1 ch se co l2).
  - intros id Hnone Hout.
    rewrite get_concept_by_id_lookup by apply Hup.
    rewrite Hst, puts_lookup_other; [exact Hnone|].
    unfold collect_vectors. fold kept. now rewrite collected_ids.
Qed.

Lemma stored_concept_is_fetched_witness :
  snd (get_concept_by_id Fixtures.always_up
         (fst (store_book_vectors Fixtures.always_up Fixtures.clock
                 empty_index Fixtures.two_of_three)) "c3")
  = Some (_create_vector_data "t1" Samples.c3 Fixtures.two_of_three
            (Samples.chapter_of [Samples.c1; Samples.c2; Samples.c3])
            (Samples.section_of [Samples.c1; Samples.c2; Samples.c3])).
Proof.
  apply (proj1 (stored_concept_is_fetched Fixtures.always_up Fixtures.clock
                  empty_index Fixtures.two_of_three (fun k => eq_refl))
           [(Samples.chapter_of [Samples.c1; Samples.c2; Samples.c3],
             Samples.section_of [Samples.c1; Samples.c2; Samples.c3],
             Samples.c1)]
           _ _ Samples.c3 []).
  - reflexivity.
  - simpl. tauto.
Defined.

(** The filter built from a request depends on the three keys only. *)
Lemma pinecone_filter_build (f : filters) :
  pinecone_filter f
  = let pf0 : gmap string string := ∅ in
    let pf1 := match filter_value f "book_id" with
               | Some v => <["book_id" := v]> pf0
               | None => pf0
               end in
    let pf2 := match filter_value f "subject" with
               | Some v => <["subject" := v]> pf1
               | None => pf1
               end in
    match filter_value f "concept_type" with
    | Some v => <["concept_type" := v]> pf2
    | None => pf2
    end.
Proof.
  destruct f as [d|]; [|reflexivity]. simpl.
  destruct (bool_decide (d = ∅)) eqn:E; [|reflexivity].
  apply bool_decide_eq_true in E. subst d. reflexivity.
Qed.

(** X6.  The filter that [search_similar] hands to the index holds the
    request's [book_id], [subject] and [concept_type] entries and nothing
    else, so two requests that agree on these three keys get the same
    answer, whatever other keys they carry. *)
Theorem search_filter_allow_list query v limit (f1 f2 : filters) :
  (forall k, pinecone_filter f1 !! k
             = if bool_decide (k ∈ filter_keys) then filter_value f1 k
               else None)
  /\ ((forall k, k ∈ filter_keys -> filter_value f1 k = filter_value f2 k) ->
      search_similar query v limit f1 = search_similar query v limit f2).
Proof.
  split.
  - intros k. rewrite pinecone_filter_build. unfold filter_keys. cbn zeta.
    destruct (decide (k = "book_id")) as [->|H1];
      [|destruct (decide (k = "subject")) as [->|H2];
        [|destruct (decide (k = "concept_type")) as [->|H3]]].
    + rewrite bool_decide_eq_true_2 by (repeat constructor).
      destruct (filter_value f1 "book_id"), (filter_value f1 "subject"),
        (filter_value f1 "concept_type"); now simplify_map_eq.
    + rewrite bool_decide_eq_true_2 by (repeat constructor).
      destruct (filter_value f1 "book_id"), (filter_value f1 "subject"),
        (filter_value f1 "concept_type"); now simplify_map_eq.
    + rewrite bool_decide_eq_true_2 by (repeat constructor).
      destruct (filter_value f1 "book_id"), (filter_value f1 "subject"),
        (filter_value f1 "concept_type"); now simplify_map_eq.
    + rewrite bool_decide_eq_false_2.
      * destruct (filter_value f1 "book_id"), (filter_value f1 "subject"),
          (filter_value f1 "concept_type"); now simplify_map_eq.
      * intros Hin. repeat (apply elem_of_cons in Hin as [?|Hin]; [congruence|]).
        now apply elem_of_nil in Hin.
  - intros Hagree. unfold search_similar.
    rewrite !pinecone_filter_build.
    rewrite !Hagree by (unfold filter_keys; repeat constructor).
    reflexivity.
Qed.

Lemma search_filter_allow_list_witness :
  search_similar (fun _ _ _ => Ok []) [] 10
    (Some (<["grade" := "5"]> (<["subject" := "Physics"]> ∅)))
  = search_similar (fun _ _ _ => Ok []) [] 10
      (Some (<["subject" := "Physics"]> ∅)).
Proof.
  apply (proj2 (search_filter_allow_list (fun _ _ _ => Ok []) [] 10
                  (Some (<["grade" := "5"]> (<["subject" := "Physics"]> ∅)))
                  (Some (<["subject" := "Physics"]> ∅)))).
  intros k Hk. unfold filter_keys in Hk.
  repeat (apply elem_of_cons in Hk as [->|Hk]; [reflexivity|]).
  now apply elem_of_nil in Hk.
Defined.

End VectorMore.

(* ===================================================================== *)
(** * Further properties of the recognizer and the segmenter               *)
(* ===================================================================== *)

Module ExtractorMore.
Import Py Re Content Extractor Extraction Statements.

Lemma take_length n s : (String.length (take n s) <= n)%nat.
Proof.
  revert s. induction n as [|n IH]; intros [|c s]; simpl; try lia.
  specialize (IH s). lia.
Qed.

Lemma take_app_rest n s : exists rest, s = (take n s ++ rest)%string.
Proof.
  revert s. induction n as [|n IH]; intros s.
  - exists s. now destruct s.
  - destruct s as [|c s]; [now exists ""|].
    destruct (IH s) as (rest & Hs). exists rest. cbn [take].
    change (String c s = String c (take n s ++ rest)%string).
    now rewrite <- Hs.
Qed.

Lemma string_app_assoc (a b c : string) :
  ((a ++ b) ++ c = a ++ (b ++ c))%string.
Proof.
  induction a as [|x a IH]; [reflexivity|].
  change (String x ((a ++ b) ++ c) = String x (a ++ (b ++ c)))%string.
  now rewrite IH.
Qed.

Lemma string_app_nil_r (a : string) : (a ++ "")%string = a.
Proof.
  induction a as [|x a IH]; [reflexivity|].
  change (String x (a ++ "") = String x a)%string. now rewrite IH.
Qed.

(** The first piece of a split is the beginning of the string. *)
Lemma split_go_head sep s cur :
  exists pre rest more,
    s = (pre ++ rest)%string
    /\ split_go sep s cur 0 = (cur ++ pre)%string :: more.
Proof.
  revert cur. induction s as [|c s IH]; intros cur.
  - exists "", "", []. split; [reflexivity|]. simpl.
    now rewrite string_app_nil_r.
  - cbn [split_go]. destruct (String.prefix sep (String c s)).
    + exists "", (String c s), (split_go sep s "" (String.length sep - 1)).
      split; [reflexivity|]. now rewrite string_app_nil_r.
    + destruct (IH (cur ++ String c "")%string) as (pre & rest & more & -> & ->).
      exists (String c pre), rest, more. split; [reflexivity|].
      now rewrite string_app_assoc.
Qed.

(** X7.  What the segmenter builds.  The concepts of
    [_extract_concepts] are, in order, the stripped non-blank paragraphs
    of at least 50 characters, classified by [_classify_content]; each
    has a name of at most 100 characters with which its content begins,
    no embedding, empty metadata, and the next fresh identity. *)
Theorem extracted_concepts_shape uuid4 text next :
  let r := _extract_concepts uuid4 text next in
  snd r = (next + length (fst r))%nat
  /\ map concept_id (fst r) = map uuid4 (seq next (length (fst r)))
  /\ map content (fst r)
     = List.filter (fun p => negb (String.length p <? 50)%nat)
                   (paragraphs text)
  /\ Forall (fun c =>
       (50 <= String.length (content c))%nat
       /\ (String.length (name c) <= 100)%nat
       /\ (exists rest, content c = (name c ++ rest)%string)
       /\ type c = _classify_content (content c)
       /\ embedding c = None /\ metadata c = []) (fst r).
Proof.
  unfold _extract_concepts. generalize (paragraphs text). intros paras.
  revert next. induction paras as [|para rest IH]; intros next.
  - simpl. repeat split; try lia. constructor.
  - cbn [concepts_of List.filter].
    destruct (String.length para <? 50)%nat eqn:Hlen; cbn [negb].
    + apply IH.
    + specialize (IH (S next)).
      destruct (concepts_of uuid4 rest (S next)) as [more next'].
      cbn [fst snd] in *. destruct IH as (Hn & Hids & Hc & Hall).
      cbn [length map seq concept_id content].
      split; [lia|]. split; [now rewrite Hids|]. split; [now rewrite Hc|].
      constructor; [|exact Hall].
      cbn [content name type embedding metadata].
      apply Nat.ltb_ge in Hlen. split; [exact Hlen|].
      unfold split.
      destruct (split_go_head ". " para "") as (pre & post & more' & Hp & ->).
      cbn [String.append]. split; [apply take_length|].
      split; [|auto].
      destruct (take_app_rest 100 pre) as (r & Hr).
      exists (r ++ post)%string. rewrite Hp at 1. rewrite Hr at 1.
      apply string_app_assoc.
Qed.

(** ** Chapters and heading lines *)

(** Number and title of the chapters of a book and what identifies the
    book: what the loop of [_structure_content] only ever extends. *)
Abbreviation outline b :=
  (map (fun ch => (chapter_number ch, chapter_title ch)) (chapters b),
   (book_id b, title b, subject b)).

Lemma map_alter_same {A B} (g : A -> B) (f : A -> A) i (l : list A) :
  (forall x, g (f x) = g x) -> map g (alter f i l) = map g l.
Proof.
  intros Hg. revert i. induction l as [|x l IH]; intros i; [reflexivity|].
  destruct i as [|i]; simpl.
  - now rewrite Hg.
  - f_equal. apply IH.
Qed.

Lemma flush_outline uuid4 st :
  outline (book (flush uuid4 st)) = outline (book st).
Proof.
  unfold flush. destruct (current_section st) as [ref|]; [|reflexivity].
  destruct (accumulated_text st); [reflexivity|].
  destruct (_extract_concepts _ _ _) as [new next]. cbn [book].
  unfold extend_section, set_chapters.
  cbn [chapters book_id title subject].
  now rewrite map_alter_same.
Qed.

Lemma step_outline uuid4 st raw :
  outline (book (step uuid4 st raw))
  = (fst (outline (book st))
       ++ match _match_chapter (strip raw) with
          | Some h => [h]
          | None => []
          end,
     snd (outline (book st))).
Proof.
  unfold step. destruct (String.eqb (strip raw) "") eqn:He.
  - apply String.eqb_eq in He. rewrite He.
    change (_match_chapter "") with (@None (Z * string)).
    cbn [fst snd]. now rewrite app_nil_r.
  - destruct (_match_chapter (strip raw)) as [[num ttl]|].
    + pose proof (flush_outline uuid4 st) as Hf.
      injection Hf as Hc Hi Ht Hs.
      unfold start_chapter. cbn [book fst snd].
      unfold set_chapters. cbn [chapters book_id title subject].
      rewrite map_app, Hc, Hi, Ht, Hs. reflexivity.
    + destruct (_match_section (strip raw)) as [[num ttl]|];
        [destruct (current_chapter st) as [ci|]|];
        cbn [book fst snd]; rewrite ?app_nil_r; try reflexivity.
      pose proof (flush_outline uuid4 st) as Hf.
      injection Hf as Hc Hi Ht Hs.
      unfold start_section. cbn [book].
      unfold set_chapters. cbn [chapters book_id title subject].
      rewrite map_alter_same by reflexivity. now rewrite Hc, Hi, Ht, Hs.
Qed.

Lemma steps_outline uuid4 lines st :
  outline (book (fold_left (step uuid4) lines st))
  = (fst (outline (book st))
       ++ omap (fun raw => _match_chapter (strip raw)) lines,
     snd (outline (book st))).
Proof.
  revert st. induction lines as [|raw lines IH]; intros st.
  - cbn [fold_left omap]. cbn [fst snd]. now rewrite app_nil_r.
  - cbn [fold_left]. rewrite IH, step_outline. cbn [fst snd].
    rewrite <- app_assoc. do 2 f_equal.
    simpl. now destruct (_match_chapter (strip raw)).
Qed.

Lemma pages_outline uuid4 pages st :
  outline (book (fold_left (fun st page =>
                              fold_left (step uuid4) (split LF page) st)
                           pages st))
  = (fst (outline (book st)) ++ heading_lines pages,
     snd (outline (book st))).
Proof.
  unfold heading_lines. revert st.
  induction pages as [|page pages IH]; intros st.
  - cbn [fold_left flat_map omap fst snd]. now rewrite app_nil_r.
  - cbn [fold_left flat_map]. rewrite IH, steps_outline. cbn [fst snd].
    rewrite <- app_assoc. do 2 f_equal.
    symmetry. apply omap_app.
Qed.

(** X8.  The chapters of a structured book are the chapter-heading
    lines of the pages, in order, with the number and the stripped title
    read from each; text without any chapter heading gives a book with
    no chapters (and so with no sections and no concepts).  The book
    keeps the given title, with the subject inferred from it. *)
Theorem chapters_are_heading_lines uuid4 pages ttl :
  let b := _structure_content uuid4 pages ttl in
  map (fun ch => (chapter_number ch, chapter_title ch)) (chapters b)
  = heading_lines pages
  /\ (heading_lines pages = [] -> all_concepts b = [])
  /\ book_id b = uuid4 0 /\ title b = ttl /\ subject b = _infer_subject ttl.
Proof.
  intros b.
  assert (outline b = (heading_lines pages, (uuid4 0, ttl, _infer_subject ttl)))
    as Ho.
  { unfold b, _structure_content. cbv zeta.
    now rewrite flush_outline, pages_outline. }
  injection Ho as Hc Hi Ht Hs. split; [exact Hc|].
  split; [|auto].
  intros Hnone. rewrite Hnone in Hc. unfold all_concepts.
  now destruct (chapters b).
Qed.

Lemma chapters_are_heading_lines_witness :
  all_concepts
    (_structure_content Fixtures.uuid
       ["A page of running text without any heading."] "Notes") = [].
Proof.
  apply (chapters_are_heading_lines Fixtures.uuid
           ["A page of running text without any heading."] "Notes").
  reflexivity.
Defined.

End ExtractorMore.

(* ===================================================================== *)
(** * Sections and the paragraphs they receive                             *)
(* ===================================================================== *)

Module SectionFacts.
Import Py Re Content Extractor Extraction Statements.

(** ** Line feeds in lines and in their join *)

Abbreviation nl := ("010"%char).
(** A string without a line feed. *)
Abbreviation clean s := (contains LF s = false).

Lemma prefix_LF c s :
  String.prefix LF (String c s) = if ascii_dec nl c then true else false.
Proof.
  unfold LF. cbn [String.prefix]. change (ascii_of_nat 10) with nl.
  destruct (ascii_dec nl c); [now destruct s | reflexivity].
Qed.

Lemma clean_cons c s : clean (String c s) <-> c <> nl /\ clean s.
Proof.
  cbn [contains]. rewrite prefix_LF.
  destruct (ascii_dec nl c) as [<- | Hne]; cbn [orb].
  - split; [discriminate | intros [H _]; now elim H].
  - split; [intros H; split; [congruence | exact H] | tauto].
Qed.

Lemma clean_app a b : clean a -> clean b -> clean (a ++ b)%string.
Proof.
  intros Ha Hb. induction a as [|c a IH]; [exact Hb|].
  apply clean_cons in Ha as [Hc Ha].
  change (clean (String c (a ++ b))). apply clean_cons. auto.
Qed.

Lemma split_lines_clean s cur :
  clean cur -> Forall (fun p => clean p) (split_go LF s cur 0).
Proof.
  revert cur. induction s as [|c s IH]; intros cur Hcur.
  - repeat constructor. exact Hcur.
  - cbn [split_go]. rewrite prefix_LF.
    change (String.length LF - 1)%nat with 0%nat.
    destruct (ascii_dec nl c) as [<- | Hne].
    + constructor; [exact Hcur|]. apply IH. reflexivity.
    + apply IH. apply clean_app; [exact Hcur|].
      apply clean_cons. split; [congruence | reflexivity].
Qed.

Lemma lstrip_clean s : clean s -> clean (lstrip s).
Proof.
  induction s as [|c s IH]; intros H; [exact H|].
  cbn [lstrip]. destruct (isspace c); [|exact H].
  apply clean_cons in H as [_ H]. auto.
Qed.

Lemma rstrip_clean s : clean s -> clean (rstrip s).
Proof.
  induction s as [|c s IH]; intros H; [exact H|].
  apply clean_cons in H as [Hc H]. specialize (IH H).
  cbn [rstrip]. destruct (rstrip s) as [|d r].
  - destruct (isspace c); [reflexivity|].
    apply clean_cons. split; [exact Hc | reflexivity].
  - apply clean_cons. auto.
Qed.

Lemma strip_clean s : clean s -> clean (strip s).
Proof. intros H. apply rstrip_clean, lstrip_clean, H. Qed.

(** A line as the recognizer buffers it: stripped, not empty, and
    without a line feed. *)
Abbreviation buffered l := (l%string <> EmptyString /\ clean l).

Lemma blank_line : (LF ++ LF)%string = String nl (String nl "").
Proof. reflexivity. Qed.

Lemma no_blank_line_cons c s :
  c <> nl ->
  contains (LF ++ LF) (String c s) = contains (LF ++ LF) s.
Proof.
  intros Hc. rewrite blank_line. cbn [contains String.prefix].
  destruct (ascii_dec nl c) as [<- | _]; [now elim Hc | reflexivity].
Qed.

Lemma clean_no_blank_line s : clean s -> contains (LF ++ LF) s = false.
Proof.
  induction s as [|c s IH]; intros H; [reflexivity|].
  apply clean_cons in H as [Hc H]. rewrite no_blank_line_cons by exact Hc.
  auto.
Qed.

Lemma joined_no_blank_line a d t :
  clean a -> d <> nl -> contains (LF ++ LF) (String d t) = false ->
  contains (LF ++ LF) (a ++ LF ++ String d t) = false.
Proof.
  intros Ha Hd Ht. induction a as [|c a IH].
  - change (contains (LF ++ LF) (String nl (String d t)) = false).
    rewrite blank_line in *. cbn [contains String.prefix] in *.
    destruct (ascii_dec nl nl) as [_ | Hn]; [|now elim Hn].
    destruct (ascii_dec nl d) as [<- | _]; [now elim Hd|].
    cbn [orb] in *. exact Ht.
  - apply clean_cons in Ha as [Hc Ha].
    change (contains (LF ++ LF) (String c (a ++ LF ++ String d t)) = false).
    rewrite no_blank_line_cons by exact Hc. auto.
Qed.

(** The join of buffered lines holds no blank line. *)
Lemma join_no_blank_line (lines : list string) :
  Forall (fun l => buffered l) lines -> lines <> [] ->
  contains (LF ++ LF) (join LF lines) = false
  /\ exists d t, join LF lines = String d t /\ d <> nl.
Proof.
  induction lines as [|l lines IH]; intros Hall Hne; [now elim Hne|].
  inversion Hall as [|? ? [Hl Hcl] Hrest]; subst.
  destruct l as [|d r]; [now elim Hl|].
  pose proof (proj1 (clean_cons d r) Hcl) as [Hd _].
  destruct lines as [|l' lines].
  - unfold join. cbn [String.concat]. split; [|eauto].
    now apply clean_no_blank_line.
  - destruct IH as (Hno & d' & t' & Hj & Hd'); [exact Hrest | discriminate|].
    unfold join in *.
    change (String.concat LF (String d r :: l' :: lines))
      with (String d r ++ LF ++ String.concat LF (l' :: lines))%string.
    rewrite Hj in *. split.
    + now apply joined_no_blank_line.
    + exists d, (r ++ LF ++ String d' t')%string. split; [reflexivity | exact Hd].
Qed.

Lemma split_absent sep s cur :
  contains sep s = false -> split_go sep s cur 0 = [(cur ++ s)%string].
Proof.
  revert cur. induction s as [|c s IH]; intros cur H.
  - cbn [split_go]. now rewrite ExtractorMore.string_app_nil_r.
  - cbn [contains] in H. apply orb_false_iff in H as [Hp Hc].
    cbn [split_go]. rewrite Hp, (IH _ Hc).
    now rewrite ExtractorMore.string_app_assoc.
Qed.

Lemma concepts_of_length uuid4 paras next :
  (length (fst (concepts_of uuid4 paras next)) <= length paras)%nat.
Proof.
  revert next. induction paras as [|p paras IH]; intros next; [simpl; lia|].
  cbn [concepts_of]. destruct (String.length p <? 50)%nat.
  - specialize (IH next). cbn [length]. lia.
  - specialize (IH (S next)).
    destruct (concepts_of uuid4 paras (S next)) as [more n].
    cbn [fst length] in *. lia.
Qed.

(** What the recognizer hands to the segmenter is one paragraph. *)
Lemma buffer_at_most_one_concept uuid4 (lines : list string) next :
  Forall (fun l => buffered l) lines -> lines <> [] ->
  (length (fst (_extract_concepts uuid4 (join LF lines) next)) <= 1)%nat.
Proof.
  intros Hall Hne.
  destruct (join_no_blank_line lines Hall Hne) as [Hno _].
  unfold _extract_concepts.
  etransitivity; [apply concepts_of_length|].
  unfold paragraphs, split. rewrite (split_absent _ _ _ Hno).
  rewrite length_map. cbn [List.filter].
  destruct (negb _); simpl; lia.
Qed.

(** ** The sections of a structured book *)

Abbreviation small_sections b :=
  (Forall (fun ch =>
             Forall (fun se => (length (concepts se) <= 1)%nat) (sections ch))
          (chapters b)).

(** The section being filled has received nothing yet. *)
Abbreviation unfilled st :=
  (match current_section st with
   | Some ref =>
       forall ch se,
         chapters (book st) !! fst ref = Some ch ->
         sections ch !! snd ref = Some se -> concepts se = []
   | None => True
   end).

Lemma flush_small uuid4 st :
  small_sections (book st) -> unfilled st ->
  Forall (fun l => buffered l) (accumulated_text st) ->
  small_sections (book (flush uuid4 st))
  /\ Forall (fun l => buffered l) (accumulated_text (flush uuid4 st))
  /\ current_chapter (flush uuid4 st) = current_chapter st.
Proof.
  intros Hsmall Hun Htext. unfold flush.
  destruct (current_section st) as [[ci si]|] eqn:Hcur; [|auto].
  destruct (accumulated_text st) as [|l ls] eqn:Hacc;
    [rewrite Hacc; repeat split; auto|].
  pose proof (buffer_at_most_one_concept uuid4 (l :: ls) (next_uuid st) Htext)
    as Hone.
  destruct (_extract_concepts uuid4 (join LF (l :: ls)) (next_uuid st))
    as [new next].
  cbn [book accumulated_text current_chapter fst] in *.
  split; [|split; [constructor | reflexivity]].
  unfold extend_section. cbn [chapters set_chapters fst snd].
  apply Forall_alter; [exact Hsmall|]. intros ch Hch Hsec.
  cbn [sections set_sections]. apply Forall_alter; [exact Hsec|].
  intros se Hse _. cbn [concepts set_concepts].
  rewrite (Hun ch se Hch Hse). cbn [app]. apply Hone. discriminate.
Qed.

Lemma step_small uuid4 st raw :
  clean raw ->
  small_sections (book st) /\ unfilled st
  /\ Forall (fun l => buffered l) (accumulated_text st) ->
  small_sections (book (step uuid4 st raw))
  /\ unfilled (step uuid4 st raw)
  /\ Forall (fun l => buffered l) (accumulated_text (step uuid4 st raw)).
Proof.
  intros Hraw (Hsmall & Hun & Htext). unfold step.
  destruct (String.eqb (strip raw) "") eqn:He; [auto|].
  apply String.eqb_neq in He.
  destruct (flush_small uuid4 st Hsmall Hun Htext) as (Hfs & Hft & Hfc).
  destruct (_match_chapter (strip raw)) as [[num ttl]|].
  - unfold start_chapter.
    cbn [book current_section accumulated_text chapters set_chapters].
    split; [|split; [exact I | exact Hft]].
    apply Forall_app. split; [exact Hfs|]. repeat constructor.
  - destruct (_match_section (strip raw)) as [[num ttl]|];
      [destruct (current_chapter st) as [ci|]|].
    + unfold start_section.
      cbn [book current_section accumulated_text chapters set_chapters
           fst snd].
      split; [|split; [|exact Hft]].
      * apply Forall_alter; [exact Hfs|]. intros ch _ Hsec.
        cbn [sections set_sections]. apply Forall_app. split; [exact Hsec|].
        repeat constructor.
      * intros ch se Hch Hse.
        rewrite list_lookup_alter in Hch.
        destruct (decide (ci = ci)) as [_ | Hn]; [|now elim Hn].
        destruct (chapters (book (flush uuid4 st)) !! ci) as [ch0|];
          [|discriminate].
        cbn [fmap option_fmap option_map] in Hch. injection Hch as <-.
        cbn [sections set_sections] in Hse.
        rewrite lookup_app_r, Nat.sub_diag in Hse by lia.
        cbn in Hse. now injection Hse as <-.
    + cbn [book current_section accumulated_text].
      split; [exact Hsmall|]. split; [exact Hun|].
      apply Forall_app. split; [exact Htext|]. repeat constructor; auto.
      now apply strip_clean.
    + cbn [book current_section accumulated_text].
      split; [exact Hsmall|]. split; [exact Hun|].
      apply Forall_app. split; [exact Htext|]. repeat constructor; auto.
      now apply strip_clean.
Qed.

Lemma steps_small uuid4 lines st :
  Forall (fun l => clean l) lines ->
  small_sections (book st) /\ unfilled st
  /\ Forall (fun l => buffered l) (accumulated_text st) ->
  small_sections (book (fold_left (step uuid4) lines st))
  /\ unfilled (fold_left (step uuid4) lines st)
  /\ Forall (fun l => buffered l)
            (accumulated_text (fold_left (step uuid4) lines st)).
Proof.
  revert st. induction lines as [|raw lines IH]; intros st Hall Hst;
    [exact Hst|].
  inversion Hall; subst. cbn [fold_left]. apply IH; [assumption|].
  now apply step_small.
Qed.

(** X18.  Every section of a structured book holds at most one
    concept.  The recognizer joins the stripped, non-empty lines of a
    section with single line feeds, so the text it hands to the
    segmenter never holds the blank line at which the segmenter would
    cut: a section's whole body is one paragraph, which becomes one
    concept, or none when it is shorter than 50 characters.  A book has
    thus no more concepts than sections. *)
Theorem section_has_at_most_one_concept uuid4 pages ttl :
  let b := _structure_content uuid4 pages ttl in
  Forall (fun ch =>
            Forall (fun se => (length (concepts se) <= 1)%nat) (sections ch))
         (chapters b)
  /\ (length (all_concepts b)
      <= length (flat_map sections (chapters b)))%nat.
Proof.
  intros b.
  assert (small_sections b) as Hsmall.
  { unfold b, _structure_content. cbv zeta.
    match goal with
    | |- context [flush uuid4 (fold_left ?f pages ?s)] =>
        assert (small_sections (book (fold_left f pages s))
                /\ unfilled (fold_left f pages s)
                /\ Forall (fun l => buffered l)
                          (accumulated_text (fold_left f pages s)))
          as (H1 & H2 & H3)
    end.
    { match goal with
      | |- context [fold_left _ pages ?s] =>
          assert (small_sections (book s) /\ unfilled s
                  /\ Forall (fun l => buffered l) (accumulated_text s))
            as Hstart by (cbn; auto);
          generalize dependent s
      end.
      induction pages as [|page pages IH]; intros s Hs; [exact Hs|].
      cbn [fold_left]. apply IH. apply steps_small; [|exact Hs].
      apply split_lines_clean. reflexivity. }
    now apply flush_small. }
  split; [exact Hsmall|].
  unfold all_concepts. induction Hsmall as [|ch chs Hch _ IH]; [simpl; lia|].
  cbn [flat_map]. rewrite !length_app.
  enough (length (flat_map concepts (sections ch)) <= length (sections ch))%nat
    by lia.
  clear IH. induction Hch as [|se ses Hse _ IHs]; [simpl; lia|].
  cbn [flat_map length]. rewrite length_app. lia.
Qed.

End SectionFacts.

(* ===================================================================== *)
(** * Which lines are headings                                             *)
(* ===================================================================== *)

Module HeadingFacts.
Import Py Re Content Extractor ReNotions Statements.

(** Where [p+] can take the whole run [t] and the rest of the pattern
    accepts what follows, that is the match: the longest is tried
    first. *)
Lemma greedy_takes_all {R} p (k : string -> captures -> option R) t s g r :
  all_chars p t = true ->
  k s (push_all t g) = Some r ->
  match s with String c _ => p c = false | EmptyString => True end ->
  greedy p k (t ++ s) g = Some r.
Proof.
  revert g. induction t as [|c t IH]; intros g Ht Hk Hs.
  - change (greedy p k s g = Some r). cbn [push_all] in Hk.
    destruct s as [|c s]; cbn [greedy]; [exact Hk|]. now rewrite Hs.
  - cbn [all_chars] in Ht. apply andb_true_iff in Ht as [Hc Ht].
    change (greedy p k (String c (t ++ s)) g = Some r).
    cbn [greedy]. rewrite Hc. now rewrite (IH (push c g) Ht Hk Hs).
Qed.

Lemma push_all_cur t g :
  cur (push_all t g) = option_map (fun b => (b ++ t)%string) (cur g).
Proof.
  revert g. induction t as [|c t IH]; intros g; cbn [push_all].
  - destruct (cur g); cbn; [|reflexivity].
    now rewrite ExtractorMore.string_app_nil_r.
  - rewrite IH. unfold push. cbn [cur]. destruct (cur g); cbn; [|reflexivity].
    now rewrite ExtractorMore.string_app_assoc.
Qed.

Lemma push_all_closed t g : closed (push_all t g) = closed g.
Proof.
  revert g. induction t as [|c t IH]; intros g; cbn [push_all];
    [reflexivity|]. now rewrite IH.
Qed.

Lemma digit_no_letter c x :
  isdigit c = true -> isletter x = true ->
  Ascii.eqb (lower_char c) (lower_char x) = false.
Proof.
  destruct c as [[] [] [] [] [] [] [] []]; try discriminate;
    destruct x as [[] [] [] [] [] [] [] []]; vm_compute; congruence.
Qed.

Lemma digit_not_space c : isdigit c = true -> isspace c = false.
Proof. destruct c as [[] [] [] [] [] [] [] []]; vm_compute; congruence. Qed.

Lemma int_go_digits ds acc :
  all_chars isdigit ds = true -> exists n, int_go acc ds = Some n.
Proof.
  revert acc. induction ds as [|d ds IH]; intros acc H; cbn [int_go]; [eauto|].
  cbn [all_chars] in H. apply andb_true_iff in H as [Hd H]. rewrite Hd. auto.
Qed.

Lemma word_rejects_digit d rest c word tail :
  isdigit d = true -> isletter c = true ->
  rmatch (literal (String c word) ++ tail) (String d rest) = None.
Proof.
  intros Hd Hc. unfold rmatch. cbn [literal app run].
  now rewrite (digit_no_letter d c Hd Hc).
Qed.

(** The groups of the numbered-chapter pattern on "digits, dot, white
    space, text". *)
Lemma numbered_groups d ds w ws t txt :
  isdigit d = true -> all_chars isdigit ds = true ->
  isspace w = true -> all_chars isspace ws = true ->
  isspace t = false -> all_chars dot (String t txt) = true ->
  rmatch [GroupOpen; Plus isdigit; GroupClose; Lit "."; Plus isspace;
          GroupOpen; Plus dot; GroupClose]
         (String d ds ++ "." ++ String w ws ++ String t txt)
  = Some [String d ds; String t txt].
Proof.
  intros Hd Hds Hw Hws Ht Htxt.
  cbn [all_chars] in Htxt. apply andb_true_iff in Htxt as [Ht' Htxt].
  change (String d ds ++ "." ++ String w ws ++ String t txt)%string
    with (String d (ds ++ String "." (String w (ws ++ String t txt)))).
  unfold rmatch. cbn [run]. rewrite Hd.
  apply greedy_takes_all; [exact Hds | | reflexivity].
  cbn [run].
  change (Ascii.eqb (lower_char ".") (lower_char ".")) with true.
  cbn iota. rewrite Hw.
  apply greedy_takes_all; [exact Hws | | exact Ht].
  cbn [run]. rewrite Ht'.
  rewrite <- (ExtractorMore.string_app_nil_r txt) at 1.
  apply greedy_takes_all; [exact Htxt | | exact I].
  cbn [run at_end]. f_equal.
  unfold close_group. cbn [closed cur].
  rewrite ?push_all_cur, ?push_all_closed.
  cbn [push open_group close_group cur closed option_map].
  rewrite ?push_all_cur, ?push_all_closed.
  reflexivity.
Qed.

Lemma int_within_limit s :
  s <> EmptyString ->
  (Z.of_nat (String.length s) <= int_max_str_digits)%Z ->
  int s = int_go 0 s.
Proof.
  intros Hs Hlen. unfold int. destruct s as [|c s]; [contradiction|].
  destruct (Z.ltb_spec int_max_str_digits
              (Z.of_nat (String.length (String c s)))); [lia | reflexivity].
Qed.

Lemma int_beyond_limit s :
  (int_max_str_digits < Z.of_nat (String.length s))%Z -> int s = None.
Proof.
  intros Hlen. unfold int. destruct s as [|c s]; [reflexivity|].
  destruct (Z.ltb_spec int_max_str_digits
              (Z.of_nat (String.length (String c s)))); [reflexivity | lia].
Qed.

(** X19.  A line that is a number, a dot, white space and text is a
    chapter heading, wherever it stands, as long as the number has no
    more digits than [int] converts: [_match_chapter] reads the number
    as the chapter number and the stripped text as the title.  So the
    item "1. ..." of a numbered list in running text starts a new
    chapter.  With more digits than that, [int] raises, the bare
    [except] passes, and the line is no chapter heading. *)
Theorem numbered_line_is_chapter d ds w ws t txt :
  isdigit d = true -> all_chars isdigit ds = true ->
  isspace w = true -> all_chars isspace ws = true ->
  isspace t = false -> all_chars dot (String t txt) = true ->
  let line := (String d ds ++ "." ++ String w ws ++ String t txt)%string in
  ((Z.of_nat (String.length (String d ds)) <= int_max_str_digits)%Z ->
   exists n,
     int (String d ds) = Some n
     /\ _match_chapter line = Some (n, strip (String t txt)))
  /\ ((int_max_str_digits < Z.of_nat (String.length (String d ds)))%Z ->
      _match_chapter line = None).
Proof.
  intros Hd Hds Hw Hws Ht Htxt line.
  pose proof (numbered_groups d ds w ws t txt Hd Hds Hw Hws Ht Htxt) as Hg.
  assert (_match_chapter line
          = match int (String d ds) with
            | Some n => Some (n, strip (String t txt))
            | None => None
            end) as Hline.
  { unfold line, _match_chapter, chapter_patterns. cbn [match_chapter_in].
    change (String d ds ++ "." ++ String w ws ++ String t txt)%string
      with (String d (ds ++ "." ++ String w ws ++ String t txt)) in *.
    rewrite !word_rejects_digit by (exact Hd || reflexivity).
    rewrite Hg. cbn [group nth_error Nat.sub]. reflexivity. }
  rewrite Hline. split.
  - intros Hlen.
    destruct (int_go_digits (String d ds) 0) as (n & Hn).
    { cbn [all_chars]. now rewrite Hd, Hds. }
    assert (String d ds <> EmptyString) as Hne by discriminate.
    exists n. rewrite (int_within_limit _ Hne Hlen), Hn.
    split; reflexivity.
  - intros Hlen. now rewrite (int_beyond_limit _ Hlen).
Qed.

Lemma numbered_line_is_chapter_witness :
  exists n,
    int "12" = Some n
    /\ _match_chapter ("12" ++ "." ++ " " ++ "Wash your hands")
       = Some (n, strip "Wash your hands").
Proof.
  apply (numbered_line_is_chapter "1" "2" " " "" "W" "ash your hands");
    try reflexivity.
  vm_compute. discriminate.
Defined.

(** Where the rest of the pattern accepts neither what follows the run
    nor anything that starts inside it, [p+] fails. *)
Lemma greedy_rejects {R} p (k : string -> captures -> option R) t s g :
  all_chars p t = true ->
  (forall c s' g', p c = true -> k (String c s') g' = None) ->
  (forall g', k s g' = None) ->
  match s with String c _ => p c = false | EmptyString => True end ->
  greedy p k (t ++ s) g = None.
Proof.
  intros Ht Hin Hend Hs. revert g. induction t as [|c t IH]; intros g.
  - change (greedy p k s g = None).
    destruct s as [|c s]; cbn [greedy]; [apply Hend|].
    rewrite Hs. apply Hend.
  - cbn [all_chars] in Ht. apply andb_true_iff in Ht as [Hc Ht].
    change (greedy p k (String c (t ++ s)) g = None).
    cbn [greedy]. rewrite Hc, (IH Ht). now apply Hin.
Qed.

Lemma space_not_digit c : isspace c = true -> isdigit c = false.
Proof. destruct c as [[] [] [] [] [] [] [] []]; vm_compute; congruence. Qed.

Lemma digit_not_dot c :
  isdigit c = true -> Ascii.eqb (lower_char c) (lower_char ".") = false.
Proof. destruct c as [[] [] [] [] [] [] [] []]; vm_compute; congruence. Qed.

(** The groups of the numbered-section pattern on "digits, dot, digits,
    white space, text". *)
Lemma section_groups d1 ds1 d2 ds2 w ws t txt :
  isdigit d1 = true -> all_chars isdigit ds1 = true ->
  isdigit d2 = true -> all_chars isdigit ds2 = true ->
  isspace w = true -> all_chars isspace ws = true ->
  isspace t = false -> all_chars dot (String t txt) = true ->
  rmatch section_numeric
         (String d1 ds1 ++ "." ++ String d2 ds2 ++ String w ws
          ++ String t txt)
  = Some [(String d1 ds1 ++ "." ++ String d2 ds2)%string; String t txt].
Proof.
  intros Hd1 Hds1 Hd2 Hds2 Hw Hws Ht Htxt.
  cbn [all_chars] in Htxt. apply andb_true_iff in Htxt as [Ht' Htxt].
  change (String d1 ds1 ++ "." ++ String d2 ds2 ++ String w ws
          ++ String t txt)%string
    with (String d1 (ds1 ++ String "." (String d2
            (ds2 ++ String w (ws ++ String t txt))))).
  unfold rmatch, section_numeric. cbn [run]. rewrite Hd1.
  apply greedy_takes_all; [exact Hds1 | | reflexivity].
  cbn [run].
  change (Ascii.eqb (lower_char ".") (lower_char ".")) with true.
  cbn iota. rewrite Hd2.
  apply greedy_takes_all; [exact Hds2 | | exact (space_not_digit w Hw)].
  cbn [run]. rewrite Hw.
  apply greedy_takes_all; [exact Hws | | exact Ht].
  cbn [run]. rewrite Ht'.
  rewrite <- (ExtractorMore.string_app_nil_r txt) at 1.
  apply greedy_takes_all; [exact Htxt | | exact I].
  cbn [run at_end]. f_equal.
  unfold close_group. cbn [closed cur].
  rewrite ?push_all_cur, ?push_all_closed.
  cbn [push open_group close_group cur closed option_map].
  rewrite ?push_all_cur, ?push_all_closed.
  cbn [push open_group close_group cur closed option_map rev app].
  rewrite ?push_all_cur. cbn [push open_group cur option_map].
  rewrite ?ExtractorMore.string_app_assoc. reflexivity.
Qed.

(** X20.  A line that is a number with one dot inside ("3.2"), white
    space and text is never taken for a chapter heading, although the
    chapter patterns are tried first: it is a section heading, with the
    dotted number as the section number and the stripped text as the
    title. *)
Theorem dotted_number_line_is_section d1 ds1 d2 ds2 w ws t txt :
  isdigit d1 = true -> all_chars isdigit ds1 = true ->
  isdigit d2 = true -> all_chars isdigit ds2 = true ->
  isspace w = true -> all_chars isspace ws = true ->
  isspace t = false -> all_chars dot (String t txt) = true ->
  let line := (String d1 ds1 ++ "." ++ String d2 ds2 ++ String w ws
               ++ String t txt)%string in
  _match_chapter line = None
  /\ _match_section line
     = Some ((String d1 ds1 ++ "." ++ String d2 ds2)%string,
             strip (String t txt)).
Proof.
  intros Hd1 Hds1 Hd2 Hds2 Hw Hws Ht Htxt line.
  pose proof (section_groups d1 ds1 d2 ds2 w ws t txt
                Hd1 Hds1 Hd2 Hds2 Hw Hws Ht Htxt) as Hg.
  fold line in Hg. split.
  - unfold _match_chapter, chapter_patterns. cbn [match_chapter_in].
    change line
      with (String d1 (ds1 ++ String "." (String d2
              (ds2 ++ String w ws ++ String t txt)))).
    rewrite !word_rejects_digit by (exact Hd1 || reflexivity).
    replace (rmatch _ _) with (@None (list string)); [reflexivity|].
    symmetry. unfold rmatch. cbn [run]. rewrite Hd1.
    apply greedy_rejects; [exact Hds1 | | | reflexivity].
    + intros c s' g' Hc. cbn [run]. now rewrite (digit_not_dot c Hc).
    + intros g'. cbn [run].
      change (Ascii.eqb (lower_char ".") (lower_char ".")) with true.
      cbn iota. now rewrite (digit_not_space d2 Hd2).
  - unfold _match_section, section_patterns. cbn [match_section_in].
    now rewrite Hg.
Qed.

Lemma dotted_number_line_is_section_witness :
  let line := ("3" ++ "." ++ "2" ++ " " ++ "Adding fractions")%string in
  _match_chapter line = None
  /\ _match_section line = Some (("3" ++ "." ++ "2")%string,
                                 strip "Adding fractions").
Proof.
  apply (dotted_number_line_is_section "3" "" "2" "" " " "" "A"
           "dding fractions"); reflexivity.
Defined.

End HeadingFacts.

(* ===================================================================== *)
(** * The keyword cascades                                                 *)
(* ===================================================================== *)

Module CascadeFacts.
Import Py Re Content Extractor Statements.

Lemma prefix_inv a s :
  String.prefix a s = true -> exists post, s = (a ++ post)%string.
Proof.
  revert s. induction a as [|c a IH]; intros s H.
  - now exists s.
  - destruct s as [|d s]; [destruct a; discriminate|].
    cbn [String.prefix] in H.
    destruct (ascii_dec c d) as [<- | _]; [|discriminate].
    destruct (IH s H) as (post & ->). now exists post.
Qed.

Lemma contains_inv sub s :
  contains sub s = true -> exists pre post, s = (pre ++ sub ++ post)%string.
Proof.
  induction s as [|c s IH]; cbn [contains]; intros H.
  - rewrite orb_false_r in H. apply prefix_inv in H as (post & H).
    now exists "", post.
  - apply orb_true_iff in H as [H | H].
    + apply prefix_inv in H as (post & ->). now exists "", post.
    + destruct (IH H) as (pre & post & ->). now exists (String c pre), post.
Qed.

Lemma lower_split t a b :
  lower t = (a ++ b)%string ->
  exists ta tb, t = (ta ++ tb)%string /\ lower ta = a /\ lower tb = b.
Proof.
  revert t. induction a as [|c a IH]; intros t H.
  - now exists "", t.
  - destruct t as [|x t]; [discriminate|].
    change (String (lower_char x) (lower t) = String c (a ++ b)) in H.
    injection H as Hx Ht. destruct (IH t Ht) as (ta & tb & -> & Ha & Hb).
    exists (String x ta), tb. split; [reflexivity|].
    split; [|exact Hb]. cbn [lower]. now rewrite Hx, Ha.
Qed.

(** A keyword test of the cascades holds exactly when one of the
    keywords occurs in the text, in any letter case. *)
Lemma any_keyword_occurs keywords text :
  any_keyword keywords (lower text) = true
  <-> exists marker, In marker keywords /\ occurs marker text.
Proof.
  split.
  - unfold any_keyword. intros H. apply existsb_exists in H as (kw & Hin & H).
    exists kw. split; [exact Hin|].
    apply contains_inv in H as (pre & post & H).
    apply lower_split in H as (ta & tb & -> & _ & H).
    apply lower_split in H as (found & tc & -> & Hf & _).
    now exists ta, found, tc.
  - intros (marker & Hin & Hocc).
    now apply (ExtractorFacts.occurs_any_keyword keywords marker).
Qed.

Lemma any_keyword_absent keywords text :
  any_keyword keywords (lower text) = false
  <-> ~ exists marker, In marker keywords /\ occurs marker text.
Proof.
  rewrite <- any_keyword_occurs. now destruct (any_keyword _ _).
Qed.

(** X24.  The classification of a paragraph, by what occurs in it.  A
    paragraph is an example when an example marker occurs in it; a
    formula when none does and a formula marker occurs; an exercise when
    neither does and an exercise marker occurs; a definition when none
    of those does and a definition marker occurs; an explanation when no
    marker occurs at all.  Markers are looked for anywhere in the text,
    in any letter case. *)
Theorem classification_by_markers text :
  let has markers :=
    exists marker, In marker markers /\ occurs marker text in
  (_classify_content text = EXAMPLE <-> has example_markers)
  /\ (_classify_content text = FORMULA
      <-> ~ has example_markers /\ has formula_markers)
  /\ (_classify_content text = EXERCISE
      <-> ~ has example_markers /\ ~ has formula_markers
          /\ has exercise_markers)
  /\ (_classify_content text = DEFINITION
      <-> ~ has example_markers /\ ~ has formula_markers
          /\ ~ has exercise_markers /\ has definition_markers)
  /\ (_classify_content text = EXPLANATION
      <-> ~ has example_markers /\ ~ has formula_markers
          /\ ~ has exercise_markers /\ ~ has definition_markers).
Proof.
  intros has. unfold has, _classify_content.
  rewrite <- !any_keyword_occurs.
  destruct (any_keyword example_markers (lower text));
    [|destruct (any_keyword formula_markers (lower text));
      [|destruct (any_keyword exercise_markers (lower text));
        [|destruct (any_keyword definition_markers (lower text))]]];
    repeat split; intros; try discriminate; try reflexivity;
    try tauto; intuition congruence.
Qed.

(** X25.  The subject of a book, by what occurs in its title.  The
    subject is Mathematics when "math", "algebra", "geometry" or
    "calculus" occurs in the title, as a part of a word too and in any
    letter case; otherwise Science, Social Studies or English by the
    first of the further keyword lists of which a keyword occurs; and
    General when none occurs. *)
Theorem subject_by_keywords title :
  let has keywords :=
    exists keyword, In keyword keywords /\ occurs keyword title in
  let maths := ["math"; "algebra"; "geometry"; "calculus"] in
  let science := ["physics"; "chemistry"; "biology"; "science"] in
  let social := ["history"; "geography"; "social"] in
  let english := ["english"; "literature"; "language"] in
  (has maths -> _infer_subject title = "Mathematics")
  /\ (~ has maths -> has science -> _infer_subject title = "Science")
  /\ (~ has maths -> ~ has science -> has social ->
      _infer_subject title = "Social Studies")
  /\ (~ has maths -> ~ has science -> ~ has social -> has english ->
      _infer_subject title = "English")
  /\ (~ has maths -> ~ has science -> ~ has social -> ~ has english ->
      _infer_subject title = "General").
Proof.
  intros has maths science social english.
  unfold has, maths, science, social, english, _infer_subject.
  rewrite <- !any_keyword_occurs.
  destruct (any_keyword ["math"; "algebra"; "geometry"; "calculus"]
                        (lower title));
    [|destruct (any_keyword ["physics"; "chemistry"; "biology"; "science"]
                            (lower title));
      [|destruct (any_keyword ["history"; "geography"; "social"]
                              (lower title));
        [|destruct (any_keyword ["english"; "literature"; "language"]
                                (lower title))]]];
    repeat split; intros; try reflexivity; try discriminate;
    exfalso; intuition congruence.
Qed.

Lemma subject_by_keywords_witness :
  _infer_subject "The Aftermath of Science" = "Mathematics".
Proof.
  apply (subject_by_keywords "The Aftermath of Science").
  exists "math". split; [now left|].
  exists "The After", "math", " of Science". split; reflexivity.
Defined.

Lemma classification_by_markers_witness :
  _classify_content "Speed = distance / time, E.G. 10 km in 2 h" = EXAMPLE.
Proof.
  apply (classification_by_markers
           "Speed = distance / time, E.G. 10 km in 2 h").
  exists "e.g.". split; [right; right; now left|].
  exists "Speed = distance / time, ", "E.G.", " 10 km in 2 h".
  split; reflexivity.
Defined.

End CascadeFacts.

(* ===================================================================== *)
(** * Sections and section-heading lines                                   *)
(* ===================================================================== *)

Module OutlineFacts.
Import Py Re Content Extractor Extraction Statements.

(** Number and title of every section of a book, in document order. *)
Abbreviation section_list b :=
  (flat_map (fun ch => map (fun se => (section_number se, section_title se))
                           (sections ch))
            (chapters b)).

Lemma flat_map_alter_last {A B} (g : A -> list B) (f : A -> A) (l : list A)
    x extra :
  last l = Some x -> g (f x) = g x ++ extra ->
  flat_map g (alter f (length l - 1) l) = flat_map g l ++ extra.
Proof.
  intros Hl Hg. induction l as [|y l IH]; [discriminate|].
  destruct l as [|z l].
  - cbn in Hl |- *. injection Hl as ->. now rewrite Hg, !app_nil_r.
  - change (last (y :: z :: l)) with (last (z :: l)) in Hl.
    specialize (IH Hl). cbn [length] in *.
    replace (S (S (length l)) - 1)%nat with (S (S (length l) - 1)) by lia.
    cbn [alter list_alter flat_map] in *.
    change (list_alter f (S (length l) - 1) (z :: l))
      with (alter f (S (length l) - 1) (z :: l)).
    now rewrite IH, app_assoc.
Qed.

Lemma flat_map_alter_same {A B} (g : A -> list B) (f : A -> A) i (l : list A) :
  (forall x, g (f x) = g x) -> flat_map g (alter f i l) = flat_map g l.
Proof.
  intros Hg. revert i. induction l as [|y l IH]; intros i; [reflexivity|].
  destruct i as [|i]; cbn.
  - now rewrite Hg.
  - f_equal. apply IH.
Qed.

(** The chapter being filled is the last one of the book. *)
Abbreviation at_last_chapter st :=
  (match current_chapter st with
   | Some ci =>
       ci = Nat.sub (length (chapters (book st))) 1
       /\ chapters (book st) <> []
   | None => True
   end).

Lemma flush_sections uuid4 st :
  section_list (book (flush uuid4 st)) = section_list (book st)
  /\ length (chapters (book (flush uuid4 st))) = length (chapters (book st))
  /\ current_chapter (flush uuid4 st) = current_chapter st.
Proof.
  unfold flush. destruct (current_section st) as [ref|]; [|auto].
  destruct (accumulated_text st); [auto|].
  destruct (_extract_concepts _ _ _) as [new next].
  cbn [book current_chapter]. unfold extend_section.
  cbn [chapters set_chapters]. split; [|split; [|reflexivity]].
  - apply flat_map_alter_same. intros ch. cbn [sections set_sections].
    apply ExtractorMore.map_alter_same. reflexivity.
  - apply length_alter.
Qed.

Lemma last_snoc_some {A} (l : list A) x : last (l ++ [x]) = Some x.
Proof. apply last_snoc. Qed.

Lemma step_sections uuid4 st raw :
  at_last_chapter st ->
  at_last_chapter (step uuid4 st raw)
  /\ (is_chapter_line raw = true ->
      current_chapter (step uuid4 st raw) <> None
      /\ section_list (book (step uuid4 st raw)) = section_list (book st))
  /\ (is_chapter_line raw = false ->
      current_chapter (step uuid4 st raw) = current_chapter st
      /\ section_list (book (step uuid4 st raw))
         = section_list (book st)
           ++ match current_chapter st, _match_section (strip raw) with
              | Some _, Some (num, ttl) => [(Some num, ttl)]
              | _, _ => []
              end).
Proof.
  intros Hlast. unfold step, is_chapter_line.
  destruct (flush_sections uuid4 st) as (Hfs & Hfl & Hfc).
  destruct (String.eqb (strip raw) "") eqn:He.
  { apply String.eqb_eq in He. rewrite He.
    change (_match_chapter "") with (@None (Z * string)).
    change (_match_section "") with (@None (string * string)).
    split; [exact Hlast|]. split; [discriminate|]. intros _.
    split; [reflexivity|]. destruct (current_chapter st); now rewrite app_nil_r. }
  destruct (_match_chapter (strip raw)) as [[num ttl]|].
  - unfold start_chapter.
    cbn [book current_chapter chapters set_chapters].
    split; [|split; [|discriminate]].
    + rewrite length_app. cbn [length]. split; [lia|].
      now destruct (chapters (book (flush uuid4 st))).
    + intros _. split; [discriminate|].
      rewrite flat_map_app. cbn [flat_map sections map app].
      now rewrite !app_nil_r.
  - destruct (_match_section (strip raw)) as [[num ttl]|];
      [destruct (current_chapter st) as [ci|] eqn:Hcur|].
    + unfold start_section.
      cbn [book current_chapter chapters set_chapters].
      destruct Hlast as [-> Hne]. rewrite <- Hfl in *.
      assert (chapters (book (flush uuid4 st)) <> []) as Hne'.
      { intros H. apply Hne. apply length_zero_iff_nil.
        rewrite <- Hfl, H. reflexivity. }
      split; [|split; [discriminate|]].
      * rewrite Hfc, length_alter. split; [reflexivity|].
        intros H. apply Hne'. apply (f_equal (@length _)) in H.
        rewrite length_alter in H. now apply length_zero_iff_nil.
      * intros _. split; [exact Hfc|]. rewrite <- Hfs.
        destruct (last (chapters (book (flush uuid4 st)))) as [ch|] eqn:Hl.
        2:{ apply last_None in Hl. contradiction. }
        apply (flat_map_alter_last _ _ _ ch); [exact Hl|].
        cbn [sections set_sections]. now rewrite map_app.
    + split; [exact Hlast|]. split; [discriminate|]. intros _.
      cbn [book current_chapter]. rewrite ?Hcur.
      split; [reflexivity | now rewrite app_nil_r].
    + split; [exact Hlast|]. split; [discriminate|]. intros _.
      cbn [book current_chapter].
      split; [reflexivity|]. destruct (current_chapter st); now rewrite app_nil_r.
Qed.

Lemma steps_sections uuid4 lines st :
  at_last_chapter st ->
  at_last_chapter (fold_left (step uuid4) lines st)
  /\ section_list (book (fold_left (step uuid4) lines st))
     = section_list (book st)
       ++ map (fun s => (Some (fst s), snd s))
              (section_headings
                 (match current_chapter st with
                  | Some _ => lines
                  | None => after_first_chapter lines
                  end))
  /\ (current_chapter (fold_left (step uuid4) lines st) = None
      <-> current_chapter st = None
          /\ Forall (fun raw => is_chapter_line raw = false) lines).
Proof.
  revert st. induction lines as [|raw lines IH]; intros st Hst.
  - cbn [fold_left]. split; [exact Hst|]. split.
    + destruct (current_chapter st); cbn; now rewrite app_nil_r.
    + split; [auto | tauto].
  - cbn [fold_left].
    destruct (step_sections uuid4 st raw Hst) as (Hst' & Hch & Hno).
    destruct (IH _ Hst') as (Hlast & Hsec & Hnone).
    split; [exact Hlast|].
    destruct (is_chapter_line raw) eqn:Hraw.
    + destruct (Hch eq_refl) as [Hcur Hsame]. split.
      * rewrite Hsec, Hsame. f_equal.
        destruct (current_chapter (step uuid4 st raw)); [|contradiction].
        unfold section_headings.
        destruct (current_chapter st).
        -- cbn [omap list_omap]. now rewrite Hraw.
        -- cbn [after_first_chapter]. now rewrite Hraw.
      * rewrite Hnone. split; [tauto|].
        intros [_ H]. inversion H; congruence.
    + destruct (Hno eq_refl) as [Hcur Happ]. split.
      * rewrite Hsec, Happ, Hcur, <- app_assoc. f_equal.
        unfold section_headings.
        destruct (current_chapter st).
        -- cbn [omap list_omap]. rewrite Hraw.
           destruct (_match_section (strip raw)) as [[num ttl]|]; reflexivity.
        -- cbn [after_first_chapter]. rewrite Hraw.
           destruct (_match_section (strip raw)) as [[num ttl]|]; reflexivity.
      * rewrite Hnone, Hcur. split.
        -- intros [H1 H2]. split; [exact H1|]. now constructor.
        -- intros [H1 H2]. split; [exact H1|]. now inversion H2.
Qed.

Lemma pages_as_lines uuid4 pages st :
  fold_left (fun st page => fold_left (step uuid4) (split LF page) st)
            pages st
  = fold_left (step uuid4) (flat_map (split LF) pages) st.
Proof.
  revert st. induction pages as [|page pages IH]; intros st; [reflexivity|].
  cbn [fold_left flat_map]. now rewrite fold_left_app, IH.
Qed.

(** X28.  The sections of a structured book are, in document order, the
    section-heading lines that follow the first chapter heading, with
    the number and the stripped title [_match_section] reads from each.
    A line that is also a chapter heading opens a chapter, not a
    section, and a section-heading line ahead of the first chapter
    heading opens nothing. *)
Theorem sections_are_heading_lines uuid4 pages ttl :
  let b := _structure_content uuid4 pages ttl in
  map (fun se => (section_number se, section_title se))
      (flat_map sections (chapters b))
  = map (fun s => (Some (fst s), snd s))
        (section_headings
           (after_first_chapter (flat_map (split LF) pages))).
Proof.
  intros b. unfold b, _structure_content. cbv zeta.
  rewrite pages_as_lines.
  match goal with
  | |- context [fold_left (step uuid4) ?lines ?s] =>
      destruct (steps_sections uuid4 lines s I) as (_ & Hsec & _);
      destruct (flush_sections uuid4 (fold_left (step uuid4) lines s))
        as (Hflush & _ & _)
  end.
  cbn [book chapters current_chapter flat_map app] in Hsec.
  rewrite <- Hsec, <- Hflush.
  generalize (chapters (book (flush uuid4
    (fold_left (step uuid4) (flat_map (split LF) pages)
       {| book := {| book_id := uuid4 0; title := ttl;
                     subject := _infer_subject ttl; grade_level := None;
                     chapters := []; book_s3_key := None;
                     processed_at := None; book_metadata := [] |};
          current_chapter := None; current_section := None;
          accumulated_text := []; next_uuid := 1 |})))).
  intros chs. induction chs as [|ch chs IH]; [reflexivity|].
  cbn [flat_map]. now rewrite map_app, IH.
Qed.

End OutlineFacts.

(* ===================================================================== *)
(** * Properties of [process_book]                                         *)
(* ===================================================================== *)

Module BookEmbeddingFacts.
Import Py Content Generator BookEmbedding Statements.

Lemma assign_concepts_app es i a b :
  assign_concepts es i (a ++ b)
  = assign_concepts es i a ++ assign_concepts es (i + length a) b.
Proof.
  revert i. induction a as [|c a IH]; intros i; simpl.
  - now rewrite Nat.add_0_r.
  - rewrite IH. do 3 f_equal. lia.
Qed.

Lemma assign_concepts_length es i cs :
  length (assign_concepts es i cs) = length cs.
Proof. revert i. induction cs; intros i; simpl; auto. Qed.

Lemma assign_sections_concepts es i ses :
  flat_map concepts (assign_sections es i ses)
  = assign_concepts es i (flat_map concepts ses).
Proof.
  revert i. induction ses as [|se ses IH]; intros i; simpl; [reflexivity|].
  now rewrite IH, assign_concepts_app.
Qed.

Lemma assign_chapters_concepts es i chs :
  flat_map (fun ch => flat_map concepts (sections ch))
           (assign_chapters es i chs)
  = assign_concepts es i
      (flat_map (fun ch => flat_map concepts (sections ch)) chs).
Proof.
  revert i. induction chs as [|ch chs IH]; intros i; simpl; [reflexivity|].
  now rewrite IH, assign_sections_concepts, assign_concepts_app.
Qed.

Lemma assign_sections_skeleton es i ses :
  map (fun se => (section_id se, section_title se, section_number se,
                  section_summary se, length (concepts se)))
      (assign_sections es i ses)
  = map (fun se => (section_id se, section_title se, section_number se,
                    section_summary se, length (concepts se))) ses.
Proof.
  revert i. induction ses as [|se ses IH]; intros i; simpl; [reflexivity|].
  now rewrite IH, assign_concepts_length.
Qed.

Lemma assign_chapters_skeleton es i b :
  skeleton (set_chapters (assign_chapters es i (chapters b)) b) = skeleton b.
Proof.
  unfold skeleton, set_chapters. simpl. f_equal.
  generalize (chapters b). intros chs. revert i.
  induction chs as [|ch chs IH]; intros i; simpl; [reflexivity|].
  now rewrite IH, assign_sections_skeleton.
Qed.

Lemma drop_cons_lookup {A} (l : list A) i x rest :
  drop i l = x :: rest -> l !! i = Some x /\ drop (S i) l = rest.
Proof.
  revert i. induction l as [|y l IH]; intros i H.
  - now rewrite drop_nil in H.
  - destruct i as [|i]; simpl in *.
    + injection H as -> ->. split; [reflexivity | now rewrite drop_0].
    + apply IH, H.
Qed.

(** Concepts and vectors that line up are paired off one by one. *)
Lemma assign_concepts_paired {L} (Q : L -> list float -> Prop)
    (co : L -> Concept) es i locs :
  Forall2 Q locs (drop i es) ->
  Forall2 (fun loc c' =>
             exists v, c' = set_embedding (Some v) (co loc) /\ Q loc v)
          locs (assign_concepts es i (map co locs)).
Proof.
  revert i. induction locs as [|loc locs IH]; intros i H; simpl.
  - constructor.
  - inversion H as [|? v ? rest Hq Hrest Hl Hd]; subst.
    symmetry in Hd. apply drop_cons_lookup in Hd as [Hi Hd].
    constructor.
    + exists v. unfold assign_at. rewrite Hi. auto.
    + apply IH. now rewrite Hd.
Qed.

Section Book.
Variable dimension : Z.
Variable batch_size : Z.
Variable token : Type.
Variable encode : string -> result (list token).
Variable decode : list token -> string.
Variable client : Type.
Variable create : client -> input -> client * result (list (list float)).

(** X9.  [process_book] changes embeddings and nothing else.  With a
    non-zero batch size it returns for every provider; the book it
    returns has the same identity, titles, chapters and sections, and
    the same concepts in the same places, each either as it was or with
    a new embedding, its other fields untouched.  It raises only for a
    batch size of zero. *)
Theorem process_book_keeps_structure st b :
  (batch_size <> 0%Z ->
   exists st' b',
     process_book dimension batch_size encode decode create st b
     = (st', Ok b')
     /\ skeleton b' = skeleton b
     /\ Forall2 (fun c c' => c' = c
                             \/ exists v, c' = set_embedding (Some v) c)
                (all_concepts b) (all_concepts b'))
  /\ (forall st' e,
        process_book dimension batch_size encode decode create st b
        = (st', Raise e) -> batch_size = 0%Z).
Proof.
  split.
  - intros Hbs. unfold process_book.
    destruct (GeneratorFacts.generate_total dimension batch_size token encode
                decode client create st
                (map concept_text (located_concepts b)) Hbs)
      as (st' & es & ->).
    eexists st', _. split; [reflexivity|].
    split; [apply assign_chapters_skeleton|].
    unfold all_concepts at 2. cbn [chapters set_chapters].
    rewrite assign_chapters_concepts. fold (all_concepts b).
    generalize (all_concepts b) 0%nat. intros cs.
    induction cs as [|c cs IH]; intros i; simpl; constructor; auto.
    unfold assign_at. destruct (es !! i); eauto.
  - intros st' e. unfold process_book.
    destruct (generate_embeddings_batch _ _ _ _ _ _ _) as [s [es|e']] eqn:E;
      [discriminate|].
    intros _.
    now destruct (GeneratorFacts.generate_raise dimension batch_size token
                    encode decode client create st _ _ _ E).
Qed.

Variable embeds : string -> list float -> Prop.

(** X10.  For a positive batch size and a provider that answers a call
    with one vector for each input, in order, [process_book] leaves no
    concept without an embedding: every concept gets a vector that
    belongs to its own text (chapter title, section title, type and
    content), whichever calls fail.  The vector is the provider's answer
    to that text, and it is the zero vector only where the retried call
    for that very text gave up. *)
Theorem process_book_embeds_every_concept st b :
  (0 < batch_size)%Z ->
  (forall st i st' data,
     create st i = (st', Ok data) -> Forall2 embeds (inputs i) data) ->
  exists st' b',
    process_book dimension batch_size encode decode create st b
    = (st', Ok b')
    /\ Forall2
         (fun loc c' =>
            exists v,
              c' = set_embedding (Some v) (snd loc)
              /\ corresponds dimension encode decode create embeds
                   (concept_text loc) v)
         (located_concepts b) (all_concepts b').
Proof.
  intros Hpos Hcontract. unfold process_book.
  set (texts := map concept_text (located_concepts b)).
  unfold generate_embeddings_batch.
  destruct (PyFacts.range0_slices texts batch_size Hpos)
    as (starts & -> & Hcat).
  match goal with
  | |- context [embed_batches _ _ _ _ st ?bs []] =>
      pose proof (GeneratorFacts.embed_batches_belong dimension token encode
                    decode client create embeds Hcontract st bs) as Hb;
      destruct (embed_batches dimension encode decode create st bs [])
        as [st' es]
  end.
  rewrite Hcat in Hb. cbn [snd] in Hb.
  eexists st', _. split; [reflexivity|].
  unfold all_concepts. cbn [chapters set_chapters].
  rewrite assign_chapters_concepts. fold (all_concepts b).
  rewrite <- VectorFacts.located_concepts_all.
  apply assign_concepts_paired. rewrite drop_0.
  unfold texts in Hb.
  apply (proj1 (Forall2_fmap_l concept_text _ (located_concepts b) es)) in Hb.
  eapply Forall2_impl; [exact Hb|]. auto.
Qed.

End Book.

Lemma process_book_keeps_structure_witness :
  exists st' b',
    process_book 2 2 Fixtures.encode Fixtures.decode Fixtures.down 0%nat
      Fixtures.chain_book = (st', Ok b')
    /\ skeleton b' = skeleton Fixtures.chain_book.
Proof.
  destruct (proj1 (process_book_keeps_structure 2 2 ascii Fixtures.encode
                     Fixtures.decode nat Fixtures.down 0%nat
                     Fixtures.chain_book))
    as (st' & b' & H1 & H2 & _); [discriminate|].
  exists st', b'. split; assumption.
Defined.

Lemma process_book_embeds_every_concept_witness :
  exists st' b',
    process_book 2 2 Fixtures.encode Fixtures.decode Fixtures.flaky 0%nat
      Fixtures.chain_book = (st', Ok b')
    /\ Forall2
         (fun loc c' =>
            exists v,
              c' = set_embedding (Some v) (snd loc)
              /\ corresponds 2 Fixtures.encode Fixtures.decode
                   Fixtures.flaky (fun t v => v = Fixtures.embed1 t)
                   (concept_text loc) v)
         (located_concepts Fixtures.chain_book) (all_concepts b').
Proof.
  exact (process_book_embeds_every_concept 2 2 ascii Fixtures.encode
           Fixtures.decode nat Fixtures.flaky
           (fun t v => v = Fixtures.embed1 t) 0%nat Fixtures.chain_book
           eq_refl GeneratorFacts.flaky_contract).
Defined.

End BookEmbeddingFacts.

(* ===================================================================== *)
(** * The embedding stage followed by the indexing stage                   *)
(* ===================================================================== *)

Module PipelineFacts.
Import Py Content Generator BookEmbedding VectorStore Statements.

Lemma repeat_lookup {A} (z : A) n i : (i < n)%nat -> repeat z n !! i = Some z.
Proof.
  revert i. induction n as [|n IH]; intros i Hi; [lia|].
  destruct i as [|i]; simpl; [reflexivity|]. apply IH. lia.
Qed.

Lemma assign_concepts_repeat z n i cs :
  (i + length cs <= n)%nat ->
  assign_concepts (repeat z n) i cs = map (set_embedding (Some z)) cs.
Proof.
  revert i. induction cs as [|c cs IH]; intros i Hi; simpl in *.
  - reflexivity.
  - unfold assign_at. rewrite repeat_lookup by lia. f_equal. apply IH. lia.
Qed.

(** With no failing call the count is the number of vectors collected. *)
Lemma store_count_no_failures unavailable utcnow idx b :
  (forall k, unavailable k = false) ->
  snd (store_book_vectors unavailable utcnow idx b)
  = Ok (Z.of_nat (length (List.filter (fun c => truthy (embedding c))
                                      (all_concepts b)))).
Proof.
  intros Hup.
  assert (length (collect_vectors utcnow b)
          = length (List.filter (fun c => truthy (embedding c))
                                (all_concepts b))) as Hlen.
  { pose proof (VectorFacts.collect_vectors_kept utcnow b) as Hk.
    apply (f_equal (@length _)) in Hk. now rewrite !length_map in Hk. }
  unfold store_book_vectors.
  destruct (PyFacts.range0_slices (collect_vectors utcnow b) batch_size)
    as (starts & -> & Hcat); [reflexivity|].
  match goal with
  | |- context [upsert_batches _ idx ?bs 0%Z] =>
      pose proof (VectorFacts.upsert_batches_count unavailable idx bs 0%Z)
        as Hc;
      destruct (upsert_batches unavailable idx bs 0%Z) as [idx' n]
  end.
  cbn [fst snd] in *. destruct Hc as [_ Hall].
  destruct (Hall Hup) as [-> _]. rewrite Hcat, Hlen. f_equal.
Qed.

Section Outage.
Variable dimension : Z.
Variable batch_size : Z.
Variable token : Type.
Variable encode : string -> result (list token).
Variable decode : list token -> string.
Variable client : Type.
Variable create : client -> input -> client * result (list (list float)).
(** Every call to the provider raises. *)
Hypothesis provider_down :
  forall st i, exists st' e, create st i = (st', Raise e).

Lemma retry_down n st t :
  exists st' e, retry encode decode create n st t = (st', Raise e).
Proof.
  revert st. induction n as [|n IH]; intros st; simpl; [eauto|].
  unfold attempt. destruct (_truncate_text encode decode t) as [t'|e].
  - destruct (provider_down st (InputStr t')) as (st' & e & ->). apply IH.
  - apply IH.
Qed.

Lemma fallback_down st batch :
  snd (fallback dimension encode decode create st batch)
  = repeat (zero_vector dimension) (length batch).
Proof.
  revert st. induction batch as [|t rest IH]; intros st; simpl.
  - reflexivity.
  - unfold generate_embedding.
    destruct (retry_down 3 st t) as (st1 & e & ->).
    specialize (IH st1).
    destruct (fallback dimension encode decode create st1 rest) as [st2 vs].
    simpl in *. now rewrite IH.
Qed.

Lemma embed_batch_down st batch :
  snd (embed_batch dimension encode decode create st batch)
  = repeat (zero_vector dimension) (length batch).
Proof.
  unfold embed_batch.
  destruct (truncate_all encode decode batch) as [batch'|e] eqn:Ht.
  - apply GeneratorFacts.truncate_all_each in Ht.
    apply Forall2_length in Ht.
    destruct (provider_down st (InputList batch')) as (st' & e & ->).
    now rewrite fallback_down, Ht.
  - apply fallback_down.
Qed.

Lemma embed_batches_down st batches acc :
  snd (embed_batches dimension encode decode create st batches acc)
  = acc ++ repeat (zero_vector dimension) (length (concat batches)).
Proof.
  revert st acc. induction batches as [|b rest IH]; intros st acc; simpl.
  - now rewrite app_nil_r.
  - pose proof (embed_batch_down st b) as Hb.
    destruct (embed_batch dimension encode decode create st b) as [st' new].
    simpl in Hb. rewrite IH, Hb, length_app, repeat_app.
    now rewrite app_assoc.
Qed.

Lemma truthy_zero_vector :
  truthy (Some (zero_vector dimension)) = (0 <? dimension)%Z.
Proof.
  unfold zero_vector, list_mul.
  destruct dimension as [|p|p]; try reflexivity.
  destruct (Pos2Nat.is_succ p) as (n & Hn).
  change (Z.to_nat (Z.pos p)) with (Pos.to_nat p). now rewrite Hn.
Qed.

(** X11.  A provider outage does not stop the pipeline.  When every
    call to the provider raises, [process_book] still returns, with the
    zero vector of the configured dimension as the embedding of every
    concept; [store_book_vectors] then indexes every one of them when
    the dimension is positive, and none when it is not (the zero vector
    is then the empty list, which the indexer skips). *)
Theorem outage_indexes_zero_vectors unavailable utcnow idx st b :
  (0 < batch_size)%Z ->
  (forall k, unavailable k = false) ->
  exists st' b',
    process_book dimension batch_size encode decode create st b
    = (st', Ok b')
    /\ all_concepts b'
       = map (set_embedding (Some (zero_vector dimension))) (all_concepts b)
    /\ snd (store_book_vectors unavailable utcnow idx b')
       = Ok (if (0 <? dimension)%Z
             then Z.of_nat (length (all_concepts b)) else 0%Z).
Proof.
  intros Hpos Hup. unfold process_book.
  set (texts := map concept_text (located_concepts b)).
  unfold generate_embeddings_batch.
  destruct (PyFacts.range0_slices texts batch_size Hpos)
    as (starts & -> & Hcat).
  match goal with
  | |- context [embed_batches _ _ _ _ st ?bs []] =>
      pose proof (embed_batches_down st bs []) as Hb;
      destruct (embed_batches dimension encode decode create st bs [])
        as [st' es]
  end.
  rewrite Hcat in Hb. cbn [snd app] in Hb. subst es.
  eexists st', _. split; [reflexivity|].
  assert (length texts = length (all_concepts b)) as Hlen.
  { unfold texts.
    now rewrite length_map, <- VectorFacts.located_concepts_all, length_map. }
  match goal with
  | |- all_concepts ?b' = _ /\ _ =>
      assert (all_concepts b'
              = map (set_embedding (Some (zero_vector dimension)))
                    (all_concepts b)) as Hall
  end.
  { unfold all_concepts at 1. cbn [chapters set_chapters].
    rewrite BookEmbeddingFacts.assign_chapters_concepts. fold (all_concepts b).
    apply assign_concepts_repeat. lia. }
  split; [exact Hall|].
  rewrite store_count_no_failures by exact Hup. rewrite Hall. f_equal.
  clear Hall Hlen. induction (all_concepts b) as [|c cs IH].
  - simpl. now destruct (0 <? dimension)%Z.
  - cbn [map List.filter embedding set_embedding].
    rewrite truthy_zero_vector.
    destruct (0 <? dimension)%Z; cbn [length] in *; lia.
Qed.

End Outage.

Lemma outage_indexes_zero_vectors_witness :
  exists st' b',
    process_book 2 2 Fixtures.encode Fixtures.decode Fixtures.down 0%nat
      Fixtures.chain_book = (st', Ok b')
    /\ snd (store_book_vectors Fixtures.always_up Fixtures.clock empty_index b')
       = Ok 3%Z.
Proof.
  destruct (outage_indexes_zero_vectors 2 2 ascii Fixtures.encode
              Fixtures.decode nat Fixtures.down
              (fun st i => ex_intro _ (S st) (ex_intro _ _ eq_refl))
              Fixtures.always_up Fixtures.clock empty_index 0%nat
              Fixtures.chain_book eq_refl (fun k => eq_refl))
    as (st' & b' & H1 & _ & H3).
  exists st', b'. split; [exact H1 | exact H3].
Defined.

End PipelineFacts.

(* ===================================================================== *)
(** * The identities drawn while a book is structured                      *)
(* ===================================================================== *)

Module IdentityFacts.
Import Py Content Extractor Identities Statements.

Lemma alter_perm {A B} (g : A -> list B) (f : A -> A) i (l : list A) x extra :
  l !! i = Some x -> g (f x) ≡ₚ g x ++ extra ->
  flat_map g (alter f i l) ≡ₚ flat_map g l ++ extra.
Proof.
  revert i. induction l as [|y l IH]; intros i Hi Hg; [discriminate|].
  destruct i as [|i]; cbn in Hi |- *.
  - injection Hi as ->. rewrite Hg, <- !app_assoc.
    apply Permutation_app_head, Permutation_app_comm.
  - rewrite (IH i Hi Hg). now rewrite app_assoc.
Qed.

Lemma alter_none {A} (f : A -> A) i (l : list A) :
  l !! i = None -> alter f i l = l.
Proof.
  revert i. induction l as [|y l IH]; intros i Hi; [reflexivity|].
  destruct i as [|i]; [discriminate|]. cbn in *. f_equal. now apply IH.
Qed.

(** The concept ids of a book, in document order, are among its ids. *)
Lemma concept_ids_sublist (b : Book) :
  sublist (map concept_id (all_concepts b)) (ids_of b).
Proof.
  unfold all_concepts, ids_of. apply sublist_cons.
  induction (chapters b) as [|ch chs IH]; [constructor|].
  cbn [flat_map]. rewrite map_app. apply sublist_app; [|exact IH].
  unfold chapter_ids. apply sublist_cons.
  induction (sections ch) as [|se ses IHs]; [constructor|].
  cbn [flat_map]. rewrite map_app. apply sublist_app; [|exact IHs].
  unfold section_ids. apply sublist_cons. reflexivity.
Qed.

Section Drawn.
Variable uuid4 : nat -> string.

Lemma concepts_of_ids paras next :
  let r := concepts_of uuid4 paras next in
  snd r = (next + length (fst r))%nat
  /\ map concept_id (fst r) = map uuid4 (seq next (length (fst r))).
Proof.
  revert next. induction paras as [|para rest IH]; intros next.
  - simpl. split; [lia | reflexivity].
  - cbn [concepts_of]. destruct (String.length para <? 50)%nat; [apply IH|].
    specialize (IH (S next)).
    destruct (concepts_of uuid4 rest (S next)) as [more next'].
    cbn [fst snd] in *. destruct IH as [Hn Hids].
    cbn [length map seq concept_id]. split; [lia | now rewrite Hids].
Qed.

(** The ids in the book are identities drawn so far, each of a draw of
    its own. *)
Abbreviation drawn st :=
  (exists l : list nat,
     ids_of (book st) ≡ₚ map uuid4 l
     /\ NoDup l /\ Forall (fun n => lt n (next_uuid st)) l).

Lemma drawn_more (b : Book) l next (k : nat) :
  NoDup l -> Forall (fun n => (n < next)%nat) l ->
  NoDup (l ++ seq next k)
  /\ Forall (fun n => (n < next + k)%nat) (l ++ seq next k).
Proof.
  intros Hnd Hlt. split.
  - apply NoDup_app. split; [exact Hnd|]. split; [|apply NoDup_seq].
    intros n Hn Hs. apply elem_of_seq in Hs.
    rewrite Forall_forall in Hlt. specialize (Hlt n Hn). lia.
  - apply Forall_app. split.
    + eapply Forall_impl; [exact Hlt|]. intros n Hn. cbn in Hn. lia.
    + apply Forall_forall. intros n Hs. apply elem_of_seq in Hs. lia.
Qed.

Lemma flush_drawn st : drawn st -> drawn (flush uuid4 st).
Proof.
  intros (l & Hp & Hnd & Hlt). unfold flush.
  destruct (current_section st) as [[ci si]|]; [|now exists l].
  destruct (accumulated_text st) as [|t ts]; [now exists l|].
  pose proof (concepts_of_ids (paragraphs (join LF (t :: ts))) (next_uuid st))
    as Hids.
  unfold _extract_concepts.
  destruct (concepts_of uuid4 (paragraphs (join LF (t :: ts))) (next_uuid st))
    as [new next].
  cbn [fst snd] in Hids. destruct Hids as [-> Hids].
  cbn [book next_uuid]. unfold extend_section, ids_of.
  cbn [book_id chapters set_chapters fst snd].
  destruct (drawn_more (book st) l (next_uuid st) (length new) Hnd Hlt)
    as [Hnd' Hlt'].
  destruct (chapters (book st) !! ci) as [ch|] eqn:Hch.
  2:{ rewrite alter_none by exact Hch. exists l. split; [exact Hp|].
      split; [exact Hnd|]. eapply Forall_impl; [exact Hlt|].
      intros n Hn. cbn in Hn. lia. }
  destruct (sections ch !! si) as [se|] eqn:Hse.
  - exists (l ++ seq (next_uuid st) (length new)).
    split; [|split; assumption].
    rewrite map_app, <- Hids, <- Hp. unfold ids_of.
    change (book_id (book st) :: flat_map chapter_ids (chapters (book st)))
      with ([book_id (book st)] ++ flat_map chapter_ids (chapters (book st))).
    change (book_id (book st) :: ?x) with ([book_id (book st)] ++ x).
    rewrite <- app_assoc. apply Permutation_app_head.
    apply (alter_perm chapter_ids _ ci _ ch); [exact Hch|].
    unfold chapter_ids. cbn [chapter_id sections set_sections].
    change (chapter_id ch :: ?x) with ([chapter_id ch] ++ x).
    rewrite <- app_assoc. apply Permutation_app_head.
    apply (alter_perm section_ids _ si _ se); [exact Hse|].
    unfold section_ids. cbn [section_id concepts set_concepts].
    now rewrite map_app.
  - exists l. split; [|split; [exact Hnd|]].
    + rewrite <- Hp. unfold ids_of. apply Permutation_cons; [reflexivity|].
      rewrite (alter_perm chapter_ids _ ci _ ch []);
        [now rewrite app_nil_r | exact Hch |].
      unfold chapter_ids. cbn [chapter_id sections set_sections].
      now rewrite alter_none, app_nil_r by exact Hse.
    + eapply Forall_impl; [exact Hlt|]. intros n Hn. cbn in Hn. lia.
Qed.

Lemma step_drawn st raw : drawn st -> drawn (step uuid4 st raw).
Proof.
  intros Hst. unfold step.
  destruct (String.eqb (strip raw) ""); [exact Hst|].
  pose proof (flush_drawn st Hst) as (l & Hp & Hnd & Hlt).
  destruct (drawn_more (book st) l (next_uuid (flush uuid4 st)) 1 Hnd Hlt)
    as [Hnd' Hlt'].
  rewrite Nat.add_1_r in Hlt'. cbn [seq] in *.
  destruct (_match_chapter (strip raw)) as [[num ttl]|].
  - exists (l ++ [next_uuid (flush uuid4 st)]).
    split; [|split; assumption].
    unfold start_chapter, ids_of.
    cbn [book book_id chapters set_chapters].
    rewrite flat_map_app, map_app, <- Hp. unfold ids_of.
    cbn [flat_map chapter_ids chapter_id sections map app].
    rewrite ?app_nil_r. reflexivity.
  - destruct (_match_section (strip raw)) as [[num ttl]|];
      [destruct (current_chapter st) as [ci|]|]; try exact Hst.
    unfold start_section, ids_of.
    cbn [book book_id chapters set_chapters next_uuid].
    destruct (chapters (book (flush uuid4 st)) !! ci) as [ch|] eqn:Hch.
    + exists (l ++ [next_uuid (flush uuid4 st)]).
      split; [|split; assumption].
      rewrite map_app, <- Hp. unfold ids_of.
      change (book_id (book (flush uuid4 st)) :: ?x)
        with ([book_id (book (flush uuid4 st))] ++ x).
      rewrite <- app_assoc. apply Permutation_app_head.
      apply (alter_perm chapter_ids _ ci _ ch); [exact Hch|].
      unfold chapter_ids. cbn [chapter_id sections set_sections].
      rewrite flat_map_app. cbn [flat_map section_ids section_id concepts map].
      rewrite ?app_nil_r. reflexivity.
    + rewrite alter_none by exact Hch. exists l. split; [exact Hp|].
      split; [exact Hnd|]. eapply Forall_impl; [exact Hlt|].
      intros n Hn. cbn in Hn. lia.
Qed.

Lemma steps_drawn lines st :
  drawn st -> drawn (fold_left (step uuid4) lines st).
Proof.
  revert st. induction lines as [|raw lines IH]; intros st Hst; [exact Hst|].
  cbn [fold_left]. apply IH. now apply step_drawn.
Qed.

Lemma structured_drawn pages ttl :
  exists l, ids_of (_structure_content uuid4 pages ttl) ≡ₚ map uuid4 l
            /\ NoDup l.
Proof.
  unfold _structure_content. cbv zeta.
  match goal with
  | |- context [fold_left ?f pages ?s] =>
      assert (drawn (fold_left f pages s)) as Hd
  end.
  { match goal with
    | |- context [fold_left _ pages ?s] =>
        assert (drawn s) as Hs
          by (exists [0%nat]; split; [reflexivity|];
              split; [apply NoDup_singleton | repeat constructor]);
        generalize dependent s
    end.
    induction pages as [|page pages IH]; intros s Hs; [exact Hs|].
    cbn [fold_left]. apply IH. now apply steps_drawn. }
  destruct (flush_drawn _ Hd) as (l & Hp & Hnd & _). eauto.
Qed.

End Drawn.

(** X26.  The ids of a structured book are pairwise distinct.  When
    [uuid4] never gives the same identity twice, the book, the chapters,
    the sections and the concepts of the book that [_structure_content]
    builds all have different ids; in particular no two concepts share
    an id. *)
Theorem structured_book_ids_distinct uuid4 pages ttl :
  (forall m n, uuid4 m = uuid4 n -> m = n) ->
  let b := _structure_content uuid4 pages ttl in
  NoDup (ids_of b)
  /\ NoDup (map concept_id (all_concepts b)).
Proof.
  intros Hinj b.
  assert (NoDup (ids_of b)) as Hids.
  { destruct (structured_drawn uuid4 pages ttl) as (l & Hp & Hnd).
    unfold b. rewrite Hp. apply NoDup_fmap_2; [|exact Hnd].
    intros m n. apply Hinj. }
  split; [exact Hids|].
  exact (sublist_NoDup _ _ Hids (concept_ids_sublist b)).
Qed.

Lemma structured_book_ids_distinct_witness :
  NoDup (ids_of (_structure_content Fixtures.uuid [Fixtures.preface_page]
                   "Arithmetic")).
Proof.
  apply (structured_book_ids_distinct Fixtures.uuid [Fixtures.preface_page]
           "Arithmetic").
  intros m n H. unfold Fixtures.uuid in H.
  apply (inj (String.app "id-")) in H. now apply (inj pretty) in H.
Defined.

End IdentityFacts.

(* ===================================================================== *)
(** * Properties of the concept route                                      *)
(* ===================================================================== *)

Module RouteFacts.
Import Py Content VectorStore VectorQueries ContentRoutes Statements.

(** A member of [ContentType] is read back from its value. *)
Lemma ContentType_round_trip t :
  ContentType_of_value (ContentType_value t) = Some t.
Proof. destruct t; reflexivity. Qed.

Lemma truthy_default (e : option (list float)) :
  truthy e = true -> Some (default [] e) = e.
Proof. destruct e as [[|x v]|]; simpl; congruence. Qed.

(** X21.  The concept route.  When the index cannot be reached, or holds
    no vector under the id, [get_concept] answers 404 "Concept not
    found": the failure of the fetch is not told apart from a missing
    concept.  After [store_book_vectors] with no failing call, the route
    gives back a concept of the book that has a non-empty embedding and
    whose id no later such concept bears, with its id, type and
    embedding, and with its name cut to 100 and its content cut to 500
    characters. *)
Theorem concept_route_after_store :
  (forall unavailable idx id,
     unavailable (calls idx) = true \/ stored idx !! id = None ->
     snd (get_concept unavailable idx id)
     = HTTPException 404 "Concept not found")
  /\ (forall unavailable utcnow idx b l1 ch se co l2,
        (forall k, unavailable k = false) ->
        List.filter (fun '(_, _, c) => truthy (embedding c))
                    (located_concepts b)
        = l1 ++ (ch, se, co) :: l2 ->
        ~ In (concept_id co) (map (fun x => concept_id (snd x)) l2) ->
        exists c,
          snd (get_concept unavailable
                 (fst (store_book_vectors unavailable utcnow idx b))
                 (concept_id co)) = Response c
          /\ concept_id c = concept_id co
          /\ name c = Py.take 100 (name co)
          /\ content c = Py.take 500 (content co)
          /\ type c = type co
          /\ embedding c = embedding co).
Proof.
  split.
  - intros unavailable idx id H. unfold get_concept.
    destruct (unavailable (calls idx)) eqn:Hu.
    + unfold get_concept_by_id, fetch. now rewrite Hu.
    + destruct H as [H | H]; [discriminate|].
      pose proof (VectorMore.get_concept_by_id_lookup unavailable idx id Hu)
        as Hl.
      destruct (get_concept_by_id unavailable idx id) as [idx' [v|]];
        cbn [snd] in *; [congruence | reflexivity].
  - intros unavailable utcnow idx b l1 ch se co l2 Hup Hkept Hlast.
    assert (truthy (embedding co) = true) as Htruthy.
    { assert (In (ch, se, co)
                 (List.filter (fun '(_, _, c) => truthy (embedding c))
                              (located_concepts b))) as Hin
        by (rewrite Hkept; apply in_or_app; right; now left).
      now apply filter_In in Hin as [_ Hin]. }
    unfold get_concept.
    pose proof (VectorMore.get_concept_by_id_lookup unavailable
                  (fst (store_book_vectors unavailable utcnow idx b))
                  (concept_id co) (Hup _)) as Hl.
    rewrite (VectorMore.stored_after_store _ _ _ _ Hup) in Hl.
    rewrite (VectorMore.collected_lookup utcnow b _ l1 ch se co l2 Hkept Hlast)
      in Hl.
    destruct (get_concept_by_id unavailable _ (concept_id co))
      as [idx' [v|]]; cbn [snd] in Hl; [|discriminate].
    injection Hl as ->.
    cbn [v_metadata _create_vector_data m_concept_type].
    rewrite ContentType_round_trip. eexists. split; [reflexivity|].
    cbn [concept_id name content type embedding v_values v_metadata
         _create_vector_data m_concept_name m_content].
    repeat split. now apply truthy_default.
Qed.

Lemma concept_route_after_store_witness :
  exists c,
    snd (get_concept Fixtures.always_up
           (fst (store_book_vectors Fixtures.always_up Fixtures.clock
                   empty_index Fixtures.two_of_three)) "c3") = Response c
    /\ concept_id c = "c3"
    /\ name c = Py.take 100 "three"
    /\ content c = Py.take 500 "three"
    /\ type c = EXPLANATION
    /\ embedding c = Some [0%float; 1%float].
Proof.
  apply (proj2 concept_route_after_store Fixtures.always_up Fixtures.clock
           empty_index Fixtures.two_of_three
           [(Samples.chapter_of [Samples.c1; Samples.c2; Samples.c3],
             Samples.section_of [Samples.c1; Samples.c2; Samples.c3],
             Samples.c1)]
           (Samples.chapter_of [Samples.c1; Samples.c2; Samples.c3])
           (Samples.section_of [Samples.c1; Samples.c2; Samples.c3])
           Samples.c3 []).
  - intros k. reflexivity.
  - reflexivity.
  - simpl. tauto.
Defined.

End RouteFacts.

(* ===================================================================== *)
(** * Reading the PDF and accepting the upload                             *)
(* ===================================================================== *)

Module IntakeFacts.
Import Py Content Extractor Extraction Processing Statements JobStatements.

(** X22.  Which reader is used, and which failure is seen.  The pages
    pdfplumber reads are used whenever one of them has text; an
    exception of pdfplumber is never raised further.  PyPDF2 is asked
    only when pdfplumber gave no page with text, and [extract_from_bytes]
    raises exactly when PyPDF2 then raises, with that exception.  A
    document in which neither reader finds text is no error: it gives a
    book without chapters. *)
Theorem extraction_falls_back uuid4 pdfplumber_pages pypdf2_pages
    pdf_bytes ttl :
  let first := _extract_with_pdfplumber pdfplumber_pages pdf_bytes in
  let outcome :=
    extract_from_bytes uuid4 pdfplumber_pages pypdf2_pages pdf_bytes ttl in
  (first <> [] -> outcome = Ok (_structure_content uuid4 first ttl))
  /\ (forall e, pdfplumber_pages pdf_bytes = Raise e -> first = [])
  /\ (forall texts,
        first = [] -> pypdf2_pages pdf_bytes = Ok texts ->
        outcome = Ok (_structure_content uuid4 (pages_with_text texts) ttl))
  /\ (forall e,
        outcome = Raise e
        <-> first = [] /\ pypdf2_pages pdf_bytes = Raise e)
  /\ (forall texts,
        first = [] -> pypdf2_pages pdf_bytes = Ok texts ->
        pages_with_text texts = [] ->
        exists b, outcome = Ok b /\ chapters b = []).
Proof.
  intros first outcome. unfold outcome, extract_from_bytes.
  fold first. unfold _extract_with_pypdf2.
  split; [|split; [|split; [|split]]].
  - destruct first; [now intros H | reflexivity].
  - intros e He. unfold first, _extract_with_pdfplumber. now rewrite He.
  - intros texts -> ->. reflexivity.
  - intros e. destruct first as [|p ps].
    + destruct (pypdf2_pages pdf_bytes) as [texts|e'].
      * split; [discriminate | intros [_ H]; discriminate].
      * split; [intros H; split; [reflexivity | congruence]
               | intros [_ H]; congruence].
    + split; [discriminate | intros [H _]; discriminate].
  - intros texts -> -> ->. eexists. split; reflexivity.
Qed.

Lemma extraction_falls_back_witness :
  extract_from_bytes Fixtures.uuid
    (fun _ => Raise (Exception "not a PDF"))
    (fun _ => Ok [Some Fixtures.preface_page; None; Some ""])
    "%PDF" "Arithmetic"
  = Ok (_structure_content Fixtures.uuid
          (pages_with_text [Some Fixtures.preface_page; None; Some ""])
          "Arithmetic").
Proof.
  apply (extraction_falls_back Fixtures.uuid
           (fun _ => Raise (Exception "not a PDF"))
           (fun _ => Ok [Some Fixtures.preface_page; None; Some ""])
           "%PDF" "Arithmetic"); reflexivity.
Defined.

Section Upload.
Variable put_object : string -> string -> result unit.
Variable MAX_PDF_SIZE_MB : Z.

(** X23.  What [upload_pdf] accepts and what it leaves behind.  A file
    whose name does not end in ".pdf", or whose size is above
    [MAX_PDF_SIZE_MB] MiB (a file of exactly that size passes), is
    refused with 400 and the registry is not touched.  Every other
    upload registers one job under the fresh id, with the storage key
    "pdfs/<id>/<filename>" and progress 0, and touches no other job: the
    job is [PENDING] and its run is scheduled when the object store took
    the file, and is [FAILED] with [str(e)] as its message, with no run
    scheduled, when the object store raised [e]. *)
Theorem upload_outcomes jobs filename contents job_id :
  let r := upload_pdf put_object MAX_PDF_SIZE_MB jobs filename contents
             job_id in
  let accepted :=
    endswith filename ".pdf"
    && (Z.of_nat (String.length contents)
        <=? MAX_PDF_SIZE_MB * 1024 * 1024)%Z in
  (accepted = false -> r = (jobs, Rejected 400))
  /\ (accepted = true ->
      exists job,
        fst r = <[job_id := job]> jobs
        /\ same_identity job (new_job job_id filename)
        /\ s3_key job = ("pdfs/" ++ job_id ++ "/" ++ filename)%string
        /\ progress job = 0%Z
        /\ ((exists u, put_object (s3_key job) contents = Ok u)
            /\ snd r = Scheduled job /\ status job = PENDING
            /\ error_message job = None
            \/ exists e,
                 put_object (s3_key job) contents = Raise e
                 /\ snd r = UploadFailed job /\ status job = FAILED
                 /\ error_message job = Some (str_of_exn e)))
  /\ (forall other, other <> job_id -> fst r !! other = jobs !! other).
Proof.
  intros r accepted. unfold r, accepted, upload_pdf.
  rewrite Z.leb_antisym.
  destruct (endswith filename ".pdf"); cbn [negb andb].
  2:{ split; [reflexivity|]. split; [discriminate | reflexivity]. }
  destruct (_ <? _)%Z; cbn [negb].
  { split; [reflexivity|]. split; [discriminate | reflexivity]. }
  split; [discriminate|].
  destruct (put_object (s3_key (new_job job_id filename)) contents)
    as [u|e] eqn:Hput; cbn [fst snd].
  - split.
    + intros _. exists (new_job job_id filename).
      split; [reflexivity|]. split; [unfold same_identity; auto|].
      split; [reflexivity|]. split; [reflexivity|].
      left. rewrite Hput. eauto.
    + intros other Hne. now rewrite lookup_insert_ne.
  - split.
    + intros _. eexists. split; [reflexivity|].
      split; [apply ProcessingMore.writes_identity|].
      split; [reflexivity|]. split; [reflexivity|].
      right. exists e. cbn [fold_left upload_failure_writes apply_write s3_key].
      rewrite Hput. auto.
    + intros other Hne. now rewrite lookup_insert_ne.
Qed.

End Upload.

Lemma upload_outcomes_witness :
  upload_pdf Fixtures.put_ok 1 ∅ "notes.txt" "%PDF" "j1"
  = (∅, Rejected 400).
Proof.
  apply (upload_outcomes Fixtures.put_ok 1 ∅ "notes.txt" "%PDF" "j1").
  reflexivity.
Defined.

End IntakeFacts.

(* ===================================================================== *)
(** * What can fail a job                                                  *)
(* ===================================================================== *)

Module OutcomeFacts.
Import Py Content Generator BookEmbedding VectorStore Extraction Processing
  Statements JobStatements.

Lemma process_book_total dimension batch_size {token}
    (encode : string -> result (list token)) decode {client}
    (create : client -> input -> client * result (list (list float))) st b :
  batch_size <> 0%Z ->
  exists st' b',
    process_book dimension batch_size encode decode create st b = (st', Ok b').
Proof.
  intros Hbs. unfold process_book.
  destruct (GeneratorFacts.generate_total dimension batch_size token encode
              decode client create st
              (map concept_text (located_concepts b)) Hbs)
    as (st' & es & ->).
  eauto.
Qed.

Lemma store_book_vectors_total unavailable utcnow idx b :
  exists idx' n, store_book_vectors unavailable utcnow idx b = (idx', Ok n).
Proof.
  unfold store_book_vectors.
  destruct (PyFacts.range0_slices (collect_vectors utcnow b) batch_size)
    as (starts & -> & _); [reflexivity|].
  destruct (upsert_batches _ _ _ _) as [idx' n]. eauto.
Qed.

Section Run.
Variable uuid4 : nat -> string.
Variable pdfplumber_pages pypdf2_pages : string -> result (list (option string)).
Variable dimension batch_size : Z.
Variable token : Type.
Variable encode : string -> result (list token).
Variable decode : list token -> string.
Variable client : Type.
Variable create : client -> input -> client * result (list (list float)).
Variable unavailable : nat -> bool.
Variable utcnow : nat -> string.
(** The four constructors, and the graph write. *)
Variable manager : Type.
Variable new_PDFExtractor : outcome unit.
Variable new_EmbeddingGenerator : outcome client.
Variable new_GraphManager : outcome manager.
Variable create_book_graph : manager -> Book -> outcome unit.
Variable new_VectorStore : outcome index.
Variable started completed : Z.

(** X27.  What can fail a job, and what cannot.  With the extraction,
    embedding and indexing of the service in place, a non-zero embedding
    batch size and no interruption inside those three, a run ends
    [FAILED] when the PDF cannot be read (progress as before the run),
    when [EmbeddingGenerator()] raises (progress 25), when the graph
    stage raises (progress 50) or when [VectorStore(...)] raises
    (progress 75).  Once the embedding generator is built, nothing in
    the embedding stage fails the job, whatever the provider does; once
    the vector store object is built, nothing in the indexing stage
    does, whatever the index does: the run then ends [COMPLETED] with
    progress 100. *)
Theorem embedding_and_indexing_never_fail_job job pdf_bytes ttl :
  batch_size <> 0%Z ->
  let extract := fun (self : unit) pdf_bytes ttl =>
    uninterrupted
      (extract_from_bytes uuid4 pdfplumber_pages pypdf2_pages pdf_bytes ttl) in
  let embed := fun provider b =>
    uninterrupted
      (snd (process_book dimension batch_size encode decode create
              provider b)) in
  let index := fun idx b =>
    uninterrupted (snd (store_book_vectors unavailable utcnow idx b)) in
  let final :=
    fold_left apply_write
      (task_writes new_PDFExtractor extract new_EmbeddingGenerator embed
         new_GraphManager create_book_graph new_VectorStore index
         started completed pdf_bytes ttl) job in
  let extraction :=
    stage new_PDFExtractor (fun self => extract self pdf_bytes ttl) in
  let graph b :=
    stage new_GraphManager (fun self => create_book_graph self b) in
  (forall e, extraction = Raises e ->
     status final = FAILED /\ progress final = progress job
     /\ error_message final = Some (str_of_exn e))
  /\ (forall b,
        extraction = Returns b ->
        (forall e, new_EmbeddingGenerator = Raises e ->
           status final = FAILED /\ progress final = 25%Z
           /\ error_message final = Some (str_of_exn e))
        /\ (forall provider,
              new_EmbeddingGenerator = Returns provider ->
              exists b',
                embed provider b = Returns b'
                /\ (forall e, graph b' = Raises e ->
                      status final = FAILED /\ progress final = 50%Z
                      /\ error_message final = Some (str_of_exn e))
                /\ (forall u, graph b' = Returns u ->
                      (forall e, new_VectorStore = Raises e ->
                         status final = FAILED /\ progress final = 75%Z
                         /\ error_message final = Some (str_of_exn e))
                      /\ (forall idx, new_VectorStore = Returns idx ->
                            status final = COMPLETED
                            /\ progress final = 100%Z
                            /\ error_message final = error_message job)))).
Proof.
  intros Hbs extract embed index final extraction graph.
  subst final extraction graph extract embed index.
  unfold stage, task_writes, try_except, try_block.
  destruct new_PDFExtractor as [[]|e0|i0] eqn:E0;
    cbn [mbind task_bind call assign].
  2:{ split; [intros e [= <-]; cbn; auto | discriminate]. }
  2:{ split; discriminate. }
  destruct (extract_from_bytes uuid4 pdfplumber_pages pypdf2_pages
              pdf_bytes ttl) as [b|e1] eqn:E1;
    cbn [uninterrupted mbind task_bind call assign].
  2:{ split; [intros e [= <-]; cbn; auto | discriminate]. }
  split; [discriminate|]. intros b0 [= <-].
  destruct new_EmbeddingGenerator as [provider|e2|i2] eqn:E2;
    cbn [mbind task_bind call assign].
  2:{ split; [intros e [= <-]; cbn; auto | discriminate]. }
  2:{ split; discriminate. }
  split; [discriminate|]. intros provider0 [= <-].
  destruct (process_book_total dimension batch_size encode decode create
              provider b Hbs) as (st' & b' & Hb).
  exists b'. rewrite Hb.
  cbn [snd uninterrupted mbind task_bind call assign].
  split; [reflexivity|].
  destruct new_GraphManager as [gm|e3|i3] eqn:E3;
    cbn [mbind task_bind call assign].
  2:{ split; [intros e [= <-]; cbn; auto | discriminate]. }
  2:{ split; discriminate. }
  destruct (create_book_graph gm b') as [u|e4|i4] eqn:E4;
    cbn [mbind task_bind call assign].
  2:{ split; [intros e [= <-]; cbn; auto | discriminate]. }
  2:{ split; discriminate. }
  split; [discriminate|]. intros u0 _.
  destruct new_VectorStore as [idx|e5|i5] eqn:E5;
    cbn [mbind task_bind call assign].
  2:{ split; [intros e [= <-]; cbn; auto | discriminate]. }
  2:{ split; discriminate. }
  split; [discriminate|]. intros idx0 [= <-].
  destruct (store_book_vectors_total unavailable utcnow idx b')
    as (idx' & n & Hn).
  rewrite Hn. cbn. auto.
Qed.

End Run.

Lemma embedding_and_indexing_never_fail_job_witness :
  let final :=
    fold_left apply_write
      (task_writes (Returns tt)
         (fun (self : unit) pdf_bytes ttl =>
            uninterrupted
              (extract_from_bytes Fixtures.uuid
                 (fun _ => Ok [Some Fixtures.preface_page]) (fun _ => Ok [])
                 pdf_bytes ttl))
         (Returns 0%nat)
         (fun provider b =>
            uninterrupted
              (snd (process_book 2 2 Fixtures.encode Fixtures.decode
                      Fixtures.down provider b)))
         Fixtures.built Fixtures.graph_ok
         (Returns empty_index)
         (fun idx b =>
            uninterrupted
              (snd (store_book_vectors (fun _ => true) Fixtures.clock
                      idx b)))
         10 20 "%PDF" "Arithmetic") (new_job "j1" "Arithmetic.pdf") in
  status final = COMPLETED /\ progress final = 100%Z
  /\ error_message final = None.
Proof.
  intros final.
  destruct (embedding_and_indexing_never_fail_job Fixtures.uuid
              (fun _ => Ok [Some Fixtures.preface_page]) (fun _ => Ok [])
              2 2 ascii Fixtures.encode Fixtures.decode nat Fixtures.down
              (fun _ => true) Fixtures.clock unit (Returns tt)
              (Returns 0%nat) Fixtures.built Fixtures.graph_ok
              (Returns empty_index) 10 20 (new_job "j1" "Arithmetic.pdf")
              "%PDF" "Arithmetic") as [_ H]; [discriminate|].
  destruct (H _ eq_refl) as [_ H1].
  destruct (H1 _ eq_refl) as (b' & _ & _ & H2).
  destruct (H2 tt eq_refl) as [_ H3].
  exact (H3 _ eq_refl).
Defined.

End OutcomeFacts.
